(** * Record synchronisation hooks of the patient portal (useHealthRecord.ts)

    A shallow embedding of [src/lib/hooks/useHealthRecord.ts]: the five record
    channels (personal info, vitals, lifestyle, metrics, lab reports), each with
    its cache (the React state of the hook), loader (the effect run when the
    user appears) and writers (the async callbacks the hook returns).

    - A JavaScript [number] is an IEEE 754 binary64 value: Rocq's primitive
      [float], so that [calculateBMI] is evaluated on the very doubles the
      browser computes with.
    - An async callback is a function from the values it closes over (the
      active user, the cache of the current render) and the answers of the
      remote store to an [outcome]: what it returns, the cache after its
      [setState] calls, and the trace of remote requests, toasts and console
      messages it issued, in order.
    - Objects that the code shares and mutates (the [MetricData] entries of the
      metrics cache) live in a heap of addresses, so that aliasing between the
      cache and its shallow copy is visible.
    - [JSON.stringify] and [JSON.parse] are modelled on characters (a string
      holds code units below 256); the two conversions they delegate to the
      engine (a number to its shortest numeral and back) and the engine's
      date parser are fields of [runtime].

    The development also embeds what the hooks rest on and what rests on
    them: the effects that load the five caches, the authentication provider
    ([useAuth.tsx]) the hooks take the active user from, and the effect of
    the profile setup page, which reads the provider's context
    ([AuthProvider], [ProfileSetup] below). *)

From Stdlib Require Import ZArith QArith Qround Lia List Ascii String Bool Sorted.
From Stdlib Require Import PrimFloat SpecFloat FloatOps FloatAxioms Uint63.
From Stdlib Require Import Decimal DecimalString DecimalZ DecimalPos.
From stdpp Require Import gmap strings list.

Local Open Scope string_scope.
Local Open Scope list_scope.
Local Open Scope Z_scope.

(** ** JavaScript values used by the hooks *)

Definition number := float.

(** [ToBoolean] on a number: [+0], [-0] and [NaN] are falsy. *)
Definition ToBoolean_number (x : number) : bool :=
  negb (PrimFloat.is_zero x || PrimFloat.is_nan x).

(** [ToBoolean] on a string: only the empty string is falsy. *)
Definition ToBoolean_string (s : string) : bool :=
  negb (String.eqb s EmptyString).

(** What an async callback resolves to: the hooks return [true], [false], or
    fall off a bare [return;]. *)
Inductive js_return :=
| Return_bool (b : bool)
| Return_undefined.

Definition text := list ascii.

(** The parts of the JavaScript engine the hooks call and that are not
    modelled on characters here. *)
Record runtime := {
  (** [Number::toString(x)] for a finite [x]: its shortest round-tripping numeral. *)
  Number_toString : number -> text;
  (** The value of a JSON number token; [None] when the token does not match
      the JSON number grammar. *)
  JSONNumber_value : text -> option number;
  (** [new Date(s).getTime()]; [None] stands for [NaN] (an invalid date). *)
  Date_getTime : string -> option Z
}.

(** ** JSON *)

#[local] Set Warnings "-register-all".

Inductive json :=
| JNull
| JBool (b : bool)
| JNumber (x : number)
| JString (s : string)
| JArray (items : list json)
| JObject (members : list (string * json)).

(** [ToBoolean] on a value received from the store. *)
Definition ToBoolean_json (v : json) : bool :=
  match v with
  | JNull => false
  | JBool b => b
  | JNumber x => ToBoolean_number x
  | JString s => ToBoolean_string s
  | JArray _ | JObject _ => true
  end.

Module JSON.

Definition double_quote : ascii := Eval cbv in ascii_of_N 34.

Definition code (c : ascii) : N := N_of_ascii c.

Definition hex_digit (n : N) : ascii :=
  if (n <? 10)%N then ascii_of_N (48 + n) else ascii_of_N (87 + n).

(** One code unit of [QuoteJSONString]. *)
Definition quote_char (c : ascii) : text :=
  if Ascii.eqb c double_quote then ["\"%char; double_quote]
  else if Ascii.eqb c "\" then ["\"; "\"]%char
  else if (code c =? 8)%N then ["\"; "b"]%char
  else if (code c =? 9)%N then ["\"; "t"]%char
  else if (code c =? 10)%N then ["\"; "n"]%char
  else if (code c =? 12)%N then ["\"; "f"]%char
  else if (code c =? 13)%N then ["\"; "r"]%char
  else if (code c <? 32)%N
       then ["\"; "u"; "0"; "0"; hex_digit (code c / 16); hex_digit (code c mod 16)]%char
  else [c].

Definition quote_chars (cs : text) : text := flat_map quote_char cs.

Definition QuoteJSONString (s : string) : text :=
  double_quote :: quote_chars (list_ascii_of_string s) ++ [double_quote].

Definition stringify_number (rt : runtime) (x : number) : text :=
  if PrimFloat.is_finite x then Number_toString rt x
  else list_ascii_of_string "null".

(** The items of an array or object literal after its opening bracket:
    separated by commas, closed by [close]. *)
Definition items_with {A : Type} (print : A -> text) (close : ascii) : list A -> text :=
  fix items (l : list A) : text :=
    match l with
    | [] => [close]
    | v :: l' =>
        print v ++
        match l' with
        | [] => [close]
        | _ :: _ => ","%char :: items l'
        end
    end.

(** [SerializeJSONProperty] without indentation (the hooks pass no [space]). *)
Fixpoint stringify_value (rt : runtime) (v : json) : text :=
  match v with
  | JNull => list_ascii_of_string "null"
  | JBool true => list_ascii_of_string "true"
  | JBool false => list_ascii_of_string "false"
  | JNumber x => stringify_number rt x
  | JString s => QuoteJSONString s
  | JArray items => "["%char :: items_with (stringify_value rt) "]" items
  | JObject members =>
      "{"%char ::
      items_with
        (fun kv => QuoteJSONString (fst kv) ++ ":"%char :: stringify_value rt (snd kv))
        "}" members
  end.

(** [JSON.stringify(value)] on a JSON value: always a string. *)
Definition stringify (rt : runtime) (v : json) : string :=
  string_of_list_ascii (stringify_value rt v).

(** *** Parsing *)

Definition is_whitespace (c : ascii) : bool :=
  (code c =? 9)%N || (code c =? 10)%N || (code c =? 13)%N || (code c =? 32)%N.

Fixpoint skip_whitespace (s : text) : text :=
  match s with
  | c :: r => if is_whitespace c then skip_whitespace r else s
  | [] => []
  end.

Definition is_digit (c : ascii) : bool :=
  (48 <=? code c)%N && (code c <=? 57)%N.

(** Characters a JSON number token is made of. *)
Definition is_number_char (c : ascii) : bool :=
  is_digit c || Ascii.eqb c "-" || Ascii.eqb c "+" || Ascii.eqb c "."
  || Ascii.eqb c "e" || Ascii.eqb c "E".

Fixpoint span_number (s : text) : text * text :=
  match s with
  | c :: r =>
      if is_number_char c
      then let (tok, rest) := span_number r in (c :: tok, rest)
      else ([], s)
  | [] => ([], [])
  end.

Definition hex_value (c : ascii) : option N :=
  if is_digit c then Some (code c - 48)%N
  else if (97 <=? code c)%N && (code c <=? 102)%N then Some (code c - 87)%N
  else if (65 <=? code c)%N && (code c <=? 70)%N then Some (code c - 55)%N
  else None.

(** The code unit of [\uXXXX]; the model's strings hold code units below 256,
    a larger one is outside it. *)
Definition unicode_escape (h1 h2 h3 h4 : ascii) : option ascii :=
  match hex_value h1, hex_value h2, hex_value h3, hex_value h4 with
  | Some a, Some b, Some c, Some d =>
      let n := (((a * 16 + b) * 16 + c) * 16 + d)%N in
      if (n <? 256)%N then Some (ascii_of_N n) else None
  | _, _, _, _ => None
  end.

Definition simple_escape (e : ascii) : option ascii :=
  if Ascii.eqb e double_quote then Some double_quote
  else if Ascii.eqb e "\" then Some "\"%char
  else if Ascii.eqb e "/" then Some "/"%char
  else if Ascii.eqb e "b" then Some (ascii_of_N 8)
  else if Ascii.eqb e "f" then Some (ascii_of_N 12)
  else if Ascii.eqb e "n" then Some (ascii_of_N 10)
  else if Ascii.eqb e "r" then Some (ascii_of_N 13)
  else if Ascii.eqb e "t" then Some (ascii_of_N 9)
  else None.

(** The characters of a string literal after its opening quote, up to and
    including the closing quote. *)
Fixpoint parse_string_chars (s : text) : option (text * text) :=
  match s with
  | [] => None
  | c :: r =>
      if Ascii.eqb c double_quote then Some ([], r)
      else if Ascii.eqb c "\" then
        match r with
        | e :: r1 =>
            if Ascii.eqb e "u" then
              match r1 with
              | h1 :: h2 :: h3 :: h4 :: r2 =>
                  match unicode_escape h1 h2 h3 h4, parse_string_chars r2 with
                  | Some u, Some (cs, rest) => Some (u :: cs, rest)
                  | _, _ => None
                  end
              | _ => None
              end
            else
              match simple_escape e, parse_string_chars r1 with
              | Some u, Some (cs, rest) => Some (u :: cs, rest)
              | _, _ => None
              end
        | [] => None
        end
      else if (code c <? 32)%N then None
      else
        match parse_string_chars r with
        | Some (cs, rest) => Some (c :: cs, rest)
        | None => None
        end
  end.

Fixpoint strip_prefix (p s : text) : option text :=
  match p, s with
  | [], _ => Some s
  | a :: p', b :: s' => if Ascii.eqb a b then strip_prefix p' s' else None
  | _ :: _, [] => None
  end.

(** *** Property order of an ordinary object

    Own string keys enumerate with the array indices first, in ascending
    numeric order, then the other keys in creation order. *)

Fixpoint digits_value (cs : text) (acc : N) : option N :=
  match cs with
  | [] => Some acc
  | c :: r => if is_digit c then digits_value r (acc * 10 + (code c - 48))%N else None
  end.

(** The array index a key denotes, when it is a canonical numeric string
    below 2^32 - 1. *)
Definition array_index (k : string) : option N :=
  match list_ascii_of_string k with
  | [] => None
  | c :: r =>
      if Ascii.eqb c "0" && negb (match r with [] => true | _ => false end) then None
      else match digits_value (c :: r) 0 with
           | Some n => if (n <? 4294967295)%N then Some n else None
           | None => None
           end
  end.

Fixpoint has_key (k : string) (o : list (string * json)) : bool :=
  match o with
  | [] => false
  | (k', _) :: o' => String.eqb k k' || has_key k o'
  end.

Fixpoint replace_value (k : string) (v : json) (o : list (string * json)) :=
  match o with
  | [] => []
  | (k', v') :: o' =>
      if String.eqb k k' then (k', v) :: o' else (k', v') :: replace_value k v o'
  end.

Fixpoint insert_index (i : N) (k : string) (v : json) (o : list (string * json)) :=
  match o with
  | [] => [(k, v)]
  | (k', v') :: o' =>
      match array_index k' with
      | Some j => if (j <? i)%N then (k', v') :: insert_index i k v o'
                  else (k, v) :: (k', v') :: o'
      | None => (k, v) :: (k', v') :: o'
      end
  end.

(** [CreateDataProperty(o, k, v)]. *)
Definition set_property (o : list (string * json)) (k : string) (v : json) :=
  if has_key k o then replace_value k v o
  else match array_index k with
       | Some i => insert_index i k v o
       | None => o ++ [(k, v)]
       end.

Definition build_object (ms : list (string * json)) : list (string * json) :=
  fold_left (fun o kv => set_property o (fst kv) (snd kv)) ms [].

(** *** The value grammar, by recursive descent; [fuel] bounds the depth. *)

Fixpoint parse_value (rt : runtime) (fuel : nat) (s : text) {struct fuel}
  : option (json * text) :=
  match fuel with
  | O => None
  | S fuel' =>
      match skip_whitespace s with
      | [] => None
      | c :: r =>
          if Ascii.eqb c "[" then
            match skip_whitespace r with
            | [] => None
            | c' :: r' =>
                if Ascii.eqb c' "]" then Some (JArray [], r')
                else match parse_elements rt fuel' (c' :: r') with
                     | Some (vs, rest) => Some (JArray vs, rest)
                     | None => None
                     end
            end
          else if Ascii.eqb c "{" then
            match skip_whitespace r with
            | [] => None
            | c' :: r' =>
                if Ascii.eqb c' "}" then Some (JObject [], r')
                else match parse_members rt fuel' (c' :: r') with
                     | Some (ms, rest) => Some (JObject (build_object ms), rest)
                     | None => None
                     end
            end
          else if Ascii.eqb c double_quote then
            match parse_string_chars r with
            | Some (cs, rest) => Some (JString (string_of_list_ascii cs), rest)
            | None => None
            end
          else if is_number_char c then
            let (tok, rest) := span_number (c :: r) in
            match JSONNumber_value rt tok with
            | Some x => Some (JNumber x, rest)
            | None => None
            end
          else
            match strip_prefix (list_ascii_of_string "null") (c :: r) with
            | Some rest => Some (JNull, rest)
            | None =>
                match strip_prefix (list_ascii_of_string "true") (c :: r) with
                | Some rest => Some (JBool true, rest)
                | None =>
                    match strip_prefix (list_ascii_of_string "false") (c :: r) with
                    | Some rest => Some (JBool false, rest)
                    | None => None
                    end
                end
            end
      end
  end
with parse_elements (rt : runtime) (fuel : nat) (s : text) {struct fuel}
  : option (list json * text) :=
  match fuel with
  | O => None
  | S fuel' =>
      match parse_value rt fuel' s with
      | Some (v, r) =>
          match skip_whitespace r with
          | [] => None
          | c :: r' =>
              if Ascii.eqb c "," then
                match parse_elements rt fuel' r' with
                | Some (vs, rest) => Some (v :: vs, rest)
                | None => None
                end
              else if Ascii.eqb c "]" then Some ([v], r')
              else None
          end
      | None => None
      end
  end
with parse_members (rt : runtime) (fuel : nat) (s : text) {struct fuel}
  : option (list (string * json) * text) :=
  match fuel with
  | O => None
  | S fuel' =>
      match skip_whitespace s with
      | [] => None
      | q :: r =>
          if Ascii.eqb q double_quote then
            match parse_string_chars r with
            | Some (k, r1) =>
                match skip_whitespace r1 with
                | [] => None
                | c1 :: r2 =>
                    if Ascii.eqb c1 ":" then
                      match parse_value rt fuel' r2 with
                      | Some (v, r3) =>
                          match skip_whitespace r3 with
                          | [] => None
                          | c3 :: r4 =>
                              if Ascii.eqb c3 "," then
                                match parse_members rt fuel' r4 with
                                | Some (ms, rest) =>
                                    Some ((string_of_list_ascii k, v) :: ms, rest)
                                | None => None
                                end
                              else if Ascii.eqb c3 "}"
                                   then Some ([(string_of_list_ascii k, v)], r4)
                              else None
                          end
                      | None => None
                      end
                    else None
                end
            | None => None
            end
          else None
      end
  end.

(** [JSON.parse(text)]: [None] is the [SyntaxError] it throws. *)
Definition parse (rt : runtime) (t : string) : option json :=
  let s := list_ascii_of_string t in
  match parse_value rt (S (List.length s)) s with
  | Some (v, rest) =>
      match skip_whitespace rest with
      | [] => Some v
      | _ :: _ => None
      end
  | None => None
  end.

End JSON.

(** [ToString] of an integer (a template literal interpolating [Date.now()]). *)
Definition ToString_integer (n : Z) : string :=
  NilZero.string_of_int (Z.to_int n).

(** ** The remote store and what a callback leaves behind *)

(** A [PostgrestError]; the hooks read its [code]. *)
Record pg_error := { code : string }.

(** The awaited [{ data, error }] of a query. *)
Record response (D : Type) := { data : option D; error : option pg_error }.
Arguments data {D} _.
Arguments error {D} _.

Record User := { uid : string }.

Record toast_message := {
  title : string;
  description : string;
  destructive : bool
}.

(** ** The records of the five channels *)

Record PersonalInfo := {
  personal_id : option string;
  personal_user_id : option string;
  full_name : string;
  age : number;
  gender : string;
  address : string;
  marital_status : string;
  children : number
}.

(** [Partial<PersonalInfo>]: [None] is an absent key. *)
Record Partial_PersonalInfo := {
  with_personal_id : option string;
  with_personal_user_id : option string;
  with_full_name : option string;
  with_age : option number;
  with_gender : option string;
  with_address : option string;
  with_marital_status : option string;
  with_children : option number
}.

Record VitalsInfo := {
  vitals_id : option string;
  vitals_user_id : option string;
  height : number;
  weight : number;
  bmi : number;
  blood_group : string
}.

Record Partial_VitalsInfo := {
  with_vitals_id : option string;
  with_vitals_user_id : option string;
  with_height : option number;
  with_weight : option number;
  with_bmi : option number;
  with_blood_group : option string
}.

Record LifestyleInfo := {
  lifestyle_id : option string;
  lifestyle_user_id : option string;
  activity_level : string;
  smoking_status : string;
  alcohol_consumption : string
}.

Record Partial_LifestyleInfo := {
  with_lifestyle_id : option string;
  with_lifestyle_user_id : option string;
  with_activity_level : option string;
  with_smoking_status : option string;
  with_alcohol_consumption : option string
}.

Record MetricReading := {
  reading_id : string;
  date : string;
  value : number
}.

(** An object the metrics cache can reach: a [MetricData] entry (name, unit,
    optional normal range, readings), or a built-in of the realm, which has a
    [name] at most until the hook assigns it [readings]. [None] is an absent
    property. *)
Record MetricData := {
  metric_name : option string;
  metric_unit : option string;
  normal_range : option (number * number);
  readings : option (list MetricReading)
}.

(** A lab report as the cache holds it. [status] is typed
    ["normal" | "abnormal" | "pending"] but cast unchecked from the row, so it
    is whatever the row had ([None]: null); [testResults] is the parsed value,
    cast unchecked to [LabTestResult[]]. *)
Record LabReport := {
  report_id : string;
  report_name : string;
  report_date : string;
  status : option string;
  fileUrl : option string;
  testResults : option json
}.

(** [Omit<LabReport, 'id'>], the argument of [addLabReport]. *)
Record New_LabReport := {
  new_name : string;
  new_date : string;
  new_status : string;
  new_fileUrl : option string;
  new_testResults : option json
}.

(** A row of [health_lab_reports] as the store returns it. *)
Record lab_row := {
  row_id : string;
  row_name : string;
  row_date : string;
  row_status : option string;
  row_fileurl : option string;
  row_testresults : json
}.

(** The object [addLabReport] inserts. *)
Record lab_insert := {
  insert_name : string;
  insert_date : string;
  insert_status : string;
  insert_fileurl : option string;
  insert_testresults : option string;
  insert_user_id : string
}.

(** A row of [health_metrics] as the store returns it. *)
Record metrics_row := { row_metrics : json }.

(** ** Requests, events, outcomes *)

Inductive row :=
| Row_personal (r : PersonalInfo)
| Row_vitals (r : VitalsInfo)
| Row_lifestyle (r : LifestyleInfo)
| Row_metrics (user_id : option string) (metrics : string)
| Row_lab_report (r : lab_insert).

Inductive request :=
(** [.from(table).select('id').eq('user_id', u).single()] *)
| Select_id_single (table user_id : string)
(** [.from(table).update(r).eq('id', i)] *)
| Update_eq_id (table : string) (r : row) (i : string)
(** [.from(table).insert(r)] *)
| Insert (table : string) (r : row)
(** [.from(table).insert(r).select()] *)
| Insert_select (table : string) (r : row)
(** [.from(table).delete().eq('id', i).eq('user_id', u)] *)
| Delete_eq_id_eq_user (table i user_id : string).

Inductive event :=
| Remote (q : request)
| Toast (t : toast_message)
| Console_error (label : string).

(** The store as the callbacks see it: an answer to each request. *)
Record remote := {
  select_id_single : string -> string -> response string;
  update_eq_id : string -> row -> string -> option pg_error;
  insert_row : string -> row -> option pg_error;
  insert_select : string -> row -> response (list lab_row);
  delete_eq_id_eq_user : string -> string -> string -> option pg_error
}.

Record outcome (C : Type) := {
  returned : js_return;
  cache : C;
  trace : list event
}.
Arguments returned {C} _.
Arguments cache {C} _.
Arguments trace {C} _.

Definition remote_requests (tr : list event) : list request :=
  omap (fun e => match e with Remote q => Some q | _ => None end) tr.

Definition toasts (tr : list event) : list toast_message :=
  omap (fun e => match e with Toast t => Some t | _ => None end) tr.

(** What a loader does: the argument of its one [setState] call if it makes
    it, the labels it passed to [console.error], and the loading flag it
    leaves ([finally] clears it). *)
Record loaded (C : Type) := {
  stored : option C;
  logged : list string;
  isLoading : bool
}.
Arguments stored {C} _.
Arguments logged {C} _.
Arguments isLoading {C} _.

(** The outcome of a [try] block. *)
Inductive attempt :=
| Completed
| Thrown (e : pg_error).

(** The sequence every single-row writer runs inside its [try]: ask whether
    the user has a row; rethrow a check error other than "no rows"
    ([PGRST116]); update the row found ([existingData?.id] truthy) or insert;
    rethrow the write's error. The metrics writer sends different objects on
    the two branches. *)
Definition check_then_write (R : remote) (table user_id : string)
    (for_update for_insert : row) : attempt * list event :=
  let check := select_id_single R table user_id in
  let asked := [Remote (Select_id_single table user_id)] in
  let write :=
    match data check with
    | Some i =>
        if ToBoolean_string i
        then (update_eq_id R table for_update i, Update_eq_id table for_update i)
        else (insert_row R table for_insert, Insert table for_insert)
    | None => (insert_row R table for_insert, Insert table for_insert)
    end in
  let written :=
    match fst write with
    | Some e => (Thrown e, asked ++ [Remote (snd write)])
    | None => (Completed, asked ++ [Remote (snd write)])
    end in
  match error check with
  | Some e => if String.eqb (code e) "PGRST116" then written else (Thrown e, asked)
  | None => written
  end.

Definition destructive_toast (t d : string) : event :=
  Toast {| title := t; description := d; destructive := true |}.

Definition plain_toast (t d : string) : event :=
  Toast {| title := t; description := d; destructive := false |}.

(** ** Personal information *)

Definition merge_PersonalInfo (p : PersonalInfo) (u : Partial_PersonalInfo)
    (user_id : string) : PersonalInfo :=
  {| personal_id := match with_personal_id u with Some i => Some i | None => personal_id p end;
     personal_user_id := Some user_id;
     full_name := default (full_name p) (with_full_name u);
     age := default (age p) (with_age u);
     gender := default (gender p) (with_gender u);
     address := default (address p) (with_address u);
     marital_status := default (marital_status p) (with_marital_status u);
     children := default (children p) (with_children u) |}.

Definition updatePersonalInfo (R : remote) (user : option User)
    (personalInfo : PersonalInfo) (updatedInfo : Partial_PersonalInfo)
    : outcome PersonalInfo :=
  match user with
  | None =>
      {| returned := Return_undefined;
         cache := personalInfo;
         trace := [destructive_toast "Authentication required"
                     "Please log in to save personal information"] |}
  | Some u =>
      let newInfo := merge_PersonalInfo personalInfo updatedInfo (uid u) in
      match check_then_write R "health_personal_info" (uid u)
              (Row_personal newInfo) (Row_personal newInfo) with
      | (Completed, tr) =>
          {| returned := Return_bool true;
             cache := newInfo;
             trace := tr ++ [plain_toast "Personal information updated"
                               "Your personal details have been saved"] |}
      | (Thrown _, tr) =>
          {| returned := Return_bool false;
             cache := personalInfo;
             trace := tr ++ [Console_error "Error saving personal info:";
                             destructive_toast "Update failed"
                               "Could not save personal information"] |}
      end
  end.

(** ** Vitals *)

(** The text [toFixed(1)] returns: either the digits of an integer [n] with a
    point before the last one and a sign in front, or [Number::toString(x)]
    when [x] is not finite or at least 10^21. *)
Inductive fixed_text :=
| Fixed_digits (negative : bool) (n : Z)
| Fixed_ToString (x : number).

(** [Number.prototype.toFixed], step 10.a for one fraction digit, on the
    magnitude [m * 2^e]: "let n be an integer for which n / 10 - x is as
    close to zero as possible; if there are two such n, pick the larger". The
    two candidates are the integers around [10 * x]. *)
Definition nearest_tenths (m : positive) (e : Z) : Z :=
  let m10 := 10 * Z.pos m in
  match e with
  | Zneg p =>
      let d := 2 ^ Z.pos p in
      let below := m10 / d in
      let r := m10 mod d in
      if d - r <=? r then below + 1 else below
  | _ => m10 * 2 ^ e
  end.

Definition toFixed1 (x : number) : fixed_text :=
  match Prim2SF x with
  | S754_finite s m e =>
      if (PrimFloat.abs x <? 1e21)%float
      then Fixed_digits s (nearest_tenths m e)
      else Fixed_ToString x
  | S754_zero _ => Fixed_digits false 0
  | _ => Fixed_ToString x
  end.

(** The number nearest to [n / 10] (ties to even), signed. *)
Definition tenths_to_number (negative : bool) (n : Z) : number :=
  match n with
  | Zpos p =>
      SF2Prim (SFdiv prec emax (S754_finite negative p 0) (S754_finite false 10 0))
  | _ => if negative then PrimFloat.neg_zero else PrimFloat.zero
  end.

(** [parseFloat] on a text [toFixed] returned; [Number::toString(x)] reads
    back as [x]. *)
Definition parseFloat (t : fixed_text) : number :=
  match t with
  | Fixed_digits s n => tenths_to_number s n
  | Fixed_ToString x => x
  end.

Definition calculateBMI (height weight : number) : number :=
  let heightInMeters := (height / 100)%float in
  parseFloat (toFixed1 (weight / (heightInMeters * heightInMeters))%float).

(** [a || b] on numbers, [a] possibly absent. *)
Definition or_number (a : option number) (b : number) : number :=
  match a with
  | Some x => if ToBoolean_number x then x else b
  | None => b
  end.

Definition updateVitalsInfo (R : remote) (user : option User)
    (vitals : VitalsInfo) (updatedInfo : Partial_VitalsInfo)
    : outcome VitalsInfo :=
  match user with
  | None =>
      {| returned := Return_undefined;
         cache := vitals;
         trace := [destructive_toast "Authentication required"
                     "Please log in to save vitals information"] |}
  | Some u =>
      let newHeight := or_number (with_height updatedInfo) (height vitals) in
      let newWeight := or_number (with_weight updatedInfo) (weight vitals) in
      let newBMI := calculateBMI newHeight newWeight in
      let newVitals :=
        {| vitals_id := match with_vitals_id updatedInfo with
                        | Some i => Some i
                        | None => vitals_id vitals
                        end;
           vitals_user_id := Some (uid u);
           height := default (height vitals) (with_height updatedInfo);
           weight := default (weight vitals) (with_weight updatedInfo);
           bmi := newBMI;
           blood_group := default (blood_group vitals) (with_blood_group updatedInfo) |} in
      match check_then_write R "health_vitals" (uid u)
              (Row_vitals newVitals) (Row_vitals newVitals) with
      | (Completed, tr) =>
          {| returned := Return_bool true;
             cache := newVitals;
             trace := tr ++ [plain_toast "Vitals information updated"
                               "Your vitals have been updated successfully"] |}
      | (Thrown _, tr) =>
          {| returned := Return_bool false;
             cache := vitals;
             trace := tr ++ [Console_error "Error saving vitals info:";
                             destructive_toast "Update failed"
                               "Could not save vitals information"] |}
      end
  end.

(** ** Lifestyle *)

Definition updateLifestyleInfo (R : remote) (user : option User)
    (lifestyle : LifestyleInfo) (updatedInfo : Partial_LifestyleInfo)
    : outcome LifestyleInfo :=
  match user with
  | None =>
      {| returned := Return_undefined;
         cache := lifestyle;
         trace := [destructive_toast "Authentication required"
                     "Please log in to save lifestyle information"] |}
  | Some u =>
      let newLifestyle :=
        {| lifestyle_id := match with_lifestyle_id updatedInfo with
                           | Some i => Some i
                           | None => lifestyle_id lifestyle
                           end;
           lifestyle_user_id := Some (uid u);
           activity_level :=
             default (activity_level lifestyle) (with_activity_level updatedInfo);
           smoking_status :=
             default (smoking_status lifestyle) (with_smoking_status updatedInfo);
           alcohol_consumption :=
             default (alcohol_consumption lifestyle)
               (with_alcohol_consumption updatedInfo) |} in
      match check_then_write R "health_lifestyle" (uid u)
              (Row_lifestyle newLifestyle) (Row_lifestyle newLifestyle) with
      | (Completed, tr) =>
          {| returned := Return_bool true;
             cache := newLifestyle;
             trace := tr ++ [plain_toast "Lifestyle information updated"
                               "Your lifestyle information has been saved"] |}
      | (Thrown _, tr) =>
          {| returned := Return_bool false;
             cache := lifestyle;
             trace := tr ++ [Console_error "Error saving lifestyle info:";
                             destructive_toast "Update failed"
                               "Could not save lifestyle information"] |}
      end
  end.

(** ** Metrics *)

(** A reference to an object. *)
Definition ref := nat.

(** The metrics state: the state object (its own keys in property order,
    each holding a reference) and the objects references lead to. *)
Record metrics_cache := {
  metrics : list (string * ref);
  heap : gmap nat MetricData
}.

Definition empty_object : MetricData :=
  {| metric_name := None; metric_unit := None; normal_range := None; readings := None |}.

Definition heap_get (h : gmap nat MetricData) (r : ref) : MetricData :=
  default empty_object (h !! r).

(** A Metrics document: what a reader of the cache sees. *)
Definition document := list (string * MetricData).

Definition visible (st : metrics_cache) : document :=
  map (fun kr => (fst kr, heap_get (heap st) (snd kr))) (metrics st).

(** [Object.prototype], and its own properties in a fresh realm: every
    ordinary object inherits them. *)
Definition Object_prototype : ref := 0%nat.

Definition Object_prototype_properties : list (string * ref) :=
  [("constructor", 1); ("__defineGetter__", 2); ("__defineSetter__", 3);
   ("hasOwnProperty", 4); ("__lookupGetter__", 5); ("__lookupSetter__", 6);
   ("isPrototypeOf", 7); ("propertyIsEnumerable", 8); ("toString", 9);
   ("valueOf", 10); ("__proto__", Object_prototype); ("toLocaleString", 11)]%nat.

Definition builtin_function (n : string) : MetricData :=
  {| metric_name := Some n; metric_unit := None; normal_range := None; readings := None |}.

(** The built-ins of a fresh realm: [Object.prototype], the [Object]
    constructor and the methods, each function with its [name]. *)
Definition realm : gmap nat MetricData :=
  list_to_map
    ((Object_prototype, empty_object) :: (1%nat, builtin_function "Object") ::
     omap (fun kr => if String.eqb (fst kr) "constructor" || String.eqb (fst kr) "__proto__"
                     then None else Some (snd kr, builtin_function (fst kr)))
       Object_prototype_properties).

Fixpoint own_property (k : string) (o : list (string * ref)) : option ref :=
  match o with
  | [] => None
  | (k', r) :: o' => if String.eqb k k' then Some r else own_property k o'
  end.

(** [o[k]] on an ordinary object whose own values are objects: the own
    property, else the one inherited from [Object.prototype]; [None] is
    [undefined]. *)
Definition Get (o : list (string * ref)) (k : string) : option ref :=
  match own_property k o with
  | Some r => Some r
  | None => own_property k Object_prototype_properties
  end.

Definition set_readings (h : gmap nat MetricData) (r : ref) (l : list MetricReading)
    : gmap nat MetricData :=
  let o := heap_get h r in
  <[r := {| metric_name := metric_name o; metric_unit := metric_unit o;
            normal_range := normal_range o; readings := Some l |}]> h.

(** The state the hook starts from. *)
Definition default_metrics : metrics_cache :=
  {| metrics := [("bloodPressure", 12); ("heartRate", 13); ("glucose", 14); ("weight", 15)]%nat;
     heap :=
       <[12%nat := {| metric_name := Some "Blood Pressure"; metric_unit := Some "mmHg";
                      normal_range := Some (90, 120)%float; readings := Some [] |}]>
       (<[13%nat := {| metric_name := Some "Heart Rate"; metric_unit := Some "bpm";
                       normal_range := Some (60, 100)%float; readings := Some [] |}]>
       (<[14%nat := {| metric_name := Some "Blood Glucose"; metric_unit := Some "mg/dL";
                       normal_range := Some (70, 100)%float; readings := Some [] |}]>
       (<[15%nat := {| metric_name := Some "Weight"; metric_unit := Some "kg";
                       normal_range := None; readings := Some [] |}]> realm))) |}.

(** The comparator of the sort: the difference of the two time values, [NaN]
    ([None]) as soon as one date is invalid. Only its sign is used. *)
Definition compare_dates (rt : runtime) (a b : MetricReading) : option Z :=
  match Date_getTime rt (date a), Date_getTime rt (date b) with
  | Some x, Some y => Some (x - y)
  | _, _ => None
  end.

(** [SortCompare]: a [NaN] from the comparator counts as [+0]. *)
Definition SortCompare {A : Type} (comparefn : A -> A -> option Z) (a b : A) : Z :=
  default 0 (comparefn a b).

(** [Array.prototype.sort(comparefn)]. The sort is stable; for a consistent
    comparator that determines the result, which insertion computes: an
    element moves right past another only when it compares greater. *)
Fixpoint sort_insert {A : Type} (comparefn : A -> A -> option Z) (x : A) (l : list A)
    : list A :=
  match l with
  | [] => [x]
  | y :: l' =>
      if 0 <? SortCompare comparefn x y
      then y :: sort_insert comparefn x l'
      else x :: y :: l'
  end.

Definition Array_sort {A : Type} (comparefn : A -> A -> option Z) (l : list A) : list A :=
  foldr (sort_insert comparefn) [] l.

Definition MetricReading_to_json (r : MetricReading) : json :=
  JObject [("id", JString (reading_id r)); ("date", JString (date r));
           ("value", JNumber (value r))].

Definition MetricData_to_json (o : MetricData) : json :=
  JObject
    (match metric_name o with Some n => [("name", JString n)] | None => [] end ++
     match metric_unit o with Some u => [("unit", JString u)] | None => [] end ++
     match normal_range o with
     | Some (lo, hi) => [("normal_range", JObject [("min", JNumber lo); ("max", JNumber hi)])]
     | None => []
     end ++
     match readings o with
     | Some l => [("readings", JArray (map MetricReading_to_json l))]
     | None => []
     end).

Definition document_to_json (d : document) : json :=
  JObject (map (fun kv => (fst kv, MetricData_to_json (snd kv))) d).

(** The Codec's encode: [JSON.stringify(updatedMetrics)]. *)
Definition encode_metrics (rt : runtime) (d : document) : string :=
  JSON.stringify rt (document_to_json d).

(** [now] is what [Date.now()] returns. The text for the store is computed
    here before the existence check and in the source after it; computing
    it has no effect, and both writes carry it. *)
Definition addMetricReading (rt : runtime) (R : remote) (now : Z) (user : option User)
    (st : metrics_cache) (metricKey date : string) (value : number)
    : outcome metrics_cache :=
  match user with
  | None =>
      {| returned := Return_bool false;
         cache := st;
         trace := [destructive_toast "Authentication required"
                     "Please log in to add health metrics"] |}
  | Some u =>
      (* { ...metrics }: a new object with the same references under the same keys *)
      let updatedMetrics := metrics st in
      let newReading :=
        {| reading_id := metricKey +:+ ToString_integer now; date := date; value := value |} in
      match Get updatedMetrics metricKey with
      | None =>
          {| returned := Return_bool false;
             cache := st;
             trace := [destructive_toast "Invalid metric"
                         "The specified metric type does not exist"] |}
      | Some target =>
          let appended :=
            set_readings (heap st) target
              (default [] (readings (heap_get (heap st) target)) ++ [newReading]) in
          let sorted :=
            set_readings appended target
              (Array_sort (compare_dates rt)
                 (default [] (readings (heap_get appended target)))) in
          let metricsForStorage :=
            encode_metrics rt (visible {| metrics := updatedMetrics; heap := sorted |}) in
          match check_then_write R "health_metrics" (uid u)
                  (Row_metrics None metricsForStorage)
                  (Row_metrics (Some (uid u)) metricsForStorage) with
          | (Completed, tr) =>
              {| returned := Return_bool true;
                 cache := {| metrics := updatedMetrics; heap := sorted |};
                 trace :=
                   tr ++ [plain_toast "Reading added"
                            ("New " +:+
                             default "undefined" (metric_name (heap_get sorted target)) +:+
                             " reading has been added")] |}
          | (Thrown _, tr) =>
              {| returned := Return_bool false;
                 cache := {| metrics := metrics st; heap := sorted |};
                 trace := tr ++ [Console_error "Error saving metric reading:";
                                 destructive_toast "Update failed"
                                   "Could not save metric reading"] |}
          end
      end
  end.

(** The loader of the metrics channel, from the awaited answer of
    [.select('*').eq('user_id', user.id).single()]. It stores the parsed value
    as it is (the cast to [Record<string, MetricData>] checks nothing). *)
Definition fetchMetrics (rt : runtime) (answer : response metrics_row) : loaded json :=
  match error answer with
  | Some _ =>
      {| stored := None; logged := ["Error fetching health metrics:"]; isLoading := false |}
  | None =>
      match data answer with
      | Some d =>
          if ToBoolean_json (row_metrics d) then
            match row_metrics d with
            | JString s =>
                match JSON.parse rt s with
                | Some parsedMetrics =>
                    {| stored := Some parsedMetrics; logged := []; isLoading := false |}
                | None =>
                    {| stored := None; logged := ["Error parsing metrics JSON:"];
                       isLoading := false |}
                end
            | JArray _ | JObject _ =>
                {| stored := Some (row_metrics d); logged := []; isLoading := false |}
            | _ => {| stored := None; logged := []; isLoading := false |}
            end
          else {| stored := None; logged := []; isLoading := false |}
      | None => {| stored := None; logged := []; isLoading := false |}
      end
  end.

(** ** Lab reports *)

(** Lines 630-633: the row's status if it is one of the three, else pending. *)
Definition conforming_status (s : option string) : string :=
  match s with
  | Some x =>
      if String.eqb x "normal" || String.eqb x "abnormal" || String.eqb x "pending"
      then x else "pending"
  | None => "pending"
  end.

(** Lines 636-647: the test results of a fetched row, and what was logged. *)
Definition fetched_testResults (rt : runtime) (v : json) : option json * list string :=
  if ToBoolean_json v then
    match v with
    | JString s =>
        match JSON.parse rt s with
        | Some parsed => (Some parsed, [])
        | None => (None, ["Error parsing test results:"])
        end
    | JArray _ => (Some v, [])
    | _ => (None, [])
    end
  else (None, []).

(** [s || undefined] and [s || null] on an optional string. *)
Definition truthy_string (s : option string) : option string :=
  match s with
  | Some x => if ToBoolean_string x then Some x else None
  | None => None
  end.

Definition transform_row (rt : runtime) (item : lab_row) : LabReport * list string :=
  let results := fetched_testResults rt (row_testresults item) in
  ({| report_id := row_id item;
      report_name := row_name item;
      report_date := row_date item;
      status := Some (conforming_status (row_status item));
      fileUrl := truthy_string (row_fileurl item);
      testResults := fst results |},
   snd results).

Definition fetchLabReports (rt : runtime) (answer : response (list lab_row))
    : loaded (list LabReport) :=
  match error answer with
  | Some _ =>
      {| stored := None; logged := ["Error fetching lab reports:"]; isLoading := false |}
  | None =>
      match data answer with
      | Some rows =>
          let transformed := map (transform_row rt) rows in
          {| stored := Some (map fst transformed);
             logged := concat (map snd transformed);
             isLoading := false |}
      | None => {| stored := None; logged := []; isLoading := false |}
      end
  end.

(** Lines 703-714: the inserted row back in the cache's shape; [None] when
    [JSON.parse] throws. The status is cast, not checked. *)
Definition returned_report (rt : runtime) (r : lab_row) : option LabReport :=
  let results :=
    if ToBoolean_json (row_testresults r) then
      match row_testresults r with
      | JString s =>
          match JSON.parse rt s with
          | Some parsed => Some (Some parsed)
          | None => None
          end
      | v => Some (Some v)
      end
    else Some None in
  match results with
  | Some t =>
      Some {| report_id := row_id r;
              report_name := row_name r;
              report_date := row_date r;
              status := row_status r;
              fileUrl := truthy_string (row_fileurl r);
              testResults := t |}
  | None => None
  end.

Definition addLabReport (rt : runtime) (R : remote) (user : option User)
    (reports : list LabReport) (report : New_LabReport) : outcome (list LabReport) :=
  match user with
  | None =>
      {| returned := Return_bool false;
         cache := reports;
         trace := [destructive_toast "Authentication required"
                     "Please log in to add lab reports"] |}
  | Some u =>
      let failed tr :=
        {| returned := Return_bool false;
           cache := reports;
           trace := tr ++ [Console_error "Error saving lab report:";
                           destructive_toast "Update failed" "Could not save lab report"] |} in
      let newReport :=
        Row_lab_report
          {| insert_name := new_name report;
             insert_date := new_date report;
             insert_status := new_status report;
             insert_fileurl := truthy_string (new_fileUrl report);
             insert_testresults :=
               match new_testResults report with
               | Some v => if ToBoolean_json v then Some (JSON.stringify rt v) else None
               | None => None
               end;
             insert_user_id := uid u |} in
      let answer := insert_select R "health_lab_reports" newReport in
      let asked := [Remote (Insert_select "health_lab_reports" newReport)] in
      match error answer with
      | Some _ => failed asked
      | None =>
          match data answer with
          | Some (first :: _) =>
              match returned_report rt first with
              | Some transformedReport =>
                  {| returned := Return_bool true;
                     cache := reports ++ [transformedReport];
                     trace := asked ++ [plain_toast "Lab report added"
                                          (new_name report +:+
                                           " has been added to your lab reports")] |}
              | None => failed asked
              end
          | _ => {| returned := Return_bool false; cache := reports; trace := asked |}
          end
      end
  end.

Definition deleteLabReport (R : remote) (user : option User)
    (reports : list LabReport) (id : string) : outcome (list LabReport) :=
  match user with
  | None => {| returned := Return_bool false; cache := reports; trace := [] |}
  | Some u =>
      let asked := [Remote (Delete_eq_id_eq_user "health_lab_reports" id (uid u))] in
      match delete_eq_id_eq_user R "health_lab_reports" id (uid u) with
      | Some _ =>
          {| returned := Return_bool false;
             cache := reports;
             trace := asked ++ [Console_error "Error deleting lab report:";
                                destructive_toast "Delete failed"
                                  "Could not remove lab report"] |}
      | None =>
          {| returned := Return_bool true;
             cache := filter (fun report => report_id report <> id) reports;
             trace := asked ++ [plain_toast "Lab report removed"
                                  "The lab report has been removed from your records"] |}
      end
  end.

(** What the store does with the request [deleteLabReport] sends, on a table
    of rows each owned by a user: it removes the rows that pass both filters. *)
Definition store_delete (table : list (string * lab_row)) (i user_id : string)
    : list (string * lab_row) :=
  filter (fun owned => ~ (row_id (snd owned) = i /\ fst owned = user_id)) table.

(** ** An engine instance on integer-valued numbers

    On an integer-valued number of magnitude below 2^53 the engine's numeral
    is the plain decimal one, and the JSON grammar reads it back; this
    instance implements that fragment (any other number has no numeral here,
    and any other token no value). Dates are read in the date-only form
    [YYYY-MM-DD] of the ECMAScript date-time string format, as UTC midnight. *)
Module IntegerEngine.

(** The integer an integer-valued finite number denotes. *)
Definition integer_of_number (x : number) : option Z :=
  match Prim2SF x with
  | S754_zero _ => Some 0
  | S754_finite s m e =>
      let magnitude :=
        match e with
        | Zneg p => if Z.pos m mod 2 ^ Z.pos p =? 0
                    then Some (Z.pos m / 2 ^ Z.pos p) else None
        | _ => Some (Z.pos m * 2 ^ e)
        end in
      match magnitude with
      | Some a => if a <? 2 ^ 53 then Some (if s then - a else a) else None
      | None => None
      end
  | _ => None
  end.

Definition numeral (x : number) : text :=
  match integer_of_number x with
  | Some n => list_ascii_of_string (ToString_integer n)
  | None => []
  end.

Definition number_of_integer (n : Z) : number :=
  PrimFloat.of_uint63 (Uint63.of_Z n).

Definition unsigned_value (cs : text) : option number :=
  match cs with
  | [] => None
  | c :: r =>
      if Ascii.eqb c "0" && negb (match r with [] => true | _ => false end) then None
      else match JSON.digits_value (c :: r) 0 with
           | Some n => if (n <? 2 ^ 53)%N then Some (number_of_integer (Z.of_N n)) else None
           | None => None
           end
  end.

Definition token_value (tok : text) : option number :=
  match tok with
  | c :: r =>
      if Ascii.eqb c "-"
      then option_map PrimFloat.opp (unsigned_value r)
      else unsigned_value tok
  | [] => None
  end.

Definition two_digits (a b : ascii) : option Z :=
  if JSON.is_digit a && JSON.is_digit b
  then Some (Z.of_N (JSON.code a - 48) * 10 + Z.of_N (JSON.code b - 48))
  else None.

Definition is_leap (y : Z) : bool :=
  ((y mod 4 =? 0) && negb (y mod 100 =? 0)) || (y mod 400 =? 0).

Definition days_in_month (y m : Z) : Z :=
  if m =? 2 then (if is_leap y then 29 else 28)
  else if (m =? 4) || (m =? 6) || (m =? 9) || (m =? 11) then 30 else 31.

(** Days from 1970-01-01 to the civil date [y]-[m]-[d]. *)
Definition days_from_civil (y m d : Z) : Z :=
  let y' := if m <=? 2 then y - 1 else y in
  let era := y' / 400 in
  let yoe := y' - era * 400 in
  let mp := (m + 9) mod 12 in
  let doy := (153 * mp + 2) / 5 + d - 1 in
  let doe := yoe * 365 + yoe / 4 - yoe / 100 + doy in
  era * 146097 + doe - 719468.

Definition date_time (s : string) : option Z :=
  match list_ascii_of_string s with
  | [y1; y2; y3; y4; d1; m1; m2; d2; a; b] =>
      if Ascii.eqb d1 "-" && Ascii.eqb d2 "-" then
        match two_digits y1 y2, two_digits y3 y4, two_digits m1 m2, two_digits a b with
        | Some yh, Some yl, Some m, Some d =>
            let y := yh * 100 + yl in
            if (1 <=? m) && (m <=? 12) && (1 <=? d) && (d <=? days_in_month y m)
            then Some (days_from_civil y m d * 86400000)
            else None
        | _, _, _, _ => None
        end
      else None
  | _ => None
  end.

Definition engine : runtime :=
  {| Number_toString := numeral;
     JSONNumber_value := token_value;
     Date_getTime := date_time |}.

End IntegerEngine.

(** ** Notions the properties are stated with *)

(** The rational a finite number's magnitude [m * 2^e] is. *)
Definition exact (m : positive) (e : Z) : Q :=
  match e with
  | Zneg p => Z.pos m # 2 ^ p
  | _ => inject_Z (Z.pos m * 2 ^ e)
  end.



(** A value that [JSON.stringify] writes and [JSON.parse] reads back, stated
    below as [json_well_formed]: its numbers are finite and survive their own
    numeral; its objects list distinct keys, none an array index (those
    enumerate first, whatever the order of creation). *)
Definition all_of {A : Type} (P : A -> Prop) : list A -> Prop :=
  fix all (l : list A) : Prop :=
    match l with
    | [] => True
    | v :: l' => P v /\ all l'
    end.

Definition plain_key (k : string) : bool :=
  match JSON.array_index k with
  | None => true
  | Some _ => false
  end.

(** A number JSON carries: finite, and read back from its own numeral, which
    is a number token. (The engine prints [NaN] and the infinities as
    [null], and [-0] as [0].) *)
Definition number_well_formed (rt : runtime) (x : number) : Prop :=
  PrimFloat.is_finite x = true /\
  Number_toString rt x <> [] /\
  forallb JSON.is_number_char (Number_toString rt x) = true /\
  JSONNumber_value rt (Number_toString rt x) = Some x.

Fixpoint json_well_formed (rt : runtime) (v : json) : Prop :=
  match v with
  | JNull | JBool _ | JString _ => True
  | JNumber x => number_well_formed rt x
  | JArray items => all_of (json_well_formed rt) items
  | JObject members =>
      NoDup (map fst members) /\
      forallb plain_key (map fst members) = true /\
      all_of (fun kv => json_well_formed rt (snd kv)) members
  end.

Definition MetricData_well_formed (rt : runtime) (o : MetricData) : Prop :=
  match normal_range o with
  | Some (lo, hi) => number_well_formed rt lo /\ number_well_formed rt hi
  | None => True
  end /\
  Forall (fun r => number_well_formed rt (value r)) (default [] (readings o)).

(** A well-formed Metrics document: its metric keys are distinct and none is
    an array index, and the numbers in it (range bounds, reading values) are
    numbers JSON carries. *)
Definition document_well_formed (rt : runtime) (d : document) : Prop :=
  NoDup (map fst d) /\
  forallb plain_key (map fst d) = true /\
  Forall (fun kv => MetricData_well_formed rt (snd kv)) d.

(** The first entry under a key. *)
Fixpoint entry (k : string) (d : document) : option MetricData :=
  match d with
  | [] => None
  | (k', o) :: d' => if String.eqb k k' then Some o else entry k d'
  end.





(** ** Scenarios: users, states and stores the properties are evaluated on *)
Module Scenario.

Definition patient : User := {| uid := "5f0c" |}.

(** The codes the store answers with: no row for [.single()], a refused
    write, an unreachable service. *)
Definition no_rows : pg_error := {| code := "PGRST116" |}.
Definition refused : pg_error := {| code := "42501" |}.
Definition unavailable : pg_error := {| code := "503" |}.

(** A store holding no row for the user and accepting every write. *)
Definition accepting : remote :=
  {| select_id_single := fun _ _ => {| data := None; error := Some no_rows |};
     update_eq_id := fun _ _ _ => None;
     insert_row := fun _ _ => None;
     insert_select := fun _ _ => {| data := Some []; error := None |};
     delete_eq_id_eq_user := fun _ _ _ => None |}.

(** A store that answers the existence check and refuses the write. *)
Definition refusing_writes : remote :=
  {| select_id_single := fun _ _ => {| data := None; error := Some no_rows |};
     update_eq_id := fun _ _ _ => Some refused;
     insert_row := fun _ _ => Some refused;
     insert_select := fun _ _ => {| data := None; error := Some refused |};
     delete_eq_id_eq_user := fun _ _ _ => Some refused |}.

(** A store holding a row for the user and refusing to update it. *)
Definition refusing_update : remote :=
  {| select_id_single := fun _ _ => {| data := Some "7a1e"; error := None |};
     update_eq_id := fun _ _ _ => Some refused;
     insert_row := fun _ _ => None;
     insert_select := fun _ _ => {| data := None; error := Some refused |};
     delete_eq_id_eq_user := fun _ _ _ => Some refused |}.

(** A store whose existence check fails. *)
Definition failing_check : remote :=
  {| select_id_single := fun _ _ => {| data := None; error := Some unavailable |};
     update_eq_id := fun _ _ _ => None;
     insert_row := fun _ _ => None;
     insert_select := fun _ _ => {| data := None; error := Some unavailable |};
     delete_eq_id_eq_user := fun _ _ _ => Some unavailable |}.

(** The states the hooks start from. *)
Definition default_personalInfo : PersonalInfo :=
  {| personal_id := None; personal_user_id := None; full_name := EmptyString;
     age := 0%float; gender := EmptyString; address := EmptyString;
     marital_status := EmptyString; children := 0%float |}.

Definition default_vitals : VitalsInfo :=
  {| vitals_id := None; vitals_user_id := None; height := 170%float;
     weight := 68%float; bmi := 23.5%float; blood_group := "A+" |}.

Definition default_lifestyle : LifestyleInfo :=
  {| lifestyle_id := None; lifestyle_user_id := None; activity_level := "Moderate";
     smoking_status := "Never"; alcohol_consumption := "Occasionally" |}.

Definition only_height (h : number) : Partial_VitalsInfo :=
  {| with_vitals_id := None; with_vitals_user_id := None; with_height := Some h;
     with_weight := None; with_bmi := None; with_blood_group := None |}.

Definition only_weight (w : number) : Partial_VitalsInfo :=
  {| with_vitals_id := None; with_vitals_user_id := None; with_height := None;
     with_weight := Some w; with_bmi := None; with_blood_group := None |}.

Definition a_report (i : string) : LabReport :=
  {| report_id := i; report_name := "CBC"; report_date := "2024-01-02";
     status := Some "normal"; fileUrl := None; testResults := None |}.

Definition a_new_report : New_LabReport :=
  {| new_name := "CBC"; new_date := "2024-01-02"; new_status := "pending";
     new_fileUrl := None; new_testResults := None |}.

Definition a_reading (i d : string) (v : number) : MetricReading :=
  {| reading_id := i; date := d; value := v |}.

(** The default metrics with two weight readings, the later one first. *)
Definition unsorted_weight : metrics_cache :=
  {| metrics := metrics default_metrics;
     heap := set_readings (heap default_metrics) 15%nat
               [a_reading "weight1" "2024-01-03" 71%float;
                a_reading "weight2" "2024-01-01" 70%float] |}.

End Scenario.

(** A failed remote write: the sequence of [check_then_write] threw. *)
Definition write_fails (R : remote) (table user_id : string) (for_update for_insert : row)
    : Prop :=
  exists e, fst (check_then_write R table user_id for_update for_insert) = Thrown e.


(** The answers a loader gets when the fetch itself succeeds. *)
Definition metrics_answer (v : json) : response metrics_row :=
  {| data := Some {| row_metrics := v |}; error := None |}.

Definition lab_answer (rows : list lab_row) : response (list lab_row) :=
  {| data := Some rows; error := None |}.


(** ** Notions the proofs about JSON texts use *)

(** What may follow a printed value: the end of the text, or a character
    that cannot continue a number token. *)
Definition follows_value (rest : text) : Prop :=
  match rest with
  | [] => True
  | c :: _ => JSON.is_number_char c = false
  end.

(** The first character of a printed value. *)
Definition value_head (c : ascii) : Prop :=
  JSON.is_whitespace c = false /\ Ascii.eqb c "]" = false /\ Ascii.eqb c "}" = false.

Definition all_ascii : list ascii :=
  map (fun n => ascii_of_nat n) (seq 0 256).

Definition option_ascii_eqb (a : option ascii) (c : ascii) : bool :=
  match a with
  | Some x => Ascii.eqb x c
  | None => false
  end.

(** The three shapes [quote_char] produces, each with what the parser needs
    to read the character back. *)
Definition quote_char_shape (c : ascii) : bool :=
  match JSON.quote_char c with
  | [x] =>
      Ascii.eqb x c && negb (Ascii.eqb c JSON.double_quote) && negb (Ascii.eqb c "\")
      && negb (JSON.code c <? 32)%N
  | [b; e] =>
      Ascii.eqb b "\" && negb (Ascii.eqb e "u") && option_ascii_eqb (JSON.simple_escape e) c
  | [b; u; h1; h2; h3; h4] =>
      Ascii.eqb b "\" && Ascii.eqb u "u"
      && option_ascii_eqb (JSON.unicode_escape h1 h2 h3 h4) c
  | _ => false
  end.

(** A number character is no whitespace, bracket, brace or quote. *)
Definition number_char_class (c : ascii) : bool :=
  negb (JSON.is_number_char c) ||
  (negb (JSON.is_whitespace c) && negb (Ascii.eqb c "[") && negb (Ascii.eqb c "{")
   && negb (Ascii.eqb c JSON.double_quote) && negb (Ascii.eqb c "]")
   && negb (Ascii.eqb c "}")).

(** With [fuel], the parser reads back every printed value, element list
    and member list that is not longer than [fuel]. *)
Definition reads_values (rt : runtime) (fuel : nat) : Prop :=
  forall v rest,
    (length (JSON.stringify_value rt v) <= fuel)%nat ->
    json_well_formed rt v -> follows_value rest ->
    JSON.parse_value rt fuel (JSON.stringify_value rt v ++ rest) = Some (v, rest).

Definition reads_elements (rt : runtime) (fuel : nat) : Prop :=
  forall items rest,
    items <> [] ->
    (length (JSON.items_with (JSON.stringify_value rt) "]" items) <= fuel)%nat ->
    all_of (json_well_formed rt) items ->
    JSON.parse_elements rt fuel (JSON.items_with (JSON.stringify_value rt) "]" items ++ rest)
    = Some (items, rest).

Definition reads_members (rt : runtime) (fuel : nat) : Prop :=
  forall ms rest,
    ms <> [] ->
    (length (JSON.items_with
               (fun kv : string * json =>
                  JSON.QuoteJSONString (fst kv) ++ ":"%char :: JSON.stringify_value rt (snd kv))
               "}" ms) <= fuel)%nat ->
    all_of (fun kv => json_well_formed rt (snd kv)) ms ->
    JSON.parse_members rt fuel
      (JSON.items_with
         (fun kv : string * json =>
            JSON.QuoteJSONString (fst kv) ++ ":"%char :: JSON.stringify_value rt (snd kv))
         "}" ms ++ rest)
    = Some (ms, rest).

(** ** The effects that load the caches *)

(** What awaiting a promise gives: its value, or a rejection. *)
Inductive awaited (A : Type) :=
| Fulfilled (a : A)
| Rejected.
Arguments Fulfilled {A} _.
Arguments Rejected {A}.

(** The queries of the loaders. *)
Inductive query :=
(** [.from(table).select('*').eq('user_id', u).single()] *)
| Select_all_single (table user_id : string)
(** [.from(table).select('*').eq('user_id', u)] *)
| Select_all (table user_id : string).

(** The value the personal info loader falls back to (lines 106-113). *)
Definition blank_PersonalInfo : PersonalInfo :=
  {| personal_id := None; personal_user_id := None; full_name := EmptyString;
     age := 0%float; gender := EmptyString; address := EmptyString;
     marital_status := EmptyString; children := 0%float |}.

(** The loaders of the three single-row channels, from the awaited answer of
    [.select('*').eq('user_id', user.id).single()]; the row is cast, not
    checked. *)
Definition fetchPersonalInfo (answer : response PersonalInfo) : loaded PersonalInfo :=
  match error answer with
  | Some _ =>
      {| stored := Some blank_PersonalInfo; logged := ["Error fetching personal info:"];
         isLoading := false |}
  | None =>
      match data answer with
      | Some d => {| stored := Some d; logged := []; isLoading := false |}
      | None => {| stored := None; logged := []; isLoading := false |}
      end
  end.

Definition fetchVitalsInfo (answer : response VitalsInfo) : loaded VitalsInfo :=
  match error answer with
  | Some _ =>
      {| stored := None; logged := ["Error fetching vitals info:"]; isLoading := false |}
  | None =>
      match data answer with
      | Some d => {| stored := Some d; logged := []; isLoading := false |}
      | None => {| stored := None; logged := []; isLoading := false |}
      end
  end.

Definition fetchLifestyleInfo (answer : response LifestyleInfo) : loaded LifestyleInfo :=
  match error answer with
  | Some _ =>
      {| stored := None; logged := ["Error fetching lifestyle info:"]; isLoading := false |}
  | None =>
      match data answer with
      | Some d => {| stored := Some d; logged := []; isLoading := false |}
      | None => {| stored := None; logged := []; isLoading := false |}
      end
  end.

(** The [try]/[catch]/[finally] every loader is wrapped in: a rejected
    request is logged, and the loading flag is cleared either way. *)
Definition settled {C D : Type} (body : response D -> loaded C)
    (answer : awaited (response D)) : loaded C :=
  match answer with
  | Fulfilled a => body a
  | Rejected => {| stored := None; logged := ["Unexpected error:"]; isLoading := false |}
  end.

(** One run of a hook's effect: the queries it sent and what its loader did. *)
Record effect_run (C : Type) := {
  asked : list query;
  load : loaded C
}.
Arguments asked {C} _.
Arguments load {C} _.

(** The body of [useEffect(..., [user])]: without a user it clears the
    loading flag and returns; with one it runs the loader on the awaited
    answer of the query [q] for that user's rows. *)
Definition run_effect {C D : Type} (user : option User) (q : string -> query)
    (body : response D -> loaded C) (supabase : query -> awaited (response D))
    : effect_run C :=
  match user with
  | None => {| asked := []; load := {| stored := None; logged := []; isLoading := false |} |}
  | Some u => {| asked := [q (uid u)]; load := settled body (supabase (q (uid u))) |}
  end.

Definition usePersonalInfo_effect (user : option User)
    (supabase : query -> awaited (response PersonalInfo)) : effect_run PersonalInfo :=
  run_effect user (Select_all_single "health_personal_info") fetchPersonalInfo supabase.

Definition useVitalsInfo_effect (user : option User)
    (supabase : query -> awaited (response VitalsInfo)) : effect_run VitalsInfo :=
  run_effect user (Select_all_single "health_vitals") fetchVitalsInfo supabase.

Definition useLifestyleInfo_effect (user : option User)
    (supabase : query -> awaited (response LifestyleInfo)) : effect_run LifestyleInfo :=
  run_effect user (Select_all_single "health_lifestyle") fetchLifestyleInfo supabase.

Definition useHealthMetrics_effect (rt : runtime) (user : option User)
    (supabase : query -> awaited (response metrics_row)) : effect_run json :=
  run_effect user (Select_all_single "health_metrics") (fetchMetrics rt) supabase.

Definition useLabReports_effect (rt : runtime) (user : option User)
    (supabase : query -> awaited (response (list lab_row))) : effect_run (list LabReport) :=
  run_effect user (Select_all "health_lab_reports") (fetchLabReports rt) supabase.

(** The cache a reader sees once a loader has run over [before]. *)
Definition shown_after {C : Type} (before : C) (l : loaded C) : C :=
  default before (stored l).

(** ** Notions the properties of the loaders and writers are stated with *)

(** An effect run that asked nothing and touched nothing but the flag. *)
Definition idle_run {C : Type} (r : effect_run C) : Prop :=
  asked r = [] /\ stored (load r) = None /\ logged (load r) = [] /\ isLoading (load r) = false.

(** An effect run that sent the one query [q] and cleared the flag. *)
Definition asked_once {C : Type} (q : query) (r : effect_run C) : Prop :=
  asked r = [q] /\ isLoading (load r) = false.

(** The three statuses of the [LabReport] type. *)
Definition known_status (s : option string) : Prop :=
  s = Some "normal" \/ s = Some "abnormal" \/ s = Some "pending".

(** A loader that stored nothing and logged the one message [label]. *)
Definition only_logged {C : Type} (label : string) : loaded C :=
  {| stored := None; logged := [label]; isLoading := false |}.

(** The row a store answers an insert into [health_lab_reports] with when it
    keeps what it was sent and assigns the id [i]. *)
Definition echoed (i : string) (r : row) : list lab_row :=
  match r with
  | Row_lab_report sent =>
      [{| row_id := i;
          row_name := insert_name sent;
          row_date := insert_date sent;
          row_status := Some (insert_status sent);
          row_fileurl := insert_fileurl sent;
          row_testresults :=
            match insert_testresults sent with
            | Some t => JString t
            | None => JNull
            end |}]
  | _ => []
  end.

(** Test results as [addLabReport] keeps them: a falsy value is sent as
    [null] and comes back absent. *)
Definition kept_testResults (v : option json) : option json :=
  match v with
  | Some x => if ToBoolean_json x then Some x else None
  | None => None
  end.

(** A column value the writer can have produced: [null], a text, or (from a
    JSON column) an array. *)
Definition text_array_or_null (v : json) : Prop :=
  match v with
  | JNull | JString _ | JArray _ => True
  | _ => False
  end.

(** The report with its status replaced by the one the loader would give. *)
Definition with_conforming_status (r : LabReport) : LabReport :=
  {| report_id := report_id r;
     report_name := report_name r;
     report_date := report_date r;
     status := Some (conforming_status (status r));
     fileUrl := fileUrl r;
     testResults := testResults r |}.

(** The callback resolved to [true]. *)
Definition succeeded (r : js_return) : bool :=
  match r with
  | Return_bool true => true
  | _ => false
  end.

(** Exactly one toast was shown, destructive unless the callback resolved
    to [true]. *)
Definition one_toast {C : Type} (out : outcome C) : Prop :=
  exists t, toasts (trace out) = [t] /\ destructive t = negb (succeeded (returned out)).

(** The existence check answered without an error, or with "no rows". *)
Definition check_tolerated (R : remote) (table user_id : string) : Prop :=
  error (select_id_single R table user_id) = None \/
  exists e, error (select_id_single R table user_id) = Some e /\ code e = "PGRST116".

(** How a writer's requests follow the answer to its existence check, for
    the objects [for_update] and [for_insert] it would write: after a check
    error other than "no rows" nothing is written and the callback resolves
    to [false]; when the check found a row with a non-empty id, that row is
    updated and nothing inserted; when it found none, one row is inserted;
    and the callback resolves to [true] exactly when the store accepted the
    write. *)
Definition upsert_protocol {C : Type} (R : remote) (table user_id : string)
    (for_update for_insert : row) (out : outcome C) : Prop :=
  let check := select_id_single R table user_id in
  let asked := Select_id_single table user_id in
  (forall e, error check = Some e -> code e <> "PGRST116" ->
     remote_requests (trace out) = [asked] /\ returned out = Return_bool false) /\
  (check_tolerated R table user_id ->
   (forall i, data check = Some i -> i <> EmptyString ->
      remote_requests (trace out) = [asked; Update_eq_id table for_update i] /\
      (returned out = Return_bool true <-> update_eq_id R table for_update i = None) /\
      (returned out = Return_bool false <-> update_eq_id R table for_update i <> None)) /\
   (data check = None \/ data check = Some EmptyString ->
      remote_requests (trace out) = [asked; Insert table for_insert] /\
      (returned out = Return_bool true <-> insert_row R table for_insert = None) /\
      (returned out = Return_bool false <-> insert_row R table for_insert <> None))).

(** The write a callback sent last carried [r], as an update or an insert
    into [table], right after the existence check. *)
Definition wrote_row {C : Type} (table user_id : string) (r : row) (out : outcome C) : Prop :=
  exists w,
    remote_requests (trace out) = [Select_id_single table user_id; w] /\
    ((exists i, w = Update_eq_id table r i) \/ w = Insert table r).

(** Two partial updates as one: the keys of [b] over those of [a]. *)
Definition later {A : Type} (a b : option A) : option A :=
  match b with
  | Some x => Some x
  | None => a
  end.

Definition later_PersonalInfo (a b : Partial_PersonalInfo) : Partial_PersonalInfo :=
  {| with_personal_id := later (with_personal_id a) (with_personal_id b);
     with_personal_user_id := later (with_personal_user_id a) (with_personal_user_id b);
     with_full_name := later (with_full_name a) (with_full_name b);
     with_age := later (with_age a) (with_age b);
     with_gender := later (with_gender a) (with_gender b);
     with_address := later (with_address a) (with_address b);
     with_marital_status := later (with_marital_status a) (with_marital_status b);
     with_children := later (with_children a) (with_children b) |}.

Definition later_LifestyleInfo (a b : Partial_LifestyleInfo) : Partial_LifestyleInfo :=
  {| with_lifestyle_id := later (with_lifestyle_id a) (with_lifestyle_id b);
     with_lifestyle_user_id := later (with_lifestyle_user_id a) (with_lifestyle_user_id b);
     with_activity_level := later (with_activity_level a) (with_activity_level b);
     with_smoking_status := later (with_smoking_status a) (with_smoking_status b);
     with_alcohol_consumption :=
       later (with_alcohol_consumption a) (with_alcohol_consumption b) |}.

(** ** The authentication provider (useAuth.tsx)

    [AuthProvider] holds the signed-in user, the session and a loading flag
    as React state, mirrors two flags in [localStorage], and talks to the
    authentication service. Each of its callbacks is a function from the
    state and the storage it starts from, and the answers of the service, to
    a [result]: what it resolves to, the state and storage it leaves, and the
    calls, toasts, navigations and console messages it issued, in order. *)
Module AuthProvider.

Record AuthError := { message : string }.

(** A [Session]; the provider reads its [user]. *)
Record Session := { session_user : User }.

Record auth_state := {
  user : option User;
  session : option Session;
  isLoading : bool
}.

Inductive auth_call :=
(** [supabase.auth.signInWithPassword({ email, password })] *)
| SignInWithPassword (email password : string)
(** [supabase.auth.signUp({ email, password })] *)
| SignUp (email password : string)
(** [supabase.auth.signOut()] *)
| SignOut
(** [supabase.auth.resetPasswordForEmail(email, { redirectTo })] *)
| ResetPasswordForEmail (email redirectTo : string)
(** [supabase.auth.getSession()] *)
| GetSession
(** [.from('profiles').select('has_completed_profile').eq('id', id).maybeSingle()] *)
| Select_has_completed_profile (id : string).

Inductive effect :=
| Called (c : auth_call)
| Shown (t : toast_message)
| Navigated (path : string)
| Logged (label : string)
| Logged_error (label : string).

(** [{ data: { user, session }, error }] as the callbacks read it. *)
Record sign_in_answer := {
  sign_in_session : option Session;
  sign_in_error : option AuthError
}.

Record sign_up_answer := {
  sign_up_user : option User;
  sign_up_session : option Session;
  sign_up_error : option AuthError
}.

(** The service as the provider sees it: what each awaited call gives. A
    profile row holds [has_completed_profile], a boolean or [null]. *)
Record client := {
  signInWithPassword : string -> string -> awaited sign_in_answer;
  auth_signUp : string -> string -> awaited sign_up_answer;
  auth_signOut : awaited (option AuthError);
  resetPasswordForEmail : string -> string -> awaited (option AuthError);
  getSession : awaited (option Session);
  has_completed_profile : string -> awaited (response (option bool))
}.

Record result (A : Type) := {
  resolved : A;
  state : auth_state;
  localStorage : gmap string string;
  effects : list effect
}.
Arguments resolved {A} _.
Arguments state {A} _.
Arguments localStorage {A} _.
Arguments effects {A} _.

Definition navigations (tr : list effect) : list string :=
  omap (fun e => match e with Navigated p => Some p | _ => None end) tr.

Definition shown (tr : list effect) : list toast_message :=
  omap (fun e => match e with Shown t => Some t | _ => None end) tr.

Definition calls (tr : list effect) : list auth_call :=
  omap (fun e => match e with Called c => Some c | _ => None end) tr.

Definition destructive_toast (t d : string) : effect :=
  Shown {| title := t; description := d; destructive := true |}.

Definition plain_toast (t d : string) : effect :=
  Shown {| title := t; description := d; destructive := false |}.

(** [profileData?.has_completed_profile || false] *)
Definition completed (profileData : option (option bool)) : bool :=
  match profileData with
  | Some (Some true) => true
  | _ => false
  end.

Definition Boolean_toString (b : bool) : string :=
  if b then "true" else "false".

(** [currentSession?.user ?? null] *)
Definition user_of (s : option Session) : option User :=
  match s with
  | Some x => Some (session_user x)
  | None => None
  end.

Definition checkProfileCompletion (supabase : client) (ls : gmap string string)
    (userId : string) : gmap string string * list effect :=
  let asked := Called (Select_has_completed_profile userId) in
  match has_completed_profile supabase userId with
  | Fulfilled answer =>
      match error answer with
      | Some _ => (ls, [asked; Logged_error "Error fetching profile:"])
      | None =>
          let hasCompletedProfile := completed (data answer) in
          (<["hasCompletedProfile" := Boolean_toString hasCompletedProfile]> ls,
           [asked; Logged "Profile completion check:"])
      end
  | Rejected => (ls, [asked; Logged_error "Profile check error:"])
  end.

(** The listener registered with [supabase.auth.onAuthStateChange]. *)
Definition onAuthStateChange (supabase : client) (st : auth_state) (ls : gmap string string)
    (event : string) (currentSession : option Session) : result unit :=
  let st' := {| user := user_of currentSession; session := currentSession;
                isLoading := isLoading st |} in
  let logged := [Logged "Auth state changed:"] in
  if String.eqb event "SIGNED_IN" then
    let ls' := <["isAuthenticated" := "true"]> ls in
    match currentSession with
    | Some s =>
        let checked := checkProfileCompletion supabase ls' (uid (session_user s)) in
        {| resolved := tt; state := st'; localStorage := fst checked;
           effects := logged ++ snd checked |}
    | None => {| resolved := tt; state := st'; localStorage := ls'; effects := logged |}
    end
  else if String.eqb event "SIGNED_OUT" then
    {| resolved := tt; state := st';
       localStorage := delete "hasCompletedProfile" (delete "isAuthenticated" ls);
       effects := logged |}
  else {| resolved := tt; state := st'; localStorage := ls; effects := logged |}.

(** [initializeAuth] awaits [getSession] outside any [try]: when that call
    rejects, so does [initializeAuth], before it has set anything. *)
Definition initializeAuth (supabase : client) (st : auth_state) (ls : gmap string string)
    : result (awaited unit) :=
  match getSession supabase with
  | Fulfilled initialSession =>
      let st' := {| user := user_of initialSession; session := initialSession;
                    isLoading := false |} in
      let logged := [Called GetSession; Logged "Initial session check:"] in
      match initialSession with
      | Some s =>
          let checked :=
            checkProfileCompletion supabase (<["isAuthenticated" := "true"]> ls)
              (uid (session_user s)) in
          {| resolved := Fulfilled tt; state := st'; localStorage := fst checked;
             effects := logged ++ snd checked |}
      | None =>
          {| resolved := Fulfilled tt; state := st'; localStorage := ls; effects := logged |}
      end
  | Rejected =>
      {| resolved := Rejected; state := st; localStorage := ls; effects := [Called GetSession] |}
  end.

(** The state a callback leaves when its [finally] has cleared the flag and
    it has set neither user nor session. *)
Definition settled_state (st : auth_state) : auth_state :=
  {| user := user st; session := session st; isLoading := false |}.

Definition signIn (supabase : client) (st : auth_state) (ls : gmap string string)
    (email password : string) : result unit :=
  let asked := [Called (SignInWithPassword email password)] in
  let caught tr :=
    {| resolved := tt; state := settled_state st; localStorage := ls;
       effects := tr ++ [Logged_error "Login error:";
                         destructive_toast "Login failed" "An unexpected error occurred"] |} in
  match signInWithPassword supabase email password with
  | Fulfilled answer =>
      match sign_in_error answer with
      | Some e =>
          {| resolved := tt; state := settled_state st; localStorage := ls;
             effects := asked ++ [destructive_toast "Login failed" (message e)] |}
      | None =>
          let welcomed :=
            asked ++ [plain_toast "Login successful" "Welcome to Healthify Patient Portal"] in
          match sign_in_session answer with
          | Some s =>
              let looked :=
                welcomed ++ [Called (Select_has_completed_profile (uid (session_user s)))] in
              match has_completed_profile supabase (uid (session_user s)) with
              | Fulfilled profile =>
                  let flag := completed (data profile) in
                  {| resolved := tt; state := settled_state st;
                     localStorage :=
                       <["hasCompletedProfile" := Boolean_toString flag]>
                         (<["isAuthenticated" := "true"]> ls);
                     effects :=
                       looked ++ [Navigated (if flag then "/dashboard" else "/profile-setup")] |}
              | Rejected => caught looked
              end
          | None =>
              {| resolved := tt; state := settled_state st; localStorage := ls;
                 effects := welcomed |}
          end
      end
  | Rejected => caught asked
  end.

Definition signUp (supabase : client) (st : auth_state) (ls : gmap string string)
    (email password : string) : result bool :=
  let asked := [Logged "Signing up user:"; Called (SignUp email password)] in
  match auth_signUp supabase email password with
  | Fulfilled answer =>
      match sign_up_error answer with
      | Some e =>
          {| resolved := false; state := settled_state st; localStorage := ls;
             effects := asked ++ [destructive_toast "Registration failed" (message e)] |}
      | None =>
          match sign_up_user answer with
          | Some u =>
              {| resolved := true;
                 state := {| user := Some u; session := sign_up_session answer;
                             isLoading := false |};
                 localStorage :=
                   <["hasCompletedProfile" := "false"]> (<["isAuthenticated" := "true"]> ls);
                 effects :=
                   asked ++ [Logged "User created successfully:";
                             plain_toast "Registration successful"
                               "Welcome to Healthify Patient Portal"] |}
          | None =>
              {| resolved := false; state := settled_state st; localStorage := ls;
                 effects := asked |}
          end
      end
  | Rejected =>
      {| resolved := false; state := settled_state st; localStorage := ls;
         effects := asked ++ [Logged_error "Registration error:";
                              destructive_toast "Registration failed"
                                "An unexpected error occurred"] |}
  end.

(** The value [signOut()] resolves to, an error included, is not looked at. *)
Definition signOut (supabase : client) (st : auth_state) (ls : gmap string string)
    : result unit :=
  match auth_signOut supabase with
  | Fulfilled _ =>
      {| resolved := tt;
         state := {| user := None; session := None; isLoading := false |};
         localStorage := delete "hasCompletedProfile" (delete "isAuthenticated" ls);
         effects := [Called SignOut; Navigated "/login"] |}
  | Rejected =>
      {| resolved := tt; state := settled_state st; localStorage := ls;
         effects := [Called SignOut; Logged_error "Logout error:"] |}
  end.

(** [origin] is [window.location.origin]. *)
Definition resetPassword (supabase : client) (st : auth_state) (ls : gmap string string)
    (origin email : string) : result unit :=
  let redirectTo := origin +:+ "/reset-password" in
  let asked := [Called (ResetPasswordForEmail email redirectTo)] in
  match resetPasswordForEmail supabase email redirectTo with
  | Fulfilled (Some e) =>
      {| resolved := tt; state := st; localStorage := ls;
         effects := asked ++ [destructive_toast "Request failed" (message e)] |}
  | Fulfilled None => {| resolved := tt; state := st; localStorage := ls; effects := asked |}
  | Rejected =>
      {| resolved := tt; state := st; localStorage := ls;
         effects := asked ++ [Logged_error "Reset password error:";
                              destructive_toast "Request failed"
                                "An unexpected error occurred"] |}
  end.

(** The two flags as every reader of the storage expects them:
    [isAuthenticated], when present, is "true"; [hasCompletedProfile], when
    present, is "true" or "false". *)
Definition flags_well_formed (ls : gmap string string) : Prop :=
  (forall v, ls !! "isAuthenticated" = Some v -> v = "true") /\
  (forall v, ls !! "hasCompletedProfile" = Some v -> v = "true" \/ v = "false").

(** Two storages that agree outside the two flags. *)
Definition same_elsewhere (ls ls' : gmap string string) : Prop :=
  forall k, k <> "isAuthenticated" -> k <> "hasCompletedProfile" -> ls' !! k = ls !! k.

(** The user in the state is the user of the session in the state. *)
Definition coherent (st : auth_state) : Prop :=
  user st = user_of (session st).

(** A service that rejects every call, for building others from. *)
Definition unreachable : client :=
  {| signInWithPassword := fun _ _ => Rejected;
     auth_signUp := fun _ _ => Rejected;
     auth_signOut := Rejected;
     resetPasswordForEmail := fun _ _ => Rejected;
     getSession := Rejected;
     has_completed_profile := fun _ => Rejected |}.

(** The state the provider starts from. *)
Definition initial_state : auth_state :=
  {| user := None; session := None; isLoading := true |}.

End AuthProvider.

(** ** The profile setup page (ProfileSetup.tsx)

    The page reads the provider's context and the two flags of the storage
    and decides, in [checkAuth], between the login page, the dashboard and
    its own form. The source holds two revisions of the page; both are
    embedded, in the order of the source. [loading] is the [pageLoading]
    state the effect starts from. *)
Module ProfileSetup.

Import AuthProvider.

Record page := {
  pageLoading : bool;
  storage : gmap string string;
  page_effects : list effect
}.

(** [localStorage.getItem(k) === "true"] *)
Definition flag_is_true (ls : gmap string string) (k : string) : bool :=
  match ls !! k with
  | Some v => String.eqb v "true"
  | None => false
  end.

Definition present {A : Type} (o : option A) : bool :=
  match o with
  | Some _ => true
  | None => false
  end.

(** The branch both revisions take when no session is found. *)
Definition to_login (loading : bool) (ls : gmap string string) : page :=
  {| pageLoading := loading; storage := ls;
     page_effects :=
       [Called GetSession;
        Logged "No active session found, redirecting to login";
        destructive_toast "Authentication required"
          "Please log in to complete your profile setup";
        Navigated "/login"] |}.

(** The storage after "Session found but state not updated, fixing...". *)
Definition fixed (ls : gmap string string) : gmap string string :=
  <["hasCompletedProfile" := "false"]> (<["isAuthenticated" := "true"]> ls).

(** The first revision (lines 15-56). *)
Module First.

Definition checkAuth (supabase : client) (ctx : auth_state) (ls : gmap string string)
    (loading : bool) : page :=
  let isAuthenticated := flag_is_true ls "isAuthenticated" in
  let decide_page ls' tr :=
    let hasCompletedProfile := flag_is_true ls' "hasCompletedProfile" in
    if present (user ctx) && hasCompletedProfile
    then {| pageLoading := loading; storage := ls';
            page_effects := tr ++ [Navigated "/dashboard"] |}
    else {| pageLoading := false; storage := ls'; page_effects := tr |} in
  if negb isAuthenticated && negb (present (user ctx)) then
    match getSession supabase with
    | Fulfilled (Some _) =>
        decide_page (fixed ls)
          [Called GetSession; Logged "Session found but state not updated, fixing..."]
    | Fulfilled None => to_login loading ls
    | Rejected => {| pageLoading := loading; storage := ls; page_effects := [Called GetSession] |}
    end
  else decide_page ls [].

Definition effect_body (supabase : client) (ctx : auth_state) (ls : gmap string string)
    (loading : bool) : page :=
  if isLoading ctx
  then {| pageLoading := loading; storage := ls;
          page_effects := [Logged "ProfileSetup: Auth state"] |}
  else
    let checked := checkAuth supabase ctx ls loading in
    {| pageLoading := pageLoading checked; storage := storage checked;
       page_effects := Logged "ProfileSetup: Auth state" :: page_effects checked |}.

End First.

(** The second revision (lines 108-168). *)
Module Second.

Definition checkAuth (supabase : client) (ctx : auth_state) (ls : gmap string string)
    (loading : bool) : page :=
  if isLoading ctx then {| pageLoading := loading; storage := ls; page_effects := [] |}
  else if present (user ctx) && present (session ctx) then
    let known := [Logged "User is already authenticated in context"] in
    if flag_is_true ls "hasCompletedProfile"
    then {| pageLoading := loading; storage := ls;
            page_effects := known ++ [Navigated "/dashboard"] |}
    else {| pageLoading := false; storage := ls; page_effects := known |}
  else if negb (flag_is_true ls "isAuthenticated") then
    match getSession supabase with
    | Fulfilled (Some _) =>
        {| pageLoading := false; storage := fixed ls;
           page_effects :=
             [Called GetSession; Logged "Session found but state not updated, fixing..."] |}
    | Fulfilled None => to_login loading ls
    | Rejected => {| pageLoading := loading; storage := ls; page_effects := [Called GetSession] |}
    end
  else if flag_is_true ls "hasCompletedProfile"
  then {| pageLoading := loading; storage := ls; page_effects := [Navigated "/dashboard"] |}
  else {| pageLoading := false; storage := ls; page_effects := [] |}.

Definition effect_body (supabase : client) (ctx : auth_state) (ls : gmap string string)
    (loading : bool) : page :=
  let checked := checkAuth supabase ctx ls loading in
  {| pageLoading := pageLoading checked; storage := storage checked;
     page_effects := Logged "ProfileSetup: Auth state" :: page_effects checked |}.

End Second.

(** What both revisions guarantee about one run of the effect. *)
Definition decides (supabase : client) (ctx : auth_state) (ls : gmap string string)
    (loading : bool) (out : page) : Prop :=
  (isLoading ctx = true ->
   pageLoading out = loading /\ storage out = ls /\
   navigations (page_effects out) = [] /\ calls (page_effects out) = []) /\
  (navigations (page_effects out) = ["/login"] /\
   flag_is_true ls "isAuthenticated" = false /\ getSession supabase = Fulfilled None /\
   length (shown (page_effects out)) = 1%nat /\
   storage out = ls /\ pageLoading out = loading
   \/
   navigations (page_effects out) = ["/dashboard"] /\
   flag_is_true ls "hasCompletedProfile" = true /\
   shown (page_effects out) = [] /\
   storage out = ls /\ pageLoading out = loading
   \/
   navigations (page_effects out) = [] /\ shown (page_effects out) = [] /\
   (storage out = ls \/
    storage out = fixed ls /\ flag_is_true ls "isAuthenticated" = false /\
    exists s, getSession supabase = Fulfilled (Some s))).

End ProfileSetup.

(** * Properties *)

(** ** Rounding to one decimal *)





(** The rounding applies to the quotient the doubles give: 0.546875 kg at
    125 cm is 0.35 in the rationals, just below it in doubles, hence 0.3. *)
Example calculateBMI_rounds_the_double :
  calculateBMI 125%float 0.546875%float = tenths_to_number false 3 /\
  Prim2SF (0.546875 / ((125 / 100) * (125 / 100)))%float
  = S754_finite false 6305039478318694 (-54) /\
  (6305039478318694 * 20 < 7 * 2 ^ 54).
Proof. vm_compute. repeat split; reflexivity. Qed.


(** ** Vitals *)

Lemma updateVitalsInfo_success R u vitals updatedInfo :
  returned (updateVitalsInfo R (Some u) vitals updatedInfo) = Return_bool true ->
  cache (updateVitalsInfo R (Some u) vitals updatedInfo) =
  {| vitals_id := match with_vitals_id updatedInfo with
                  | Some i => Some i
                  | None => vitals_id vitals
                  end;
     vitals_user_id := Some (uid u);
     height := default (height vitals) (with_height updatedInfo);
     weight := default (weight vitals) (with_weight updatedInfo);
     bmi := calculateBMI (or_number (with_height updatedInfo) (height vitals))
                         (or_number (with_weight updatedInfo) (weight vitals));
     blood_group := default (blood_group vitals) (with_blood_group updatedInfo) |}.
Proof.
  unfold updateVitalsInfo.
  destruct (check_then_write _ _ _ _ _) as [[|e] tr]; cbn; [reflexivity|discriminate].
Qed.




(** C3. A zero height or weight is stored, but [||] takes it for absent when
    the bmi is computed: from the defaults (170 cm, 68 kg, 23.5), a successful
    update to height 0 stores height 0 with bmi 23.5 (the formula gives
    infinity), and one to weight 0 stores weight 0 with bmi 23.5 (the formula
    gives 0). *)
Theorem updateVitalsInfo_zero_keeps_stale_bmi :
  let after_height :=
    updateVitalsInfo Scenario.accepting (Some Scenario.patient)
      Scenario.default_vitals (Scenario.only_height 0%float) in
  let after_weight :=
    updateVitalsInfo Scenario.accepting (Some Scenario.patient)
      Scenario.default_vitals (Scenario.only_weight 0%float) in
  (returned after_height = Return_bool true /\
   height (cache after_height) = 0%float /\
   weight (cache after_height) = 68%float /\
   bmi (cache after_height) = 23.5%float /\
   calculateBMI 0%float 68%float = infinity) /\
  (returned after_weight = Return_bool true /\
   height (cache after_weight) = 170%float /\
   weight (cache after_weight) = 0%float /\
   bmi (cache after_weight) = 23.5%float /\
   calculateBMI 170%float 0%float = 0%float).
Proof.
  vm_compute. repeat split; reflexivity.
Qed.

(** ** Writers without a user *)

(** C2. Without a user no writer asks the store anything or changes its
    cache; but the three single-row writers return [undefined], not [false],
    and [deleteLabReport] shows no toast. *)
Theorem writers_without_user (rt : runtime) (R : remote) :
  (forall personalInfo updatedInfo,
     updatePersonalInfo R None personalInfo updatedInfo =
     {| returned := Return_undefined; cache := personalInfo;
        trace := [destructive_toast "Authentication required"
                    "Please log in to save personal information"] |}) /\
  (forall vitals updatedInfo,
     updateVitalsInfo R None vitals updatedInfo =
     {| returned := Return_undefined; cache := vitals;
        trace := [destructive_toast "Authentication required"
                    "Please log in to save vitals information"] |}) /\
  (forall lifestyle updatedInfo,
     updateLifestyleInfo R None lifestyle updatedInfo =
     {| returned := Return_undefined; cache := lifestyle;
        trace := [destructive_toast "Authentication required"
                    "Please log in to save lifestyle information"] |}) /\
  (forall now st metricKey date value,
     addMetricReading rt R now None st metricKey date value =
     {| returned := Return_bool false; cache := st;
        trace := [destructive_toast "Authentication required"
                    "Please log in to add health metrics"] |}) /\
  (forall reports report,
     addLabReport rt R None reports report =
     {| returned := Return_bool false; cache := reports;
        trace := [destructive_toast "Authentication required"
                    "Please log in to add lab reports"] |}) /\
  (forall reports id,
     deleteLabReport R None reports id =
     {| returned := Return_bool false; cache := reports; trace := [] |}).
Proof.
  split; [|split; [|split; [|split; [|split]]]]; intros; reflexivity.
Qed.

(** ** Writers on a failed write *)

Lemma check_then_write_requests R table user_id for_update for_insert (q : request) :
  q ∈ remote_requests (snd (check_then_write R table user_id for_update for_insert)) ->
  q = Select_id_single table user_id \/
  (exists i, q = Update_eq_id table for_update i) \/ q = Insert table for_insert.
Proof.
  unfold check_then_write.
  destruct (select_id_single R table user_id) as [[i|] [e|]]; cbn [data error];
    repeat match goal with
           | |- context [if ?b then _ else _] => destruct b
           | |- context [match ?o with Some _ => _ | None => _ end] => destruct o
           end; cbn; rewrite ?elem_of_cons, ?elem_of_nil; intros H; intuition eauto.
Qed.

(** The single-row writers and [addLabReport] touch their cache only after
    the store accepted the write: whenever they return [false], the cache is
    the one they were called with; and a failed write makes them return
    [false]. *)
Lemma writers_keep_cache_when_false (rt : runtime) (R : remote) (u : User) :
  (forall p upd,
     returned (updatePersonalInfo R (Some u) p upd) = Return_bool false ->
     cache (updatePersonalInfo R (Some u) p upd) = p) /\
  (forall v upd,
     returned (updateVitalsInfo R (Some u) v upd) = Return_bool false ->
     cache (updateVitalsInfo R (Some u) v upd) = v) /\
  (forall l upd,
     returned (updateLifestyleInfo R (Some u) l upd) = Return_bool false ->
     cache (updateLifestyleInfo R (Some u) l upd) = l) /\
  (forall reports report,
     returned (addLabReport rt R (Some u) reports report) = Return_bool false ->
     cache (addLabReport rt R (Some u) reports report) = reports) /\
  (forall p upd,
     write_fails R "health_personal_info" (uid u)
       (Row_personal (merge_PersonalInfo p upd (uid u)))
       (Row_personal (merge_PersonalInfo p upd (uid u))) ->
     returned (updatePersonalInfo R (Some u) p upd) = Return_bool false).
Proof.
  split; [|split; [|split; [|split]]]; intros *;
    unfold updatePersonalInfo, updateVitalsInfo, updateLifestyleInfo, addLabReport.
  1-3: destruct (check_then_write _ _ _ _ _) as [[|e] tr]; cbn; [discriminate|reflexivity].
  - destruct (error _); [reflexivity|].
    destruct (data _) as [[|first rows]|]; try reflexivity.
    destruct (returned_report rt first); cbn; [discriminate|reflexivity].
  - intros [e He].
    destruct (check_then_write _ _ _ _ _) as [[|e'] tr]; [discriminate He|reflexivity].
Qed.

(** ** JSON: what is printed is read back *)

Lemma all_ascii_complete (c : ascii) : In c all_ascii.
Proof.
  unfold all_ascii. apply in_map_iff. exists (nat_of_ascii c). split.
  - apply ascii_nat_embedding.
  - apply in_seq. pose proof (nat_ascii_bounded c). lia.
Qed.

(** A property of characters holds of all when it holds of the 256. *)
Lemma for_all_ascii (P : ascii -> bool) :
  forallb P all_ascii = true -> forall c, P c = true.
Proof.
  intros H c. rewrite forallb_forall in H. apply H, all_ascii_complete.
Qed.

Lemma quote_char_shaped (c : ascii) : quote_char_shape c = true.
Proof. revert c. apply for_all_ascii. vm_compute. reflexivity. Qed.

Lemma number_char_classified (c : ascii) : number_char_class c = true.
Proof. revert c. apply for_all_ascii. vm_compute. reflexivity. Qed.

Lemma option_ascii_eqb_true (a : option ascii) (c : ascii) :
  option_ascii_eqb a c = true -> a = Some c.
Proof.
  destruct a as [x|]; cbn; [|discriminate].
  intros H. apply Ascii.eqb_eq in H. now subst.
Qed.

Lemma parse_string_chars_quote_char (c : ascii) (r : text) :
  JSON.parse_string_chars (JSON.quote_char c ++ r) =
  match JSON.parse_string_chars r with
  | Some (cs, rest) => Some (c :: cs, rest)
  | None => None
  end.
Proof.
  pose proof (quote_char_shaped c) as H. unfold quote_char_shape in H.
  destruct (JSON.quote_char c) as [|x [|e [|h1 [|h2 [|h3 [|h4 [|? ?]]]]]]];
    try discriminate H.
  - repeat (apply andb_prop in H as [H ?]).
    apply Ascii.eqb_eq in H. subst x.
    cbn [app JSON.parse_string_chars].
    destruct (Ascii.eqb c JSON.double_quote); [discriminate|].
    destruct (Ascii.eqb c "\"); [discriminate|].
    destruct (JSON.code c <? 32)%N; [discriminate|]. reflexivity.
  - repeat (apply andb_prop in H as [H ?]).
    apply Ascii.eqb_eq in H. subst x.
    match goal with
    | E : option_ascii_eqb _ _ = true |- _ =>
        apply option_ascii_eqb_true in E; rename E into He
    end.
    cbn [app JSON.parse_string_chars].
    change (Ascii.eqb "\" JSON.double_quote) with false.
    change (Ascii.eqb "\" "\") with true. cbv iota.
    destruct (Ascii.eqb e "u"); [discriminate|]. rewrite He. reflexivity.
  - repeat (apply andb_prop in H as [H ?]).
    apply Ascii.eqb_eq in H. subst x.
    match goal with
    | E : option_ascii_eqb _ _ = true |- _ =>
        apply option_ascii_eqb_true in E; rename E into He
    end.
    match goal with
    | E : Ascii.eqb e "u" = true |- _ => apply Ascii.eqb_eq in E; subst e
    end.
    cbn [app JSON.parse_string_chars].
    change (Ascii.eqb "\" JSON.double_quote) with false.
    change (Ascii.eqb "\" "\") with true.
    change (Ascii.eqb "u" "u") with true. cbv iota.
    rewrite He. reflexivity.
Qed.

Lemma parse_string_chars_quote_chars (cs rest : text) :
  JSON.parse_string_chars (JSON.quote_chars cs ++ JSON.double_quote :: rest)
  = Some (cs, rest).
Proof.
  induction cs as [|c cs IH]; [reflexivity|].
  unfold JSON.quote_chars in *. cbn [flat_map]. rewrite <- app_assoc.
  rewrite parse_string_chars_quote_char, IH. reflexivity.
Qed.

Lemma span_number_token (tok rest : text) :
  forallb JSON.is_number_char tok = true -> follows_value rest ->
  JSON.span_number (tok ++ rest) = (tok, rest).
Proof.
  intros Htok Hrest. induction tok as [|c tok IH]; cbn [app].
  - destruct rest as [|c r]; [reflexivity|]. cbn in *. now rewrite Hrest.
  - cbn in Htok. apply andb_prop in Htok as [Hc Htok].
    cbn [JSON.span_number]. rewrite Hc, (IH Htok). reflexivity.
Qed.

Lemma has_key_false (k : string) (o : list (string * json)) :
  k ∉ map fst o -> JSON.has_key k o = false.
Proof.
  induction o as [|[k' v'] o IH]; [reflexivity|].
  cbn [map fst JSON.has_key]. intros Hk.
  apply not_elem_of_cons in Hk as [Hne Hk].
  rewrite (IH Hk), orb_false_r. now apply String.eqb_neq.
Qed.

Lemma build_object_distinct (ms acc : list (string * json)) :
  NoDup (map fst (acc ++ ms)) ->
  forallb plain_key (map fst ms) = true ->
  fold_left (fun o kv => JSON.set_property o (fst kv) (snd kv)) ms acc = acc ++ ms.
Proof.
  revert acc. induction ms as [|[k v] ms IH]; intros acc Hnd Hplain.
  - now rewrite app_nil_r.
  - cbn [fold_left fst snd]. cbn in Hplain. apply andb_prop in Hplain as [Hk Hplain].
    assert (Hfresh : k ∉ map fst acc).
    { rewrite map_app in Hnd. apply NoDup_app in Hnd as (_ & Hdisj & _).
      intros Hin. apply (Hdisj k Hin). cbn. left. }
    unfold JSON.set_property at 2. rewrite (has_key_false _ _ Hfresh).
    unfold plain_key in Hk. destruct (JSON.array_index k); [discriminate|].
    rewrite IH.
    + now rewrite <- app_assoc.
    + now rewrite <- app_assoc.
    + exact Hplain.
Qed.

(** Distinct keys, none an array index, come out in the order they were
    read. *)
Lemma build_object_members (ms : list (string * json)) :
  NoDup (map fst ms) -> forallb plain_key (map fst ms) = true ->
  JSON.build_object ms = ms.
Proof. intros. unfold JSON.build_object. now rewrite build_object_distinct. Qed.

Section Round_trip.

Context (rt : runtime).

Lemma skip_whitespace_head (c : ascii) (r : text) :
  JSON.is_whitespace c = false -> JSON.skip_whitespace (c :: r) = c :: r.
Proof. intros H. cbn [JSON.skip_whitespace]. now rewrite H. Qed.

Lemma number_head (c : ascii) : JSON.is_number_char c = true -> value_head c.
Proof.
  intros H. pose proof (number_char_classified c) as Hc.
  unfold number_char_class in Hc. rewrite H in Hc. cbn in Hc.
  repeat (apply andb_prop in Hc as [Hc ?]).
  repeat split; now apply negb_true_iff.
Qed.

Lemma stringify_value_head (v : json) :
  json_well_formed rt v ->
  exists c r, JSON.stringify_value rt v = c :: r /\ value_head c.
Proof.
  destruct v as [|[]|x|s|items|ms]; intros Hwf;
    try (eexists _, _; split; [reflexivity|repeat split; reflexivity]).
  cbn in Hwf. destruct Hwf as (Hfin & Hne & Hall & _).
  cbn [JSON.stringify_value]. unfold JSON.stringify_number. rewrite Hfin.
  destruct (Number_toString rt x) as [|c r]; [congruence|].
  exists c, r. split; [reflexivity|]. apply number_head.
  cbn in Hall. now apply andb_prop in Hall as [? _].
Qed.

Lemma stringify_value_nonempty (v : json) :
  json_well_formed rt v -> (0 < length (JSON.stringify_value rt v))%nat.
Proof. intros H. destruct (stringify_value_head v H) as (c & r & -> & _). cbn. lia. Qed.

Lemma items_with_cons {A : Type} (f : A -> text) (close : ascii) (v : A) (l : list A) :
  JSON.items_with f close (v :: l) =
  f v ++ match l with
         | [] => [close]
         | _ :: _ => ","%char :: JSON.items_with f close l
         end.
Proof. reflexivity. Qed.

Lemma items_with_nonempty {A : Type} (f : A -> text) (close : ascii) (l : list A) :
  (0 < length (JSON.items_with f close l))%nat.
Proof.
  destruct l as [|v [|v' l']]; cbn [JSON.items_with length]; rewrite ?length_app; cbn; lia.
Qed.

Lemma quoted_then (k : string) (s : text) :
  JSON.QuoteJSONString k ++ s =
  JSON.double_quote :: JSON.quote_chars (list_ascii_of_string k) ++ JSON.double_quote :: s.
Proof. unfold JSON.QuoteJSONString. cbn [app]. now rewrite <- app_assoc. Qed.

Lemma quoted_length (k : string) : (0 < length (JSON.QuoteJSONString k))%nat.
Proof. unfold JSON.QuoteJSONString. cbn [length]. lia. Qed.

(** The parser's equations on the first character. *)
Lemma parse_value_array (fuel : nat) (r : text) :
  JSON.parse_value rt (S fuel) ("["%char :: r) =
  match JSON.skip_whitespace r with
  | [] => None
  | c' :: r' =>
      if Ascii.eqb c' "]" then Some (JArray [], r')
      else match JSON.parse_elements rt fuel (c' :: r') with
           | Some (vs, rest) => Some (JArray vs, rest)
           | None => None
           end
  end.
Proof. reflexivity. Qed.

Lemma parse_value_object (fuel : nat) (r : text) :
  JSON.parse_value rt (S fuel) ("{"%char :: r) =
  match JSON.skip_whitespace r with
  | [] => None
  | c' :: r' =>
      if Ascii.eqb c' "}" then Some (JObject [], r')
      else match JSON.parse_members rt fuel (c' :: r') with
           | Some (ms, rest) => Some (JObject (JSON.build_object ms), rest)
           | None => None
           end
  end.
Proof. reflexivity. Qed.

Lemma parse_value_string (fuel : nat) (r : text) :
  JSON.parse_value rt (S fuel) (JSON.double_quote :: r) =
  match JSON.parse_string_chars r with
  | Some (cs, rest) => Some (JString (string_of_list_ascii cs), rest)
  | None => None
  end.
Proof. reflexivity. Qed.

Lemma parse_value_number (fuel : nat) (c : ascii) (r : text) :
  JSON.is_number_char c = true ->
  JSON.parse_value rt (S fuel) (c :: r) =
  let (tok, rest) := JSON.span_number (c :: r) in
  match JSONNumber_value rt tok with
  | Some x => Some (JNumber x, rest)
  | None => None
  end.
Proof.
  intros H. pose proof (number_char_classified c) as Hc.
  unfold number_char_class in Hc. rewrite H in Hc. cbn in Hc.
  repeat (apply andb_prop in Hc as [Hc ?]).
  repeat match goal with E : negb _ = true |- _ => apply negb_true_iff in E end.
  cbn [JSON.parse_value]. rewrite skip_whitespace_head by assumption.
  repeat match goal with E : Ascii.eqb c _ = false |- _ => rewrite E; clear E end.
  rewrite H. reflexivity.
Qed.

Lemma parse_elements_step (fuel : nat) (s : text) :
  JSON.parse_elements rt (S fuel) s =
  match JSON.parse_value rt fuel s with
  | Some (v, r) =>
      match JSON.skip_whitespace r with
      | [] => None
      | c :: r' =>
          if Ascii.eqb c "," then
            match JSON.parse_elements rt fuel r' with
            | Some (vs, rest) => Some (v :: vs, rest)
            | None => None
            end
          else if Ascii.eqb c "]" then Some ([v], r')
          else None
      end
  | None => None
  end.
Proof. reflexivity. Qed.

Lemma parse_members_step (fuel : nat) (r : text) :
  JSON.parse_members rt (S fuel) (JSON.double_quote :: r) =
  match JSON.parse_string_chars r with
  | Some (k, r1) =>
      match JSON.skip_whitespace r1 with
      | [] => None
      | c1 :: r2 =>
          if Ascii.eqb c1 ":" then
            match JSON.parse_value rt fuel r2 with
            | Some (v, r3) =>
                match JSON.skip_whitespace r3 with
                | [] => None
                | c3 :: r4 =>
                    if Ascii.eqb c3 "," then
                      match JSON.parse_members rt fuel r4 with
                      | Some (ms, rest) => Some ((string_of_list_ascii k, v) :: ms, rest)
                      | None => None
                      end
                    else if Ascii.eqb c3 "}" then Some ([(string_of_list_ascii k, v)], r4)
                    else None
                end
            | None => None
            end
          else None
      end
  | None => None
  end.
Proof. reflexivity. Qed.

Lemma reads_elements_step (fuel : nat) :
  reads_values rt fuel -> reads_elements rt fuel -> reads_elements rt (S fuel).
Proof.
  intros Hv He [|v l] rest Hne Hlen Hwf; [congruence|].
  destruct Hwf as [Hwfv Hwfl].
  rewrite items_with_cons in *. rewrite length_app in Hlen.
  rewrite <- app_assoc, parse_elements_step.
  destruct l as [|v' l'].
  - cbn [length] in Hlen. rewrite Hv; [|lia|assumption|reflexivity].
    reflexivity.
  - cbn [length] in Hlen. rewrite Hv; [|lia|assumption|reflexivity].
    cbn [app]. rewrite skip_whitespace_head by reflexivity.
    change (Ascii.eqb "," ",") with true. cbv iota.
    rewrite He; [reflexivity|congruence|lia|assumption].
Qed.

Lemma reads_members_step (fuel : nat) :
  reads_values rt fuel -> reads_members rt fuel -> reads_members rt (S fuel).
Proof.
  intros Hv Hm [|[k v] l] rest Hne Hlen Hwf; [congruence|].
  destruct Hwf as [Hwfv Hwfl]. cbn [snd] in Hwfv.
  rewrite items_with_cons in *. cbn beta in *. cbn [fst snd] in Hlen |- *.
  rewrite !length_app in Hlen. cbn [length] in Hlen. pose proof (quoted_length k) as Hk.
  rewrite <- !app_assoc, quoted_then, parse_members_step.
  rewrite parse_string_chars_quote_chars.
  rewrite <- app_comm_cons.
  rewrite skip_whitespace_head by reflexivity.
  change (Ascii.eqb ":" ":") with true. cbv iota.
  rewrite string_of_list_ascii_of_string.
  destruct l as [|kv' l'].
  - rewrite Hv; [|lia|assumption|reflexivity].
    reflexivity.
  - cbn [length] in Hlen. rewrite Hv; [|lia|assumption|reflexivity].
    rewrite <- app_comm_cons. rewrite skip_whitespace_head by reflexivity.
    change (Ascii.eqb "," ",") with true. cbv iota.
    rewrite Hm; [reflexivity|congruence|lia|assumption].
Qed.

Lemma reads_values_step (fuel : nat) :
  reads_elements rt fuel -> reads_members rt fuel -> reads_values rt (S fuel).
Proof.
  intros He Hm v rest Hlen Hwf Hrest.
  destruct v as [|[]|x|s|items|ms]; try reflexivity.
  - cbn in Hwf. destruct Hwf as (Hfin & Hne & Hall & Hval).
    cbn [JSON.stringify_value]. unfold JSON.stringify_number. rewrite Hfin.
    destruct (Number_toString rt x) as [|c r] eqn:Htok; [congruence|].
    cbn [app]. rewrite parse_value_number.
    + change (c :: r ++ rest) with ((c :: r) ++ rest).
      rewrite span_number_token by assumption. now rewrite Hval.
    + cbn in Hall. now apply andb_prop in Hall as [? _].
  - cbn [JSON.stringify_value]. unfold JSON.QuoteJSONString.
    cbn [app]. rewrite parse_value_string, <- app_assoc. cbn [app].
    rewrite parse_string_chars_quote_chars. now rewrite string_of_list_ascii_of_string.
  - cbn [JSON.stringify_value app] in *. rewrite parse_value_array.
    destruct items as [|v l]; [reflexivity|].
    assert (Hwfv : json_well_formed rt v) by apply Hwf.
    destruct (stringify_value_head v Hwfv) as (c & r & Hc & Hws & Hclose & _).
    pose proof (He (v :: l) rest ltac:(congruence)
                  ltac:(cbn [length] in Hlen; lia) Hwf) as Hread.
    rewrite items_with_cons in *. rewrite Hc in *.
    rewrite <- app_assoc, <- app_comm_cons in *.
    rewrite skip_whitespace_head by assumption. rewrite Hclose, Hread. reflexivity.
  - cbn [JSON.stringify_value app] in *. rewrite parse_value_object.
    destruct ms as [|kv l]; [reflexivity|].
    destruct Hwf as (Hnd & Hplain & Hwf).
    pose proof (Hm (kv :: l) rest ltac:(congruence)
                  ltac:(cbn [length] in Hlen; lia) Hwf) as Hread.
    destruct kv as [k v].
    rewrite items_with_cons in *. cbn beta in *. cbn [fst snd] in Hread |- *.
    rewrite <- !app_assoc, quoted_then in *.
    rewrite skip_whitespace_head by reflexivity.
    change (Ascii.eqb JSON.double_quote "}") with false. cbv iota.
    rewrite Hread. now rewrite build_object_members.
Qed.

Lemma reads_all (fuel : nat) :
  reads_values rt fuel /\ reads_elements rt fuel /\ reads_members rt fuel.
Proof.
  induction fuel as [|fuel (Hv & He & Hm)].
  - repeat split.
    + intros v rest Hlen Hwf _. pose proof (stringify_value_nonempty v Hwf). lia.
    + intros items rest _ Hlen _.
      pose proof (items_with_nonempty (JSON.stringify_value rt) "]" items). lia.
    + intros ms rest _ Hlen _.
      pose proof (items_with_nonempty
                    (fun kv : string * json =>
                       JSON.QuoteJSONString (fst kv) ++
                       ":"%char :: JSON.stringify_value rt (snd kv)) "}" ms). lia.
  - repeat split.
    + now apply reads_values_step.
    + now apply reads_elements_step.
    + now apply reads_members_step.
Qed.

(** [JSON.parse(JSON.stringify(v))] is [v], for a well-formed [v]. *)
Lemma parse_stringify (v : json) :
  json_well_formed rt v -> JSON.parse rt (JSON.stringify rt v) = Some v.
Proof.
  intros Hwf. unfold JSON.parse, JSON.stringify.
  rewrite list_ascii_of_string_of_list_ascii.
  destruct (reads_all (S (length (JSON.stringify_value rt v)))) as (Hv & _ & _).
  rewrite <- (app_nil_r (JSON.stringify_value rt v)) at 2.
  rewrite Hv; [reflexivity|lia|assumption|exact I].
Qed.

End Round_trip.

(** ** The metrics codec *)

Lemma MetricReading_to_json_inj (a b : MetricReading) :
  MetricReading_to_json a = MetricReading_to_json b -> a = b.
Proof. destruct a, b. cbn. intros H. injection H as -> -> ->. reflexivity. Qed.

Lemma readings_to_json_inj (l l' : list MetricReading) :
  map MetricReading_to_json l = map MetricReading_to_json l' -> l = l'.
Proof.
  revert l'. induction l as [|a l IH]; intros [|b l'] H; try discriminate H; [reflexivity|].
  cbn [map] in H.
  assert (Ha : MetricReading_to_json a = MetricReading_to_json b) by congruence.
  assert (Hl : map MetricReading_to_json l = map MetricReading_to_json l') by congruence.
  apply MetricReading_to_json_inj in Ha. apply IH in Hl. now subst.
Qed.

Lemma MetricData_to_json_inj (a b : MetricData) :
  MetricData_to_json a = MetricData_to_json b -> a = b.
Proof.
  destruct a as [n u [[lo hi]|] r], b as [n' u' [[lo' hi']|] r'];
    destruct n, u, r, n', u', r'; cbn; intros H; try discriminate H;
    simplify_eq;
    repeat match goal with
           | E : map MetricReading_to_json _ = map MetricReading_to_json _ |- _ =>
               apply readings_to_json_inj in E; subst
           end; reflexivity.
Qed.

(** Two documents with the same JSON value are the same document. *)
Lemma document_to_json_inj (d d' : document) :
  document_to_json d' = document_to_json d -> d' = d.
Proof.
  unfold document_to_json. intros H. injection H as H. revert d' H.
  induction d as [|[k o] d IH]; intros [|[k' o'] d'] H; try discriminate H; [reflexivity|].
  cbn [map fst snd] in H.
  assert (Hk : k' = k) by congruence.
  assert (Ho : MetricData_to_json o' = MetricData_to_json o) by congruence.
  assert (Hd : map (fun kv => (fst kv, MetricData_to_json (snd kv))) d'
               = map (fun kv => (fst kv, MetricData_to_json (snd kv))) d) by congruence.
  apply MetricData_to_json_inj in Ho. subst. f_equal. now apply IH.
Qed.

Lemma stringify_truthy (rt : runtime) (v : json) :
  match v with JArray _ | JObject _ => True | _ => False end ->
  ToBoolean_string (JSON.stringify rt v) = true.
Proof. destruct v; try tauto; intros _; reflexivity. Qed.

Ltac distinct_keys := apply (bool_decide_unpack _); vm_compute; exact I.

Lemma readings_json_well_formed rt (l : list MetricReading) :
  Forall (fun r => number_well_formed rt (value r)) l ->
  all_of (json_well_formed rt) (map MetricReading_to_json l).
Proof.
  induction 1 as [|r l Hr _ IH]; [exact I|].
  cbn [map all_of]. split; [|exact IH].
  cbn. repeat split; try distinct_keys; apply Hr.
Qed.

Lemma MetricData_json_well_formed rt (o : MetricData) :
  MetricData_well_formed rt o -> json_well_formed rt (MetricData_to_json o).
Proof.
  destruct o as [n u range r]. intros [Hrange Hreadings]. cbn in Hrange, Hreadings.
  unfold MetricData_to_json. cbn [metric_name metric_unit normal_range readings].
  destruct n, u, range as [[lo hi]|], r as [l|]; cbn [app];
    cbn [json_well_formed all_of map fst snd];
    repeat match goal with
           | |- _ /\ _ => split
           | |- True => exact I
           | |- NoDup _ => distinct_keys
           | |- forallb _ _ = true => reflexivity
           | |- all_of _ (map MetricReading_to_json _) =>
               now apply readings_json_well_formed
           end; try apply Hrange.
Qed.

(** The JSON value of a well-formed document is one the codec reads back. *)
Lemma document_json_well_formed rt (d : document) :
  document_well_formed rt d -> json_well_formed rt (document_to_json d).
Proof.
  intros (Hnd & Hplain & Hall). unfold document_to_json.
  cbn [json_well_formed]. rewrite map_map. cbn [fst].
  split; [exact Hnd|]. split; [exact Hplain|].
  induction Hall as [|kv d Hkv _ IH]; [exact I|].
  cbn [map all_of snd]. split; [now apply MetricData_json_well_formed|].
  apply IH.
  - now apply NoDup_cons in Hnd as [_ ?].
  - cbn in Hplain. now apply andb_prop in Hplain as [_ ?].
Qed.

(** C5. A well-formed Metrics document survives the codec: parsing its
    encoding gives its JSON value, which no other document has; the loader,
    handed that text, stores exactly this value; and what [addMetricReading]
    sends to the store as [metrics] is always such an encoding, a text. *)
Theorem metrics_codec_round_trip (rt : runtime) (d : document) :
  document_well_formed rt d ->
  JSON.parse rt (encode_metrics rt d) = Some (document_to_json d) /\
  (forall d', document_to_json d' = document_to_json d -> d' = d) /\
  fetchMetrics rt (metrics_answer (JString (encode_metrics rt d)))
  = {| stored := Some (document_to_json d); logged := []; isLoading := false |} /\
  (forall R now u st metricKey date value q,
     q ∈ remote_requests (trace (addMetricReading rt R now u st metricKey date value)) ->
     (exists table user_id, q = Select_id_single table user_id) \/
     (exists i sent,
        q = Update_eq_id "health_metrics" (Row_metrics None (encode_metrics rt sent)) i) \/
     (exists owner sent,
        q = Insert "health_metrics" (Row_metrics owner (encode_metrics rt sent)))).
Proof.
  intros Hwf.
  assert (Hparse : JSON.parse rt (encode_metrics rt d) = Some (document_to_json d))
    by now apply parse_stringify, document_json_well_formed.
  split; [exact Hparse|]. split; [apply document_to_json_inj|]. split.
  - unfold fetchMetrics, metrics_answer. cbn [error data row_metrics ToBoolean_json].
    unfold encode_metrics in *. rewrite stringify_truthy by exact I.
    now rewrite Hparse.
  - intros R now [u|] st metricKey date value q; unfold addMetricReading.
    + destruct (Get (metrics st) metricKey) as [target|]; [|cbn; now rewrite elem_of_nil].
      match goal with
      | |- context [check_then_write ?R ?t ?u ?a ?b] =>
          pose proof (check_then_write_requests R t u a b q) as Hrows;
          destruct (check_then_write R t u a b) as [[|e] tr]
      end; cbn [trace snd] in *; unfold remote_requests in *;
        rewrite omap_app; cbn; rewrite app_nil_r; intros Hq;
        destruct (Hrows Hq) as [->|[[i ->]| ->]]; eauto 10.
    + cbn. now rewrite elem_of_nil.
Qed.

Ltac well_formed_by_evaluation :=
  match goal with
  | |- document_well_formed ?rt ?d =>
      let v := eval vm_compute in d in change (document_well_formed rt v)
  end;
  unfold document_well_formed, MetricData_well_formed, number_well_formed;
  cbn [map fst snd normal_range readings value from_option id];
  repeat match goal with
         | |- _ /\ _ => split
         | |- True => exact I
         | |- NoDup _ => distinct_keys
         | |- Forall _ [] => constructor
         | |- Forall _ (_ :: _) => constructor
         | |- _ = _ => vm_compute; reflexivity
         | |- _ <> _ => vm_compute; discriminate
         | |- _ => progress cbn [snd normal_range readings value from_option id]
         end.

Lemma metrics_codec_round_trip_witness :
  document_well_formed IntegerEngine.engine (visible Scenario.unsorted_weight) /\
  JSON.parse IntegerEngine.engine
    (encode_metrics IntegerEngine.engine (visible Scenario.unsorted_weight))
  = Some (document_to_json (visible Scenario.unsorted_weight)).
Proof.
  assert (Hwf : document_well_formed IntegerEngine.engine (visible Scenario.unsorted_weight))
    by well_formed_by_evaluation.
  split; [exact Hwf|].
  exact (proj1 (metrics_codec_round_trip IntegerEngine.engine _ Hwf)).
Defined.

(** ** Sorting the readings *)

Section Sorting.

Context (rt : runtime).

Lemma sort_insert_permutation {A : Type} (cmp : A -> A -> option Z) (x : A) (l : list A) :
  sort_insert cmp x l ≡ₚ x :: l.
Proof.
  induction l as [|y l IH]; [reflexivity|].
  cbn [sort_insert]. destruct (0 <? SortCompare cmp x y); [|reflexivity].
  rewrite IH. apply Permutation_swap.
Qed.

Lemma Array_sort_permutation {A : Type} (cmp : A -> A -> option Z) (l : list A) :
  Array_sort cmp l ≡ₚ l.
Proof.
  induction l as [|x l IH]; [reflexivity|].
  cbn [Array_sort foldr]. fold (Array_sort cmp l).
  now rewrite sort_insert_permutation, IH.
Qed.








End Sorting.

(** ** Adding a reading *)

Lemma entry_visible (k : string) (st : metrics_cache) :
  entry k (visible st) = heap_get (heap st) <$> own_property k (metrics st).
Proof.
  unfold visible. induction (metrics st) as [|[k' r] m IH]; [reflexivity|].
  cbn [map fst snd entry own_property]. destruct (String.eqb k k'); [reflexivity|exact IH].
Qed.

Lemma heap_get_set_readings (h : gmap nat MetricData) (r : ref) (l : list MetricReading) :
  readings (heap_get (set_readings h r l) r) = Some l.
Proof. unfold heap_get, set_readings. now rewrite lookup_insert_eq. Qed.

Lemma Get_own (m : list (string * ref)) (k : string) (r : ref) :
  own_property k m = Some r -> Get m k = Some r.
Proof. unfold Get. now intros ->. Qed.







(** C1. The metrics writer mutates the objects its cache refers to before it
    asks the store: from the default state, a call for "weight" whose
    existence check fails, or whose insert or update is refused, returns
    [false] and yet the weight readings a reader sees now hold the new
    reading. *)
Theorem addMetricReading_failure_shows_reading :
  let failed_check :=
    addMetricReading IntegerEngine.engine Scenario.failing_check 1704153600000
      (Some Scenario.patient) default_metrics "weight" "2024-01-02" 70%float in
  let refused_write :=
    addMetricReading IntegerEngine.engine Scenario.refusing_writes 1704153600000
      (Some Scenario.patient) default_metrics "weight" "2024-01-02" 70%float in
  let refused_update :=
    addMetricReading IntegerEngine.engine Scenario.refusing_update 1704153600000
      (Some Scenario.patient) default_metrics "weight" "2024-01-02" 70%float in
  let shown :=
    Some (Some [{| reading_id := "weight1704153600000"; date := "2024-01-02";
                   value := 70%float |}]) in
  (readings <$> entry "weight" (visible default_metrics)) = Some (Some []) /\
  (returned failed_check = Return_bool false /\
   (readings <$> entry "weight" (visible (cache failed_check))) = shown /\
   visible (cache failed_check) <> visible default_metrics) /\
  (returned refused_write = Return_bool false /\
   (readings <$> entry "weight" (visible (cache refused_write))) = shown /\
   visible (cache refused_write) <> visible default_metrics) /\
  (returned refused_update = Return_bool false /\
   (readings <$> entry "weight" (visible (cache refused_update))) = shown /\
   visible (cache refused_update) <> visible default_metrics).
Proof.
  vm_compute. repeat split; try reflexivity; discriminate.
Qed.



Lemma check_then_write_asks R table user_id for_update for_insert :
  Select_id_single table user_id
  ∈ remote_requests (snd (check_then_write R table user_id for_update for_insert)).
Proof.
  unfold check_then_write.
  destruct (select_id_single R table user_id) as [[i|] [e|]]; cbn [data error];
    repeat match goal with
           | |- context [if ?b then _ else _] => destruct b
           | |- context [match ?o with Some _ => _ | None => _ end] => destruct o
           end; cbn; left.
Qed.

(** A key the state object does not own but inherits from [Object.prototype]
    passes the membership test: the call goes on to ask the store. *)
Lemma addMetricReading_inherited_key rt R now u st metricKey day value target :
  own_property metricKey (metrics st) = None ->
  own_property metricKey Object_prototype_properties = Some target ->
  Select_id_single "health_metrics" (uid u)
  ∈ remote_requests (trace (addMetricReading rt R now (Some u) st metricKey day value)).
Proof.
  intros Hown Hinherited. unfold addMetricReading, Get. rewrite Hown, Hinherited.
  match goal with
  | |- context [check_then_write ?R ?t ?u ?a ?b] =>
      pose proof (check_then_write_asks R t u a b) as Hasks;
      destruct (check_then_write R t u a b) as [[|e] tr]
  end; cbn [trace snd] in *; unfold remote_requests in *;
    rewrite omap_app; apply elem_of_app; now left.
Qed.

Lemma addMetricReading_inherited_key_witness :
  Select_id_single "health_metrics" (uid Scenario.patient)
  ∈ remote_requests
      (trace (addMetricReading IntegerEngine.engine Scenario.failing_check 1704153600000
                (Some Scenario.patient) default_metrics "constructor" "2024-01-02" 70%float)).
Proof.
  apply (addMetricReading_inherited_key IntegerEngine.engine Scenario.failing_check
           1704153600000 Scenario.patient default_metrics "constructor" "2024-01-02"
           70%float 1%nat).
  - vm_compute. reflexivity.
  - vm_compute. reflexivity.
Defined.

(** C7. The membership test is a property read, which also finds what every
    object inherits: "toString" is no key of the default document, yet the
    call passes the test, writes to the store and returns [true] (it leaves
    the document's entries as they were). "nonexistent" and the empty key
    are found nowhere. *)
Theorem addMetricReading_inherited_key_accepted :
  let out :=
    addMetricReading IntegerEngine.engine Scenario.accepting 1704153600000
      (Some Scenario.patient) default_metrics "toString" "2024-01-02" 70%float in
  own_property "toString" (metrics default_metrics) = None /\
  Get (metrics default_metrics) "nonexistent" = None /\
  Get (metrics default_metrics) EmptyString = None /\
  returned out = Return_bool true /\
  length (remote_requests (trace out)) = 2%nat /\
  toasts (trace out) =
    [{| title := "Reading added"; description := "New toString reading has been added";
        destructive := false |}] /\
  visible (cache out) = visible default_metrics /\
  map fst (metrics (cache out)) = map fst (metrics default_metrics).
Proof.
  vm_compute. repeat split; reflexivity.
Qed.

(** ** Lab reports *)

(** C10. When the insert succeeds with an empty row set, [addLabReport]
    returns [false], leaves the reports as they were and shows no toast: the
    trace holds the request and nothing else. *)
Theorem addLabReport_empty_rows rt R u reports report :
  (forall r, insert_select R "health_lab_reports" r = {| data := Some []; error := None |}) ->
  let out := addLabReport rt R (Some u) reports report in
  returned out = Return_bool false /\
  cache out = reports /\
  toasts (trace out) = [] /\
  (forall e, e ∈ trace out -> exists q, e = Remote q).
Proof.
  intros Hempty out. subst out. unfold addLabReport. rewrite Hempty. cbn.
  repeat split. intros e He. apply list_elem_of_singleton in He. eauto.
Qed.

Lemma addLabReport_empty_rows_witness :
  returned (addLabReport IntegerEngine.engine Scenario.accepting (Some Scenario.patient)
              [Scenario.a_report "r1"] Scenario.a_new_report) = Return_bool false /\
  cache (addLabReport IntegerEngine.engine Scenario.accepting (Some Scenario.patient)
           [Scenario.a_report "r1"] Scenario.a_new_report) = [Scenario.a_report "r1"].
Proof.
  destruct (addLabReport_empty_rows IntegerEngine.engine Scenario.accepting Scenario.patient
              [Scenario.a_report "r1"] Scenario.a_new_report) as (Hr & Hc & _).
  - intros r. reflexivity.
  - split; assumption.
Defined.

(** C4, as stated, fails: deleting an id the collection does not hold
    succeeds and removes nothing. *)
Lemma deleteLabReport_may_remove_nothing :
  ~ (forall R u reports id,
       returned (deleteLabReport R (Some u) reports id) = Return_bool true ->
       S (length (cache (deleteLabReport R (Some u) reports id))) = length reports).
Proof.
  intros H.
  specialize (H Scenario.accepting Scenario.patient [Scenario.a_report "r1"] "r2" eq_refl).
  vm_compute in H. discriminate H.
Qed.

Lemma filter_length_split {A : Type} (P : A -> Prop) `{forall x, Decision (P x)}
    (l : list A) :
  length l = (length (filter (fun x => ~ P x) l) + length (filter P l))%nat.
Proof.
  induction l as [|x l IH]; [reflexivity|].
  rewrite !filter_cons. destruct (decide (P x)); destruct (decide (~ P x));
    cbn; try tauto; lia.
Qed.

Lemma filter_all {A : Type} (P : A -> Prop) `{forall x, Decision (P x)} (l : list A) :
  (forall x, x ∈ l -> P x) -> filter P l = l.
Proof.
  induction l as [|x l IH]; intros Hall; [reflexivity|].
  rewrite filter_cons. destruct (decide (P x)) as [_|Hn].
  - f_equal. apply IH. intros y Hy. apply Hall. now right.
  - destruct Hn. apply Hall. left.
Qed.

Lemma filter_none {A : Type} (P : A -> Prop) `{forall x, Decision (P x)} (l : list A) :
  (forall x, x ∈ l -> ~ P x) -> filter P l = [].
Proof.
  induction l as [|x l IH]; intros Hall; [reflexivity|].
  rewrite filter_cons. destruct (decide (P x)) as [Hp|_].
  - destruct (Hall x); [left|assumption].
  - apply IH. intros y Hy. apply Hall. now right.
Qed.

Lemma report_id_listed (report : LabReport) (reports : list LabReport) :
  report ∈ reports -> report_id report ∈ map report_id reports.
Proof.
  induction 1 as [r l|r r' l _ IH]; cbn [map]; [left|now right].
Qed.

Lemma filter_one_of_distinct (reports : list LabReport) (id : string) :
  NoDup (map report_id reports) -> id ∈ map report_id reports ->
  length (filter (fun r => report_id r = id) reports) = 1%nat.
Proof.
  induction reports as [|r l IH]; intros Hnd Hin; [now apply elem_of_nil in Hin|].
  cbn [map] in *. apply NoDup_cons in Hnd as [Hr Hnd]. rewrite filter_cons.
  destruct (decide (report_id r = id)) as [Hid|Hne].
  - cbn [length]. f_equal. rewrite filter_none; [reflexivity|].
    intros r' Hr' Heq. apply Hr. rewrite Hid, <- Heq. now apply report_id_listed.
  - apply elem_of_cons in Hin as [Heq|Hin]; [congruence|]. now apply IH.
Qed.

(** C4, amended. A successful [deleteLabReport] keeps exactly the reports
    whose id differs, in order: it removes every entry with that id, one
    entry when the ids are distinct and the id is among them, none when it
    is not (as for a report of another user). Its one request filters on
    both the report id and the user's id, and a store applying both filters
    keeps every row of another owner. *)
Theorem deleteLabReport_removes_by_id R u reports id :
  returned (deleteLabReport R (Some u) reports id) = Return_bool true ->
  let kept := cache (deleteLabReport R (Some u) reports id) in
  kept = filter (fun report => report_id report <> id) reports /\
  (forall report, report ∈ kept <-> report ∈ reports /\ report_id report <> id) /\
  length reports
  = (length kept + length (filter (fun report => report_id report = id) reports))%nat /\
  (NoDup (map report_id reports) -> id ∈ map report_id reports ->
   S (length kept) = length reports) /\
  (id ∉ map report_id reports -> kept = reports) /\
  remote_requests (trace (deleteLabReport R (Some u) reports id)) =
    [Delete_eq_id_eq_user "health_lab_reports" id (uid u)] /\
  (forall table owned, owned ∈ table -> fst owned <> uid u ->
                       owned ∈ store_delete table id (uid u)).
Proof.
  intros Hok kept. subst kept. revert Hok. unfold deleteLabReport.
  destruct (delete_eq_id_eq_user R _ id (uid u)); [discriminate|]. intros _.
  cbn [cache trace]. split; [reflexivity|]. split; [|split; [|split; [|split; [|split]]]].
  - intros report. rewrite list_elem_of_filter. tauto.
  - apply (filter_length_split (fun report => report_id report = id)).
  - intros Hnd Hin.
    rewrite (filter_length_split (fun report => report_id report = id) reports).
    rewrite (filter_one_of_distinct _ _ Hnd Hin). lia.
  - intros Hnot. apply filter_all. intros report Hin Heq. apply Hnot. rewrite <- Heq.
    now apply report_id_listed.
  - reflexivity.
  - intros table owned Hin Hother. unfold store_delete. apply list_elem_of_filter.
    split; [tauto|assumption].
Qed.

Lemma deleteLabReport_removes_by_id_witness :
  cache (deleteLabReport Scenario.accepting (Some Scenario.patient)
           [Scenario.a_report "r1"; Scenario.a_report "r2"] "r1")
  = [Scenario.a_report "r2"].
Proof.
  destruct (deleteLabReport_removes_by_id Scenario.accepting Scenario.patient
              [Scenario.a_report "r1"; Scenario.a_report "r2"] "r1" eq_refl) as (-> & _).
  vm_compute. reflexivity.
Defined.

(** ** Loaders on a text they cannot parse *)



Lemma fetchLabReports_stored rt rows :
  stored (fetchLabReports rt (lab_answer rows))
  = Some (map (fun item => fst (transform_row rt item)) rows).
Proof. unfold fetchLabReports, lab_answer. cbn. now rewrite map_map. Qed.



(** ** The effects and their loaders *)

Lemma fetchMetrics_clears_loading rt answer : isLoading (fetchMetrics rt answer) = false.
Proof.
  unfold fetchMetrics.
  repeat match goal with
         | |- context [match ?x with _ => _ end] => destruct x
         end; reflexivity.
Qed.

Lemma fetchLabReports_clears_loading rt answer : isLoading (fetchLabReports rt answer) = false.
Proof. unfold fetchLabReports. destruct (error answer), (data answer); reflexivity. Qed.

Lemma settled_clears_loading {C D : Type} (body : response D -> loaded C) answer :
  (forall a, isLoading (body a) = false) -> isLoading (settled body answer) = false.
Proof. intros H. destruct answer; [apply H|reflexivity]. Qed.

(** Each of the five effects, run without a user, sends no query and stores
    and logs nothing; run with a user, it sends exactly one query, for the
    rows of that user in its own table; a rejected query is logged and
    stores nothing; and whatever the answer, the loading flag ends cleared. *)
Theorem effects_ask_once_and_settle (rt : runtime) (u : User) :
  (forall sp sv sl sm sr,
     idle_run (usePersonalInfo_effect None sp) /\
     idle_run (useVitalsInfo_effect None sv) /\
     idle_run (useLifestyleInfo_effect None sl) /\
     idle_run (useHealthMetrics_effect rt None sm) /\
     idle_run (useLabReports_effect rt None sr)) /\
  (forall sp sv sl sm sr,
     asked_once (Select_all_single "health_personal_info" (uid u))
       (usePersonalInfo_effect (Some u) sp) /\
     asked_once (Select_all_single "health_vitals" (uid u))
       (useVitalsInfo_effect (Some u) sv) /\
     asked_once (Select_all_single "health_lifestyle" (uid u))
       (useLifestyleInfo_effect (Some u) sl) /\
     asked_once (Select_all_single "health_metrics" (uid u))
       (useHealthMetrics_effect rt (Some u) sm) /\
     asked_once (Select_all "health_lab_reports" (uid u))
       (useLabReports_effect rt (Some u) sr)) /\
  (load (usePersonalInfo_effect (Some u) (fun _ => Rejected))
   = only_logged "Unexpected error:" /\
   load (useVitalsInfo_effect (Some u) (fun _ => Rejected))
   = only_logged "Unexpected error:" /\
   load (useLifestyleInfo_effect (Some u) (fun _ => Rejected))
   = only_logged "Unexpected error:" /\
   load (useHealthMetrics_effect rt (Some u) (fun _ => Rejected))
   = only_logged "Unexpected error:" /\
   load (useLabReports_effect rt (Some u) (fun _ => Rejected))
   = only_logged "Unexpected error:").
Proof.
  split; [|split].
  - intros. repeat split.
  - intros. unfold asked_once.
    repeat split; cbn [load run_effect usePersonalInfo_effect useVitalsInfo_effect
                         useLifestyleInfo_effect useHealthMetrics_effect
                         useLabReports_effect];
      apply settled_clears_loading; intros a.
    + unfold fetchPersonalInfo. destruct (error a), (data a); reflexivity.
    + unfold fetchVitalsInfo. destruct (error a), (data a); reflexivity.
    + unfold fetchLifestyleInfo. destruct (error a), (data a); reflexivity.
    + apply fetchMetrics_clears_loading.
    + apply fetchLabReports_clears_loading.
  - repeat split.
Qed.

(** When the query answers with an error, the personal info loader replaces
    the cache by the blank record, whatever the cache held; the loaders of
    the other four channels leave their cache as it was. Each logs the one
    message of its channel. *)
Theorem fetch_error_blanks_personal_only (rt : runtime) (e : pg_error) :
  (forall d before,
     let l := fetchPersonalInfo {| data := d; error := Some e |} in
     shown_after before l = blank_PersonalInfo /\
     logged l = ["Error fetching personal info:"]) /\
  (forall d before,
     let l := fetchVitalsInfo {| data := d; error := Some e |} in
     shown_after before l = before /\ logged l = ["Error fetching vitals info:"]) /\
  (forall d before,
     let l := fetchLifestyleInfo {| data := d; error := Some e |} in
     shown_after before l = before /\ logged l = ["Error fetching lifestyle info:"]) /\
  (forall d before,
     let l := fetchMetrics rt {| data := d; error := Some e |} in
     shown_after before l = before /\ logged l = ["Error fetching health metrics:"]) /\
  (forall d before,
     let l := fetchLabReports rt {| data := d; error := Some e |} in
     shown_after before l = before /\ logged l = ["Error fetching lab reports:"]).
Proof. repeat split. Qed.

Lemma parsed_text_is_truthy rt s v : JSON.parse rt s = Some v -> ToBoolean_string s = true.
Proof. destruct s; [discriminate|reflexivity]. Qed.

(** The loaders check nothing about a text that parses: the metrics loader
    stores whatever JSON value the text denotes (an array, a number, [null])
    as the metrics record, and the lab reports loader places it as the
    report's test results; neither logs anything. *)
Theorem loaders_store_what_parses rt s v :
  JSON.parse rt s = Some v ->
  fetchMetrics rt (metrics_answer (JString s))
  = {| stored := Some v; logged := []; isLoading := false |} /\
  forall item,
    row_testresults item = JString s ->
    fetchLabReports rt (lab_answer [item])
    = {| stored := Some [{| report_id := row_id item;
                            report_name := row_name item;
                            report_date := row_date item;
                            status := Some (conforming_status (row_status item));
                            fileUrl := truthy_string (row_fileurl item);
                            testResults := Some v |}];
         logged := []; isLoading := false |}.
Proof.
  intros Hparse. pose proof (parsed_text_is_truthy _ _ _ Hparse) as Htruthy. split.
  - unfold fetchMetrics, metrics_answer. cbn [error data row_metrics ToBoolean_json].
    now rewrite Htruthy, Hparse.
  - intros item Hitem. unfold fetchLabReports, lab_answer, transform_row, fetched_testResults.
    cbn [error data map]. rewrite Hitem. cbn [ToBoolean_json].
    now rewrite Htruthy, Hparse.
Qed.

Lemma loaders_store_what_parses_witness :
  fetchMetrics IntegerEngine.engine (metrics_answer (JString "null"))
  = {| stored := Some JNull; logged := []; isLoading := false |}.
Proof.
  refine (proj1 (loaders_store_what_parses IntegerEngine.engine "null" JNull _)).
  vm_compute. reflexivity.
Defined.

Lemma conforming_status_known (s : option string) : known_status (Some (conforming_status s)).
Proof.
  unfold conforming_status, known_status. destruct s as [x|]; [|tauto].
  destruct (String.eqb_spec x "normal") as [->|_]; [cbn; tauto|].
  destruct (String.eqb_spec x "abnormal") as [->|_]; [cbn; tauto|].
  destruct (String.eqb_spec x "pending") as [->|_]; cbn; tauto.
Qed.

Lemma truthy_string_nonempty (s : option string) : truthy_string s <> Some EmptyString.
Proof.
  unfold truthy_string. destruct s as [x|]; [|discriminate].
  destruct x; cbn; discriminate.
Qed.

Lemma transform_row_logs_at_most_one rt item : (length (snd (transform_row rt item)) <= 1)%nat.
Proof.
  unfold transform_row, fetched_testResults. cbn [snd].
  destruct (ToBoolean_json _); [|cbn; lia].
  destruct (row_testresults item); cbn; try lia.
  destruct (JSON.parse rt s); cbn; lia.
Qed.

(** Whatever rows the store answers with, the lab reports loader stores one
    report per row, in the rows' order and under the rows' ids, names and
    dates; every stored status is one of "normal", "abnormal" and "pending";
    no stored file URL is the empty string; and it logs at most one message
    per row. *)
Theorem fetchLabReports_normalises_rows rt rows :
  exists reports,
    stored (fetchLabReports rt (lab_answer rows)) = Some reports /\
    map report_id reports = map row_id rows /\
    map report_name reports = map row_name rows /\
    map report_date reports = map row_date rows /\
    Forall (fun r => known_status (status r)) reports /\
    Forall (fun r => fileUrl r <> Some EmptyString) reports /\
    (length (logged (fetchLabReports rt (lab_answer rows))) <= length rows)%nat.
Proof.
  eexists. split; [apply fetchLabReports_stored|].
  rewrite !map_map. cbn [transform_row fst report_id report_name report_date].
  repeat split.
  - apply Forall_map, Forall_forall. intros item _. apply conforming_status_known.
  - apply Forall_map, Forall_forall. intros item _. apply truthy_string_nonempty.
  - unfold fetchLabReports, lab_answer. cbn [error data logged].
    induction rows as [|item rows IH]; [reflexivity|].
    cbn [map concat]. rewrite length_app. cbn [length].
    pose proof (transform_row_logs_at_most_one rt item). lia.
Qed.

(** ** Lab reports: adding, reloading, deleting *)

Lemma truthy_string_idempotent (s : option string) :
  truthy_string (truthy_string s) = truthy_string s.
Proof.
  unfold truthy_string. destruct s as [x|]; [|reflexivity].
  destruct (ToBoolean_string x) eqn:E; [now rewrite E|reflexivity].
Qed.

Lemma printed_text_is_truthy rt (v : json) :
  json_well_formed rt v -> ToBoolean_string (JSON.stringify rt v) = true.
Proof.
  intros Hwf. pose proof (stringify_value_nonempty rt v Hwf) as Hlen.
  unfold JSON.stringify. destruct (JSON.stringify_value rt v); [cbn in Hlen; lia|reflexivity].
Qed.

(** What a successful [addLabReport] has done: the store answered with at
    least one row, and the first row, transformed, was appended. *)
Lemma addLabReport_success rt R u reports report :
  returned (addLabReport rt R (Some u) reports report) = Return_bool true ->
  exists sent first others added,
    insert_select R "health_lab_reports" sent
    = {| data := Some (first :: others); error := None |} /\
    returned_report rt first = Some added /\
    trace (addLabReport rt R (Some u) reports report)
    = [Remote (Insert_select "health_lab_reports" sent);
       plain_toast "Lab report added" (new_name report +:+ " has been added to your lab reports")]
    /\ cache (addLabReport rt R (Some u) reports report) = reports ++ [added].
Proof.
  intros Hok. unfold addLabReport in *.
  match goal with
  | |- context [insert_select R ?t ?r] =>
      exists r; destruct (insert_select R t r) as [d [e|]]
  end; cbn [error data] in *; [discriminate Hok|].
  destruct d as [[|first others]|]; try discriminate Hok.
  destruct (returned_report rt first) as [added|] eqn:Hadded; [|discriminate Hok].
  exists first, others, added. repeat split. exact Hadded.
Qed.

(** When the store keeps the row it is sent and answers with it under a new
    id, [addLabReport] returns [true] and appends to the cache the report it
    was given, under that id: same name, date and status, the file URL unless
    it is empty, and the very test results, read back from their JSON text. *)
Theorem addLabReport_round_trip rt R u reports report i :
  (forall r, insert_select R "health_lab_reports" r
             = {| data := Some (echoed i r); error := None |}) ->
  match new_testResults report with
  | Some v => json_well_formed rt v
  | None => True
  end ->
  let out := addLabReport rt R (Some u) reports report in
  returned out = Return_bool true /\
  cache out = reports ++ [{| report_id := i;
                             report_name := new_name report;
                             report_date := new_date report;
                             status := Some (new_status report);
                             fileUrl := truthy_string (new_fileUrl report);
                             testResults := kept_testResults (new_testResults report) |}].
Proof.
  intros Hecho Hwf out. subst out. unfold addLabReport. rewrite Hecho.
  cbn [echoed error data]. unfold returned_report.
  cbn [row_testresults row_id row_name row_date row_status row_fileurl
       insert_testresults insert_name insert_date insert_status insert_fileurl].
  rewrite truthy_string_idempotent. unfold kept_testResults.
  destruct (new_testResults report) as [v|]; [|cbn; split; reflexivity].
  destruct (ToBoolean_json v); [|cbn; split; reflexivity].
  cbn [ToBoolean_json]. rewrite (printed_text_is_truthy rt v Hwf).
  rewrite (parse_stringify rt v Hwf). split; reflexivity.
Qed.

Lemma addLabReport_round_trip_witness :
  cache (addLabReport IntegerEngine.engine
           {| select_id_single := select_id_single Scenario.accepting;
              update_eq_id := update_eq_id Scenario.accepting;
              insert_row := insert_row Scenario.accepting;
              insert_select := fun _ r => {| data := Some (echoed "r7" r); error := None |};
              delete_eq_id_eq_user := delete_eq_id_eq_user Scenario.accepting |}
           (Some Scenario.patient) [Scenario.a_report "r1"]
           {| new_name := "Lipids"; new_date := "2024-02-01"; new_status := "pending";
              new_fileUrl := Some EmptyString;
              new_testResults := Some (JArray [JObject [("testName", JString "LDL")]]) |})
  = [Scenario.a_report "r1";
     {| report_id := "r7"; report_name := "Lipids"; report_date := "2024-02-01";
        status := Some "pending"; fileUrl := None;
        testResults := Some (JArray [JObject [("testName", JString "LDL")]]) |}].
Proof.
  refine (proj2 (addLabReport_round_trip IntegerEngine.engine _ Scenario.patient
                   [Scenario.a_report "r1"] _ "r7" _ _)).
  - intros r. reflexivity.
  - cbn. repeat split; try distinct_keys.
Defined.

Lemma transform_row_of_returned rt first added :
  returned_report rt first = Some added ->
  text_array_or_null (row_testresults first) ->
  fst (transform_row rt first) = with_conforming_status added.
Proof.
  unfold returned_report, transform_row, fetched_testResults, with_conforming_status.
  cbn [fst]. intros Hadded Hshape.
  destruct (row_testresults first) as [| | |s|l|]; try contradiction;
    cbn [ToBoolean_json] in *.
  - injection Hadded as <-. reflexivity.
  - destruct (ToBoolean_string s); [|injection Hadded as <-; reflexivity].
    destruct (JSON.parse rt s); [|discriminate]. injection Hadded as <-. reflexivity.
  - injection Hadded as <-. reflexivity.
Qed.

(** The report a successful [addLabReport] appends and the report the loader
    builds from the same row agree on everything but the status, when the
    row's test results are [null], a text or an array: the writer caches the
    row's status as it is, the loader one of the three statuses. They are
    the same report when the row's status is one of the three. *)
Theorem addLabReport_agrees_with_loader rt R u reports report first others :
  (forall r, insert_select R "health_lab_reports" r
             = {| data := Some (first :: others); error := None |}) ->
  returned (addLabReport rt R (Some u) reports report) = Return_bool true ->
  text_array_or_null (row_testresults first) ->
  exists added,
    cache (addLabReport rt R (Some u) reports report) = reports ++ [added] /\
    stored (fetchLabReports rt (lab_answer [first])) = Some [with_conforming_status added] /\
    (known_status (status added) ->
     stored (fetchLabReports rt (lab_answer [first])) = Some [added]).
Proof.
  intros Hanswer Hok Hshape.
  destruct (addLabReport_success _ _ _ _ _ Hok) as (sent & f & o & added & Hsent & Hadded & _ & Hc).
  rewrite Hanswer in Hsent. injection Hsent as <- <-.
  exists added. split; [exact Hc|].
  rewrite fetchLabReports_stored. cbn [map].
  rewrite (transform_row_of_returned _ _ _ Hadded Hshape). split; [reflexivity|].
  intros Hknown. do 2 f_equal. unfold with_conforming_status.
  destruct added as [i n d s f' t]. cbn in *. f_equal.
  destruct Hknown as [->|[->| ->]]; reflexivity.
Qed.

Lemma addLabReport_agrees_with_loader_witness :
  exists added,
    cache (addLabReport IntegerEngine.engine
             {| select_id_single := select_id_single Scenario.accepting;
                update_eq_id := update_eq_id Scenario.accepting;
                insert_row := insert_row Scenario.accepting;
                insert_select := fun _ _ =>
                  {| data := Some [{| row_id := "r7"; row_name := "Lipids";
                                      row_date := "2024-02-01"; row_status := Some "archived";
                                      row_fileurl := None; row_testresults := JNull |}];
                     error := None |};
                delete_eq_id_eq_user := delete_eq_id_eq_user Scenario.accepting |}
             (Some Scenario.patient) [] Scenario.a_new_report) = [] ++ [added] /\
    status added = Some "archived" /\
    stored (fetchLabReports IntegerEngine.engine
              (lab_answer [{| row_id := "r7"; row_name := "Lipids";
                              row_date := "2024-02-01"; row_status := Some "archived";
                              row_fileurl := None; row_testresults := JNull |}]))
    = Some [with_conforming_status added] /\
    status (with_conforming_status added) = Some "pending".
Proof.
  destruct (addLabReport_agrees_with_loader IntegerEngine.engine
              {| select_id_single := select_id_single Scenario.accepting;
                 update_eq_id := update_eq_id Scenario.accepting;
                 insert_row := insert_row Scenario.accepting;
                 insert_select := fun _ _ =>
                   {| data := Some [{| row_id := "r7"; row_name := "Lipids";
                                       row_date := "2024-02-01"; row_status := Some "archived";
                                       row_fileurl := None; row_testresults := JNull |}];
                      error := None |};
                 delete_eq_id_eq_user := delete_eq_id_eq_user Scenario.accepting |}
              Scenario.patient [] Scenario.a_new_report
              {| row_id := "r7"; row_name := "Lipids";
                 row_date := "2024-02-01"; row_status := Some "archived";
                 row_fileurl := None; row_testresults := JNull |} [])
    as (added & Hc & Hf & _).
  - intros r. reflexivity.
  - reflexivity.
  - exact I.
  - exists added. split; [exact Hc|].
    cbn in Hc. injection Hc as <-. split; [reflexivity|]. split; [exact Hf|reflexivity].
Defined.



Lemma deleteLabReport_success R u reports id :
  returned (deleteLabReport R (Some u) reports id) = Return_bool true ->
  cache (deleteLabReport R (Some u) reports id)
  = filter (fun report => report_id report <> id) reports.
Proof.
  unfold deleteLabReport. destruct (delete_eq_id_eq_user R _ id (uid u)); [discriminate|].
  reflexivity.
Qed.

Lemma deleteLabReport_accepted R u reports reports' id :
  returned (deleteLabReport R (Some u) reports id) = Return_bool true ->
  returned (deleteLabReport R (Some u) reports' id) = Return_bool true.
Proof.
  unfold deleteLabReport. destruct (delete_eq_id_eq_user R _ id (uid u)); [discriminate|].
  reflexivity.
Qed.

(** Deleting the report [addLabReport] has just appended gives back the
    reports there were before, provided none of them had the id the store
    assigned to the new one. *)
Theorem deleteLabReport_undoes_addLabReport rt R R' u reports report added :
  returned (addLabReport rt R (Some u) reports report) = Return_bool true ->
  last (cache (addLabReport rt R (Some u) reports report)) = Some added ->
  report_id added ∉ map report_id reports ->
  returned (deleteLabReport R' (Some u) (cache (addLabReport rt R (Some u) reports report))
              (report_id added)) = Return_bool true ->
  cache (deleteLabReport R' (Some u) (cache (addLabReport rt R (Some u) reports report))
           (report_id added)) = reports.
Proof.
  intros Hok Hlast Hfresh Hdel. rewrite (deleteLabReport_success _ _ _ _ Hdel).
  destruct (addLabReport_success _ _ _ _ _ Hok) as (_ & _ & _ & x & _ & _ & _ & Hc).
  rewrite Hc in *. rewrite last_snoc in Hlast. injection Hlast as ->.
  rewrite filter_app, filter_cons, filter_nil.
  destruct (decide (report_id added <> report_id added)) as [Hne|_]; [congruence|].
  rewrite app_nil_r. apply filter_all. intros r Hr Heq. apply Hfresh. rewrite <- Heq.
  now apply report_id_listed.
Qed.

Lemma deleteLabReport_undoes_addLabReport_witness :
  cache (deleteLabReport Scenario.accepting (Some Scenario.patient)
           (cache (addLabReport IntegerEngine.engine
                     {| select_id_single := select_id_single Scenario.accepting;
                        update_eq_id := update_eq_id Scenario.accepting;
                        insert_row := insert_row Scenario.accepting;
                        insert_select := fun _ r =>
                          {| data := Some (echoed "r7" r); error := None |};
                        delete_eq_id_eq_user := delete_eq_id_eq_user Scenario.accepting |}
                     (Some Scenario.patient) [Scenario.a_report "r1"] Scenario.a_new_report))
           "r7")
  = [Scenario.a_report "r1"].
Proof.
  refine (deleteLabReport_undoes_addLabReport IntegerEngine.engine _ Scenario.accepting
            Scenario.patient [Scenario.a_report "r1"] Scenario.a_new_report
            {| report_id := "r7"; report_name := "CBC"; report_date := "2024-01-02";
               status := Some "pending"; fileUrl := None; testResults := None |} _ _ _ _).
  - reflexivity.
  - reflexivity.
  - cbn. rewrite list_elem_of_singleton. discriminate.
  - reflexivity.
Defined.

Lemma filter_twice {A : Type} (P Q : A -> Prop) `{forall x, Decision (P x)}
    `{forall x, Decision (Q x)} (l : list A) :
  filter P (filter Q l) = filter Q (filter P l).
Proof.
  induction l as [|x l IH]; [reflexivity|].
  rewrite !filter_cons.
  destruct (decide (Q x)), (decide (P x)); rewrite ?filter_cons;
    repeat match goal with
           | |- context [decide ?p] => destruct (decide p); try tauto
           end; now rewrite IH.
Qed.

(** Successful deletions can be repeated and reordered: deleting an id a
    second time changes nothing, and deleting two ids leaves the same
    reports in either order. *)
Theorem deleteLabReport_repeats_and_commutes R u reports a b :
  returned (deleteLabReport R (Some u) reports a) = Return_bool true ->
  returned (deleteLabReport R (Some u) reports b) = Return_bool true ->
  let without_a := cache (deleteLabReport R (Some u) reports a) in
  let without_b := cache (deleteLabReport R (Some u) reports b) in
  cache (deleteLabReport R (Some u) without_a a) = without_a /\
  cache (deleteLabReport R (Some u) without_a b)
  = cache (deleteLabReport R (Some u) without_b a).
Proof.
  intros Ha Hb without_a without_b. subst without_a without_b.
  rewrite !(deleteLabReport_success R u _ a) by (eapply deleteLabReport_accepted, Ha).
  rewrite !(deleteLabReport_success R u _ b) by (eapply deleteLabReport_accepted, Hb).
  split.
  - apply filter_all. intros r Hr. apply list_elem_of_filter in Hr. tauto.
  - apply filter_twice.
Qed.

Lemma deleteLabReport_repeats_and_commutes_witness :
  cache (deleteLabReport Scenario.accepting (Some Scenario.patient)
           (cache (deleteLabReport Scenario.accepting (Some Scenario.patient)
                     [Scenario.a_report "r1"; Scenario.a_report "r2"; Scenario.a_report "r3"]
                     "r1")) "r3")
  = cache (deleteLabReport Scenario.accepting (Some Scenario.patient)
             (cache (deleteLabReport Scenario.accepting (Some Scenario.patient)
                       [Scenario.a_report "r1"; Scenario.a_report "r2"; Scenario.a_report "r3"]
                       "r3")) "r1").
Proof.
  refine (proj2 (deleteLabReport_repeats_and_commutes Scenario.accepting Scenario.patient
                   [Scenario.a_report "r1"; Scenario.a_report "r2"; Scenario.a_report "r3"]
                   "r1" "r3" _ _)); reflexivity.
Defined.

(** ** Writers: the requests they send, the toasts they show *)

Lemma check_then_write_toasts R table user_id for_update for_insert :
  toasts (snd (check_then_write R table user_id for_update for_insert)) = [].
Proof.
  unfold check_then_write.
  destruct (select_id_single R table user_id) as [[i|] [e|]]; cbn [data error];
    repeat match goal with
           | |- context [if ?b then _ else _] => destruct b
           | |- context [match ?o with Some _ => _ | None => _ end] => destruct o
           end; reflexivity.
Qed.

(** The three courses of the check-then-write sequence. *)
Lemma check_then_write_failed_check R table user_id for_update for_insert e :
  error (select_id_single R table user_id) = Some e -> code e <> "PGRST116" ->
  check_then_write R table user_id for_update for_insert
  = (Thrown e, [Remote (Select_id_single table user_id)]).
Proof.
  intros He Hcode. unfold check_then_write. rewrite He.
  apply String.eqb_neq in Hcode. now rewrite Hcode.
Qed.

Lemma check_then_write_update R table user_id for_update for_insert i :
  check_tolerated R table user_id ->
  data (select_id_single R table user_id) = Some i -> i <> EmptyString ->
  check_then_write R table user_id for_update for_insert
  = (match update_eq_id R table for_update i with
     | Some e => Thrown e
     | None => Completed
     end,
     [Remote (Select_id_single table user_id); Remote (Update_eq_id table for_update i)]).
Proof.
  intros Hcheck Hdata Hi. unfold check_then_write. rewrite Hdata.
  assert (Ht : ToBoolean_string i = true) by (destruct i; [congruence|reflexivity]).
  rewrite Ht. cbn [fst snd].
  destruct Hcheck as [->|(e & -> & Hcode)];
    [|apply String.eqb_eq in Hcode; rewrite Hcode];
    destruct (update_eq_id R table for_update i); reflexivity.
Qed.

Lemma check_then_write_insert R table user_id for_update for_insert :
  check_tolerated R table user_id ->
  data (select_id_single R table user_id) = None \/
  data (select_id_single R table user_id) = Some EmptyString ->
  check_then_write R table user_id for_update for_insert
  = (match insert_row R table for_insert with
     | Some e => Thrown e
     | None => Completed
     end,
     [Remote (Select_id_single table user_id); Remote (Insert table for_insert)]).
Proof.
  intros Hcheck Hdata. unfold check_then_write.
  destruct Hdata as [-> | ->]; cbn [ToBoolean_string String.eqb negb fst snd];
    (destruct Hcheck as [->|(e & -> & Hcode)];
     [|apply String.eqb_eq in Hcode; rewrite Hcode]);
    destruct (insert_row R table for_insert); reflexivity.
Qed.

(** A callback that sends the requests of the sequence and resolves to
    whether it completed follows the protocol. *)
Lemma check_then_write_protocol {C : Type} R table user_id for_update for_insert
    (out : outcome C) :
  remote_requests (trace out)
  = remote_requests (snd (check_then_write R table user_id for_update for_insert)) ->
  returned out
  = Return_bool (match fst (check_then_write R table user_id for_update for_insert) with
                 | Completed => true
                 | Thrown _ => false
                 end) ->
  upsert_protocol R table user_id for_update for_insert out.
Proof.
  intros Hreq Hret. unfold upsert_protocol. split; [|intros Hcheck; split].
  - intros e He Hcode.
    rewrite (check_then_write_failed_check _ _ _ _ _ _ He Hcode) in Hreq, Hret.
    split; assumption.
  - intros i Hdata Hi.
    rewrite (check_then_write_update _ _ _ _ _ _ Hcheck Hdata Hi) in Hreq, Hret.
    split; [exact Hreq|]. cbn [fst] in Hret. rewrite Hret.
    destruct (update_eq_id R table for_update i); split; split; congruence.
  - intros Hdata.
    rewrite (check_then_write_insert _ _ _ _ _ Hcheck Hdata) in Hreq, Hret.
    split; [exact Hreq|]. cbn [fst] in Hret. rewrite Hret.
    destruct (insert_row R table for_insert); split; split; congruence.
Qed.

Lemma requests_before_local (tr : list event) (tail : list event) :
  remote_requests tail = [] -> remote_requests (tr ++ tail) = remote_requests tr.
Proof. intros H. unfold remote_requests in *. now rewrite omap_app, H, app_nil_r. Qed.

(** Each of the four writers that keep one row per user (personal info,
    vitals, lifestyle, metrics) follows the protocol of [upsert_protocol] on
    its own table: no write after a failed check, an update of the row found
    and no insert, an insert when no row was found, [true] exactly when the
    store accepted the write. The three record writers send the merged
    record either way; the metrics writer sends the metrics text, with the
    user's id only on insert. *)
Theorem writers_follow_the_check (rt : runtime) (R : remote) (u : User) :
  (forall p upd,
     upsert_protocol R "health_personal_info" (uid u)
       (Row_personal (merge_PersonalInfo p upd (uid u)))
       (Row_personal (merge_PersonalInfo p upd (uid u)))
       (updatePersonalInfo R (Some u) p upd)) /\
  (forall v upd, exists new,
     upsert_protocol R "health_vitals" (uid u) (Row_vitals new) (Row_vitals new)
       (updateVitalsInfo R (Some u) v upd)) /\
  (forall l upd, exists new,
     upsert_protocol R "health_lifestyle" (uid u) (Row_lifestyle new) (Row_lifestyle new)
       (updateLifestyleInfo R (Some u) l upd)) /\
  (forall now st metricKey day value target,
     Get (metrics st) metricKey = Some target ->
     exists metricsForStorage,
       upsert_protocol R "health_metrics" (uid u)
         (Row_metrics None metricsForStorage)
         (Row_metrics (Some (uid u)) metricsForStorage)
         (addMetricReading rt R now (Some u) st metricKey day value)).
Proof.
  split; [|split; [|split]].
  - intros p upd. apply check_then_write_protocol; unfold updatePersonalInfo;
      destruct (check_then_write _ _ _ _ _) as [[|e] tr]; cbn [trace returned fst snd];
      try reflexivity; now apply requests_before_local.
  - intros v upd. unfold updateVitalsInfo.
    match goal with
    | |- context [check_then_write R _ _ (Row_vitals ?n) _] => exists n
    end.
    apply check_then_write_protocol;
      destruct (check_then_write _ _ _ _ _) as [[|e] tr]; cbn [trace returned fst snd];
      try reflexivity; now apply requests_before_local.
  - intros l upd. unfold updateLifestyleInfo.
    match goal with
    | |- context [check_then_write R _ _ (Row_lifestyle ?n) _] => exists n
    end.
    apply check_then_write_protocol;
      destruct (check_then_write _ _ _ _ _) as [[|e] tr]; cbn [trace returned fst snd];
      try reflexivity; now apply requests_before_local.
  - intros now st metricKey day value target Hget. unfold addMetricReading. rewrite Hget.
    match goal with
    | |- context [check_then_write R _ _ (Row_metrics None ?t) _] => exists t
    end.
    apply check_then_write_protocol;
      destruct (check_then_write _ _ _ _ _) as [[|e] tr]; cbn [trace returned fst snd];
      try reflexivity; now apply requests_before_local.
Qed.

Lemma writers_follow_the_check_witness :
  remote_requests (trace (updatePersonalInfo Scenario.failing_check (Some Scenario.patient)
                            Scenario.default_personalInfo
                            {| with_personal_id := None; with_personal_user_id := None;
                               with_full_name := Some "A"; with_age := None;
                               with_gender := None; with_address := None;
                               with_marital_status := None; with_children := None |}))
  = [Select_id_single "health_personal_info" "5f0c"].
Proof.
  refine (proj1 (proj1 (proj1 (writers_follow_the_check IntegerEngine.engine
                                 Scenario.failing_check Scenario.patient) _ _)
                   Scenario.unavailable _ _)).
  - reflexivity.
  - discriminate.
Defined.

Lemma check_then_write_completed R table user_id for_update for_insert :
  fst (check_then_write R table user_id for_update for_insert) = Completed ->
  exists w,
    remote_requests (snd (check_then_write R table user_id for_update for_insert))
    = [Select_id_single table user_id; w] /\
    ((exists i, w = Update_eq_id table for_update i) \/ w = Insert table for_insert).
Proof.
  unfold check_then_write.
  destruct (select_id_single R table user_id) as [[i|] [e|]]; cbn [data error];
    repeat match goal with
           | |- context [if ?b then _ else _] => destruct b
           | |- context [match ?o with Some _ => _ | None => _ end] => destruct o
           end; cbn; intros Hc; try discriminate Hc; eexists; split; try reflexivity; eauto.
Qed.

(** After a successful call of a record writer, the record in the cache is
    the very row the store was sent (as the update of the row found, or as
    the insert), it carries the active user's id whatever [user_id] the
    caller supplied, and a reload that finds this row shows the same
    record. *)
Theorem writers_store_the_row_sent (R : remote) (u : User) :
  (forall p upd,
     let out := updatePersonalInfo R (Some u) p upd in
     returned out = Return_bool true ->
     personal_user_id (cache out) = Some (uid u) /\
     wrote_row "health_personal_info" (uid u) (Row_personal (cache out)) out /\
     forall before,
       shown_after before (fetchPersonalInfo {| data := Some (cache out); error := None |})
       = cache out) /\
  (forall v upd,
     let out := updateVitalsInfo R (Some u) v upd in
     returned out = Return_bool true ->
     vitals_user_id (cache out) = Some (uid u) /\
     wrote_row "health_vitals" (uid u) (Row_vitals (cache out)) out /\
     forall before,
       shown_after before (fetchVitalsInfo {| data := Some (cache out); error := None |})
       = cache out) /\
  (forall l upd,
     let out := updateLifestyleInfo R (Some u) l upd in
     returned out = Return_bool true ->
     lifestyle_user_id (cache out) = Some (uid u) /\
     wrote_row "health_lifestyle" (uid u) (Row_lifestyle (cache out)) out /\
     forall before,
       shown_after before (fetchLifestyleInfo {| data := Some (cache out); error := None |})
       = cache out).
Proof.
  unfold wrote_row.
  split; [|split]; intros c upd; cbv zeta;
    unfold updatePersonalInfo, updateVitalsInfo, updateLifestyleInfo;
    match goal with
    | |- context [check_then_write ?R ?t ?i ?a ?b] =>
        pose proof (check_then_write_completed R t i a b) as Hsent;
        destruct (check_then_write R t i a b) as [[|e] tr]
    end; cbn [returned cache trace fst snd] in *; intros Hok; try discriminate Hok;
    (split; [reflexivity|]); (split; [|reflexivity]);
    destruct (Hsent eq_refl) as (w & Hreq & Hw); exists w;
    (split; [|exact Hw]); rewrite requests_before_local by reflexivity; exact Hreq.
Qed.

Lemma writers_store_the_row_sent_witness :
  personal_user_id
    (cache (updatePersonalInfo Scenario.accepting (Some Scenario.patient)
              Scenario.default_personalInfo
              {| with_personal_id := None; with_personal_user_id := Some "another";
                 with_full_name := Some "A"; with_age := None;
                 with_gender := None; with_address := None;
                 with_marital_status := None; with_children := None |}))
  = Some "5f0c".
Proof.
  refine (proj1 (proj1 (writers_store_the_row_sent Scenario.accepting Scenario.patient)
                   Scenario.default_personalInfo _ _)).
  reflexivity.
Defined.

Lemma toasts_after (tr tail : list event) :
  toasts tr = [] -> toasts (tr ++ tail) = toasts tail.
Proof. intros H. unfold toasts in *. now rewrite omap_app, H. Qed.

(** With a signed-in user, every call of [updatePersonalInfo],
    [updateVitalsInfo], [updateLifestyleInfo], [addMetricReading] and
    [deleteLabReport] shows exactly one toast, destructive exactly when the
    call does not return [true]. [addLabReport] does the same, except that it
    may return [false] with no toast at all. *)
Theorem writers_show_one_toast (rt : runtime) (R : remote) (u : User) :
  (forall p upd, one_toast (updatePersonalInfo R (Some u) p upd)) /\
  (forall v upd, one_toast (updateVitalsInfo R (Some u) v upd)) /\
  (forall l upd, one_toast (updateLifestyleInfo R (Some u) l upd)) /\
  (forall now st metricKey day value,
     one_toast (addMetricReading rt R now (Some u) st metricKey day value)) /\
  (forall reports id, one_toast (deleteLabReport R (Some u) reports id)) /\
  (forall reports report,
     let out := addLabReport rt R (Some u) reports report in
     one_toast out \/ (toasts (trace out) = [] /\ returned out = Return_bool false)).
Proof.
  unfold one_toast.
  split; [|split; [|split; [|split; [|split]]]].
  1-3: intros c upd;
    unfold updatePersonalInfo, updateVitalsInfo, updateLifestyleInfo;
    match goal with
    | |- context [check_then_write ?R ?t ?i ?a ?b] =>
        pose proof (check_then_write_toasts R t i a b) as Hnone;
        destruct (check_then_write R t i a b) as [[|e] tr]
    end; cbn [returned trace snd] in *; rewrite (toasts_after _ _ Hnone);
    eexists; split; reflexivity.
  - intros now st metricKey day value. unfold addMetricReading.
    destruct (Get (metrics st) metricKey) as [target|];
      [|eexists; split; reflexivity].
    match goal with
    | |- context [check_then_write ?R ?t ?i ?a ?b] =>
        pose proof (check_then_write_toasts R t i a b) as Hnone;
        destruct (check_then_write R t i a b) as [[|e] tr]
    end; cbn [returned trace snd] in *; rewrite (toasts_after _ _ Hnone);
      eexists; split; reflexivity.
  - intros reports id. unfold deleteLabReport.
    destruct (delete_eq_id_eq_user R _ id (uid u)); eexists; split; reflexivity.
  - intros reports report. cbv zeta. unfold addLabReport.
    destruct (insert_select R _ _) as [d [e|]]; cbn [error data];
      [left; eexists; split; reflexivity|].
    destruct d as [[|first others]|]; [right; split; reflexivity| |right; split; reflexivity].
    destruct (returned_report rt first); left; eexists; split; reflexivity.
Qed.

Lemma merge_PersonalInfo_twice p a b i :
  merge_PersonalInfo (merge_PersonalInfo p a i) b i
  = merge_PersonalInfo p (later_PersonalInfo a b) i.
Proof.
  destruct a as [a1 a2 a3 a4 a5 a6 a7 a8], b as [b1 b2 b3 b4 b5 b6 b7 b8].
  unfold merge_PersonalInfo, later_PersonalInfo, later. cbn.
  destruct b1, b3, b4, b5, b6, b7, b8; reflexivity.
Qed.

(** Record updates accumulate key by key: two successful calls of
    [updatePersonalInfo] in a row leave the cache that one successful call
    with the keys of the second over those of the first leaves, and so for
    [updateLifestyleInfo]. *)
Theorem updates_accumulate (R1 R2 R3 : remote) (u : User) :
  (forall p a b,
     let first := updatePersonalInfo R1 (Some u) p a in
     let second := updatePersonalInfo R2 (Some u) (cache first) b in
     let both := updatePersonalInfo R3 (Some u) p (later_PersonalInfo a b) in
     returned first = Return_bool true ->
     returned second = Return_bool true ->
     returned both = Return_bool true ->
     cache second = cache both) /\
  (forall l a b,
     let first := updateLifestyleInfo R1 (Some u) l a in
     let second := updateLifestyleInfo R2 (Some u) (cache first) b in
     let both := updateLifestyleInfo R3 (Some u) l (later_LifestyleInfo a b) in
     returned first = Return_bool true ->
     returned second = Return_bool true ->
     returned both = Return_bool true ->
     cache second = cache both).
Proof.
  split.
  - intros p a b first second both. subst first second both. unfold updatePersonalInfo.
    destruct (check_then_write R1 _ _ _ _) as [[|e1] tr1]; cbn [returned cache];
      [|discriminate].
    destruct (check_then_write R2 _ _ _ _) as [[|e2] tr2]; cbn [returned cache];
      [|discriminate].
    destruct (check_then_write R3 _ _ _ _) as [[|e3] tr3]; cbn [returned cache];
      [|discriminate].
    intros _ _ _. apply merge_PersonalInfo_twice.
  - intros l a b first second both. subst first second both. unfold updateLifestyleInfo.
    destruct (check_then_write R1 _ _ _ _) as [[|e1] tr1]; cbn [returned cache];
      [|discriminate].
    destruct (check_then_write R2 _ _ _ _) as [[|e2] tr2]; cbn [returned cache];
      [|discriminate].
    destruct (check_then_write R3 _ _ _ _) as [[|e3] tr3]; cbn [returned cache];
      [|discriminate].
    intros _ _ _.
    destruct a as [a1 a2 a3 a4 a5], b as [b1 b2 b3 b4 b5].
    unfold later_LifestyleInfo, later. cbn.
    destruct b1, b3, b4, b5; reflexivity.
Qed.

Lemma updates_accumulate_witness :
  cache (updatePersonalInfo Scenario.accepting (Some Scenario.patient)
           (cache (updatePersonalInfo Scenario.accepting (Some Scenario.patient)
                     Scenario.default_personalInfo
                     {| with_personal_id := None; with_personal_user_id := None;
                        with_full_name := Some "A"; with_age := Some 40%float;
                        with_gender := None; with_address := None;
                        with_marital_status := None; with_children := None |}))
           {| with_personal_id := None; with_personal_user_id := None;
              with_full_name := Some "B"; with_age := None;
              with_gender := None; with_address := None;
              with_marital_status := None; with_children := None |})
  = cache (updatePersonalInfo Scenario.accepting (Some Scenario.patient)
             Scenario.default_personalInfo
             {| with_personal_id := None; with_personal_user_id := None;
                with_full_name := Some "B"; with_age := Some 40%float;
                with_gender := None; with_address := None;
                with_marital_status := None; with_children := None |}).
Proof.
  refine (proj1 (updates_accumulate Scenario.accepting Scenario.accepting Scenario.accepting
                   Scenario.patient) Scenario.default_personalInfo _ _ _ _ _); reflexivity.
Defined.

Lemma writers_keep_cache_when_false_witness :
  cache (updatePersonalInfo Scenario.refusing_writes (Some Scenario.patient)
           Scenario.default_personalInfo
           {| with_personal_id := None; with_personal_user_id := None;
              with_full_name := Some "A"; with_age := None;
              with_gender := None; with_address := None;
              with_marital_status := None; with_children := None |})
  = Scenario.default_personalInfo.
Proof.
  refine (proj1 (writers_keep_cache_when_false IntegerEngine.engine Scenario.refusing_writes
                   Scenario.patient) Scenario.default_personalInfo _ _).
  reflexivity.
Defined.

(** ** Metrics: what a call touches, the ids it gives, what it stores *)



(** What any call that passed the membership test leaves in the cache,
    whether the write then succeeded or not. *)
Lemma addMetricReading_cache rt R now u st metricKey day value target :
  Get (metrics st) metricKey = Some target ->
  cache (addMetricReading rt R now (Some u) st metricKey day value) =
  {| metrics := metrics st;
     heap :=
       set_readings
         (set_readings (heap st) target
            (default [] (readings (heap_get (heap st) target)) ++
             [{| reading_id := metricKey +:+ ToString_integer now;
                 date := day; value := value |}]))
         target
         (Array_sort (compare_dates rt)
            (default [] (readings (heap_get (heap st) target)) ++
             [{| reading_id := metricKey +:+ ToString_integer now;
                 date := day; value := value |}])) |}.
Proof.
  intros Hget. unfold addMetricReading. rewrite Hget.
  destruct (check_then_write _ _ _ _ _) as [[|e] tr]; cbn [cache];
    now rewrite heap_get_set_readings.
Qed.



Lemma Z_to_int_proper (n : Z) : Z.to_int n <> Pos Nil /\ Z.to_int n <> Neg Nil.
Proof.
  destruct n as [|p|p]; cbn; split; try discriminate; intros H; injection H as H;
    now apply Unsigned.to_uint_nonnil in H.
Qed.

Lemma ToString_integer_inj (n m : Z) : ToString_integer n = ToString_integer m -> n = m.
Proof.
  unfold ToString_integer. intros H.
  destruct (Z_to_int_proper n) as [Hn Hn'], (Z_to_int_proper m) as [Hm Hm'].
  pose proof (NilZero.isi _ Hn Hn') as Hin. pose proof (NilZero.isi _ Hm Hm') as Him.
  rewrite H in Hin. rewrite Hin in Him. injection Him as Him.
  now apply DecimalZ.to_int_inj.
Qed.

Lemma append_cancel_l (k a b : string) : k +:+ a = k +:+ b -> a = b.
Proof.
  induction k as [|c k IH]; cbn; [tauto|]. intros H. injection H as H. now apply IH.
Qed.

Lemma own_readings_after rt R now u st metricKey day value target :
  own_property metricKey (metrics st) = Some target ->
  let out := addMetricReading rt R now (Some u) st metricKey day value in
  own_property metricKey (metrics (cache out)) = Some target /\
  readings (heap_get (heap (cache out)) target)
  = Some (Array_sort (compare_dates rt)
            (default [] (readings (heap_get (heap st) target)) ++
             [{| reading_id := metricKey +:+ ToString_integer now;
                 date := day; value := value |}])).
Proof.
  intros Hown out. subst out.
  rewrite (addMetricReading_cache _ _ _ _ _ _ _ _ _ (Get_own _ _ _ Hown)).
  cbn [metrics heap]. split; [exact Hown|]. now rewrite heap_get_set_readings.
Qed.

(** A reading's id is the metric key followed by the timestamp of the call,
    so within one metric the ids of two calls differ exactly when their
    timestamps differ: after two calls for the same declared key, made at
    [now] and [now'], the metric holds a reading under each of the two ids,
    these ids are equal only if [now = now'], and in that case the ids of the
    metric's readings are not distinct. *)
Theorem addMetricReading_ids_by_timestamp
    rt R R' now now' u st metricKey day day' value value' target :
  own_property metricKey (metrics st) = Some target ->
  let first := addMetricReading rt R now (Some u) st metricKey day value in
  let second := addMetricReading rt R' now' (Some u) (cache first) metricKey day' value' in
  exists after,
    readings <$> entry metricKey (visible (cache second)) = Some (Some after) /\
    (metricKey +:+ ToString_integer now) ∈ map reading_id after /\
    (metricKey +:+ ToString_integer now') ∈ map reading_id after /\
    (metricKey +:+ ToString_integer now = metricKey +:+ ToString_integer now' -> now = now') /\
    (now = now' -> ~ NoDup (map reading_id after)).
Proof.
  intros Hown first second.
  destruct (own_readings_after rt R now u st metricKey day value target Hown)
    as [Hown1 Hr1]. fold first in Hown1, Hr1.
  destruct (own_readings_after rt R' now' u (cache first) metricKey day' value' target Hown1)
    as [Hown2 Hr2]. fold second in Hown2, Hr2.
  rewrite Hr1 in Hr2. cbn [default from_option id] in Hr2.
  eexists. rewrite entry_visible, Hown2. cbn [fmap option_fmap option_map].
  split; [now rewrite Hr2|].
  set (before := default [] (readings (heap_get (heap st) target))) in *.
  set (a := {| reading_id := metricKey +:+ ToString_integer now; date := day;
               value := value |}) in *.
  set (b := {| reading_id := metricKey +:+ ToString_integer now'; date := day';
               value := value' |}) in *.
  assert (Hperm : Array_sort (compare_dates rt)
                    (Array_sort (compare_dates rt) (before ++ [a]) ++ [b])
                  ≡ₚ before ++ [a; b]).
  { rewrite Array_sort_permutation, Array_sort_permutation.
    now rewrite <- app_assoc. }
  assert (Hids : map reading_id
                   (Array_sort (compare_dates rt)
                      (Array_sort (compare_dates rt) (before ++ [a]) ++ [b]))
                 ≡ₚ map reading_id before ++ [reading_id a; reading_id b])
    by (rewrite Hperm, map_app; reflexivity).
  split; [rewrite Hids; apply elem_of_app; right; left|].
  split; [rewrite Hids; apply elem_of_app; right; right; left|].
  split.
  - intros Heq. now apply append_cancel_l, ToString_integer_inj in Heq.
  - intros -> Hnd. rewrite Hids in Hnd. apply NoDup_app in Hnd as (_ & _ & Hnd).
    apply NoDup_cons in Hnd as [Hnot _]. apply Hnot. left.
Qed.

Lemma addMetricReading_ids_by_timestamp_witness :
  exists after,
    readings <$> entry "weight"
      (visible (cache (addMetricReading IntegerEngine.engine Scenario.accepting 1704153600000
                         (Some Scenario.patient)
                         (cache (addMetricReading IntegerEngine.engine Scenario.accepting
                                   1704153600000 (Some Scenario.patient) default_metrics
                                   "weight" "2024-01-02" 70%float))
                         "weight" "2024-01-02" 71%float)))
    = Some (Some after) /\
    ~ NoDup (map reading_id after).
Proof.
  destruct (addMetricReading_ids_by_timestamp IntegerEngine.engine Scenario.accepting
              Scenario.accepting 1704153600000 1704153600000 Scenario.patient
              default_metrics "weight" "2024-01-02" "2024-01-02" 70%float 71%float 15%nat)
    as (after & Hafter & _ & _ & _ & Hdup).
  - reflexivity.
  - exists after. split; [exact Hafter|]. now apply Hdup.
Defined.

(** After a successful call, the store holds what the cache shows: the
    write the call sent (the update of the row found, or the insert under
    the user's id) carried the JSON text of exactly the document now in the
    cache; and when that document is well-formed, the loader, handed that
    text back, stores the document's value and logs nothing. *)
Theorem addMetricReading_stores_what_it_shows rt R now u st metricKey day value :
  let out := addMetricReading rt R now (Some u) st metricKey day value in
  returned out = Return_bool true ->
  let metricsForStorage := encode_metrics rt (visible (cache out)) in
  (exists w,
     remote_requests (trace out) = [Select_id_single "health_metrics" (uid u); w] /\
     ((exists i, w = Update_eq_id "health_metrics" (Row_metrics None metricsForStorage) i) \/
      w = Insert "health_metrics" (Row_metrics (Some (uid u)) metricsForStorage))) /\
  (document_well_formed rt (visible (cache out)) ->
   fetchMetrics rt (metrics_answer (JString metricsForStorage))
   = {| stored := Some (document_to_json (visible (cache out)));
        logged := []; isLoading := false |}).
Proof.
  cbv zeta. unfold addMetricReading.
  destruct (Get (metrics st) metricKey) as [target|]; [|discriminate].
  match goal with
  | |- context [check_then_write ?R ?t ?i ?a ?b] =>
      pose proof (check_then_write_completed R t i a b) as Hsent;
      destruct (check_then_write R t i a b) as [[|e] tr]
  end; cbn [returned cache trace fst snd] in *; intros Hok; [|discriminate Hok].
  split.
  - destruct (Hsent eq_refl) as (w & Hreq & Hw). exists w.
    split; [|exact Hw]. rewrite requests_before_local by reflexivity. exact Hreq.
  - intros Hwf. unfold fetchMetrics, metrics_answer.
    cbn [error data row_metrics ToBoolean_json]. unfold encode_metrics.
    rewrite stringify_truthy by exact I.
    now rewrite parse_stringify by now apply document_json_well_formed.
Qed.

Lemma addMetricReading_stores_what_it_shows_witness :
  exists w,
    remote_requests
      (trace (addMetricReading IntegerEngine.engine Scenario.accepting 1704153600000
                (Some Scenario.patient) Scenario.unsorted_weight "weight" "2024-01-02"
                70%float))
    = [Select_id_single "health_metrics" "5f0c"; w].
Proof.
  destruct (addMetricReading_stores_what_it_shows IntegerEngine.engine Scenario.accepting
              1704153600000 Scenario.patient Scenario.unsorted_weight "weight" "2024-01-02"
              70%float eq_refl) as [(w & Hw & _) _].
  exists w. exact Hw.
Defined.

(** ** The body mass index at a zero height *)

Lemma Prim2SF_zero_of_is_zero (x : number) :
  PrimFloat.is_zero x = true -> exists s, Prim2SF x = S754_zero s.
Proof.
  unfold PrimFloat.is_zero. rewrite FloatAxioms.eqb_spec.
  change (Prim2SF PrimFloat.zero) with (S754_zero false).
  destruct (Prim2SF x) as [s|s| |s m e]; cbn; try discriminate; eauto;
    destruct s; discriminate.
Qed.

Lemma not_finite_of_Prim2SF (x : number) :
  match Prim2SF x with
  | S754_infinity _ | S754_nan => True
  | _ => False
  end ->
  PrimFloat.is_finite x = false.
Proof.
  intros H.
  assert (Hx : x = infinity \/ x = neg_infinity \/ x = nan).
  { destruct (Prim2SF x) as [s|[|]| |s m e] eqn:E; try contradiction.
    - right. left. apply Prim2SF_inj. now rewrite E.
    - left. apply Prim2SF_inj. now rewrite E.
    - right. right. apply Prim2SF_inj. now rewrite E. }
  destruct Hx as [->|[->| ->]]; reflexivity.
Qed.

Lemma toFixed1_not_finite (x : number) :
  match Prim2SF x with
  | S754_infinity _ | S754_nan => True
  | _ => False
  end ->
  parseFloat (toFixed1 x) = x.
Proof.
  unfold toFixed1. destruct (Prim2SF x); try contradiction; reflexivity.
Qed.

(** The quotient the index is computed from, when the height is a zero. *)
Lemma quotient_at_zero_height (h w : number) :
  PrimFloat.is_zero h = true ->
  Prim2SF (w / ((h / 100) * (h / 100)))%float
  = match Prim2SF w with
    | S754_zero _ | S754_nan => S754_nan
    | S754_infinity s | S754_finite s _ _ => S754_infinity s
    end.
Proof.
  intros Hz. destruct (Prim2SF_zero_of_is_zero h Hz) as [s Hs].
  rewrite FloatAxioms.div_spec, FloatAxioms.mul_spec, FloatAxioms.div_spec, Hs.
  change (Prim2SF 100%float) with (S754_finite false 7036874417766400 (-46)).
  cbn [SF64div SFdiv SF64mul SFmul].
  destruct (Prim2SF w) as [sw|sw| |sw mw ew]; cbn; try reflexivity;
    now destruct s, sw.
Qed.

Lemma calculateBMI_at_zero_height (h w : number) :
  PrimFloat.is_zero h = true ->
  calculateBMI h w = (w / ((h / 100) * (h / 100)))%float /\
  PrimFloat.is_finite (calculateBMI h w) = false.
Proof.
  intros Hz. pose proof (quotient_at_zero_height h w Hz) as Hq.
  assert (Hnf : match Prim2SF (w / ((h / 100) * (h / 100)))%float with
                | S754_infinity _ | S754_nan => True
                | _ => False
                end) by (rewrite Hq; now destruct (Prim2SF w)).
  unfold calculateBMI. cbv zeta. rewrite (toFixed1_not_finite _ Hnf).
  split; [reflexivity|now apply not_finite_of_Prim2SF].
Qed.

(** [calculateBMI] does not guard the division: at a height of zero (of
    either sign) its result is never a finite number, whatever the weight.
    It is [NaN] for a weight that is a zero or [NaN], and otherwise the
    infinity with the sign of the weight; so it is [Infinity] for every
    weight above zero. *)
Theorem calculateBMI_zero_height (h w : number) :
  PrimFloat.is_zero h = true ->
  PrimFloat.is_finite (calculateBMI h w) = false /\
  Prim2SF (calculateBMI h w)
  = match Prim2SF w with
    | S754_zero _ | S754_nan => S754_nan
    | S754_infinity s | S754_finite s _ _ => S754_infinity s
    end /\
  ((0 <? w)%float = true -> calculateBMI h w = infinity).
Proof.
  intros Hz. pose proof (quotient_at_zero_height h w Hz) as Hq.
  destruct (calculateBMI_at_zero_height h w Hz) as [-> Hnf].
  split; [exact Hnf|]. split; [exact Hq|].
  rewrite FloatAxioms.ltb_spec.
  intros Hpos. apply Prim2SF_inj. rewrite Hq.
  change (Prim2SF 0%float) with (S754_zero false) in Hpos.
  change (Prim2SF infinity) with (S754_infinity false).
  destruct (Prim2SF w) as [sw|[|]| |[|] mw ew]; cbn in Hpos; try discriminate Hpos;
    reflexivity.
Qed.

Lemma calculateBMI_zero_height_witness :
  PrimFloat.is_finite (calculateBMI 0%float 68%float) = false /\
  calculateBMI 0%float 68%float = infinity.
Proof.
  destruct (calculateBMI_zero_height 0%float 68%float) as (Hnf & _ & Hinf).
  - reflexivity.
  - split; [exact Hnf|]. apply Hinf. reflexivity.
Defined.

(** Once the cache holds a zero height, every successful update that does
    not bring a non-zero height stores a bmi that is not finite: the [||]
    falls back on the cached zero. *)
Theorem updateVitalsInfo_after_zero_height R u vitals updatedInfo :
  PrimFloat.is_zero (height vitals) = true ->
  match with_height updatedInfo with
  | Some x => ToBoolean_number x = false
  | None => True
  end ->
  returned (updateVitalsInfo R (Some u) vitals updatedInfo) = Return_bool true ->
  PrimFloat.is_finite (bmi (cache (updateVitalsInfo R (Some u) vitals updatedInfo))) = false.
Proof.
  intros Hz Hsupplied Hok. rewrite (updateVitalsInfo_success _ _ _ _ Hok). cbn [bmi].
  replace (or_number (with_height updatedInfo) (height vitals)) with (height vitals).
  - now apply calculateBMI_at_zero_height.
  - unfold or_number. destruct (with_height updatedInfo) as [x|]; [now rewrite Hsupplied|].
    reflexivity.
Qed.

Lemma updateVitalsInfo_after_zero_height_witness :
  PrimFloat.is_finite
    (bmi (cache (updateVitalsInfo Scenario.accepting (Some Scenario.patient)
                   (cache (updateVitalsInfo Scenario.accepting (Some Scenario.patient)
                             Scenario.default_vitals (Scenario.only_height 0%float)))
                   (Scenario.only_weight 70%float)))) = false.
Proof.
  apply (updateVitalsInfo_after_zero_height Scenario.accepting Scenario.patient
           (cache (updateVitalsInfo Scenario.accepting (Some Scenario.patient)
                     Scenario.default_vitals (Scenario.only_height 0%float)))
           (Scenario.only_weight 70%float)).
  - reflexivity.
  - exact I.
  - reflexivity.
Defined.

(** ** The authentication provider *)

Section Provider.

Import AuthProvider.

Context (supabase : client).

Lemma checkProfileCompletion_storage ls userId :
  fst (checkProfileCompletion supabase ls userId) = ls \/
  exists flag,
    fst (checkProfileCompletion supabase ls userId)
    = <["hasCompletedProfile" := Boolean_toString flag]> ls.
Proof.
  unfold checkProfileCompletion.
  destruct (has_completed_profile supabase userId) as [answer|]; [|now left].
  destruct (error answer); [now left|]. right. eexists. reflexivity.
Qed.

Lemma flags_well_formed_signed_in ls flag :
  flags_well_formed ls ->
  flags_well_formed
    (<["hasCompletedProfile" := Boolean_toString flag]> (<["isAuthenticated" := "true"]> ls)).
Proof.
  intros [Ha Hc]. split; intros v.
  - rewrite lookup_insert_ne by discriminate. rewrite lookup_insert_eq. congruence.
  - rewrite lookup_insert_eq. intros [= <-]. destruct flag; cbn; tauto.
Qed.

Lemma flags_well_formed_authenticated ls :
  flags_well_formed ls -> flags_well_formed (<["isAuthenticated" := "true"]> ls).
Proof.
  intros [Ha Hc]. split; intros v.
  - rewrite lookup_insert_eq. congruence.
  - rewrite lookup_insert_ne by discriminate. apply Hc.
Qed.

Lemma flags_well_formed_checked ls flag :
  flags_well_formed ls ->
  flags_well_formed (<["hasCompletedProfile" := Boolean_toString flag]> ls).
Proof.
  intros [Ha Hc]. split; intros v.
  - rewrite lookup_insert_ne by discriminate. apply Ha.
  - rewrite lookup_insert_eq. intros [= <-]. destruct flag; cbn; tauto.
Qed.

Lemma flags_well_formed_cleared ls :
  flags_well_formed (delete "hasCompletedProfile" (delete "isAuthenticated" ls)).
Proof.
  split; intros v.
  - rewrite lookup_delete_ne by discriminate. rewrite lookup_delete_eq. discriminate.
  - rewrite lookup_delete_eq. discriminate.
Qed.

Lemma same_elsewhere_refl ls : same_elsewhere ls ls.
Proof. intros k _ _. reflexivity. Qed.

Lemma same_elsewhere_signed_in ls v w :
  same_elsewhere ls (<["hasCompletedProfile" := v]> (<["isAuthenticated" := w]> ls)).
Proof. intros k Ha Hc. now rewrite !lookup_insert_ne by congruence. Qed.

Lemma same_elsewhere_authenticated ls w :
  same_elsewhere ls (<["isAuthenticated" := w]> ls).
Proof. intros k Ha Hc. now rewrite lookup_insert_ne by congruence. Qed.

Lemma same_elsewhere_checked ls ls' v :
  same_elsewhere ls ls' -> same_elsewhere ls (<["hasCompletedProfile" := v]> ls').
Proof. intros H k Ha Hc. rewrite lookup_insert_ne by congruence. now apply H. Qed.

Lemma same_elsewhere_cleared ls :
  same_elsewhere ls (delete "hasCompletedProfile" (delete "isAuthenticated" ls)).
Proof. intros k Ha Hc. now rewrite !lookup_delete_ne by congruence. Qed.

Lemma signIn_storage st ls email password :
  localStorage (signIn supabase st ls email password) = ls \/
  exists flag,
    localStorage (signIn supabase st ls email password)
    = <["hasCompletedProfile" := Boolean_toString flag]> (<["isAuthenticated" := "true"]> ls).
Proof.
  unfold signIn.
  destruct (signInWithPassword supabase email password) as [answer|]; [|now left].
  destruct (sign_in_error answer); [now left|].
  destruct (sign_in_session answer) as [s|]; [|now left].
  destruct (has_completed_profile supabase (uid (session_user s))) as [profile|]; [|now left].
  right. eexists. reflexivity.
Qed.

(** [signIn] never sets the user or the session itself and always ends with
    the loading flag cleared. Either it navigates nowhere and leaves the
    storage as it was, or it navigates exactly once, having stored
    [isAuthenticated] as "true" and [hasCompletedProfile] as the very flag
    it navigates by: to "/dashboard" with "true" stored, to "/profile-setup"
    with "false" stored. *)
Theorem signIn_navigates_by_stored_flag st ls email password :
  let out := signIn supabase st ls email password in
  state out = settled_state st /\
  ((navigations (effects out) = [] /\ localStorage out = ls) \/
   (navigations (effects out) = ["/dashboard"] /\
    localStorage out
    = <["hasCompletedProfile" := "true"]> (<["isAuthenticated" := "true"]> ls)) \/
   (navigations (effects out) = ["/profile-setup"] /\
    localStorage out
    = <["hasCompletedProfile" := "false"]> (<["isAuthenticated" := "true"]> ls))).
Proof.
  cbv zeta. unfold signIn.
  destruct (signInWithPassword supabase email password) as [answer|];
    [|split; [reflexivity|now left]].
  destruct (sign_in_error answer); [split; [reflexivity|now left]|].
  destruct (sign_in_session answer) as [s|]; [|split; [reflexivity|now left]].
  destruct (has_completed_profile supabase (uid (session_user s))) as [profile|];
    [|split; [reflexivity|now left]].
  split; [reflexivity|]. right.
  destruct (completed (data profile)); [left|right]; split; reflexivity.
Qed.

(** The "Login successful" toast is shown before the profile is looked up:
    when the service accepts the credentials with a session and the lookup
    of the profile then rejects, the user is shown "Login successful"
    followed by "Login failed", nothing is stored and nothing navigated. *)
Theorem signIn_welcomes_before_lookup st ls email password answer s :
  signInWithPassword supabase email password = Fulfilled answer ->
  sign_in_error answer = None ->
  sign_in_session answer = Some s ->
  has_completed_profile supabase (uid (session_user s)) = Rejected ->
  let out := signIn supabase st ls email password in
  shown (effects out)
  = [{| title := "Login successful"; description := "Welcome to Healthify Patient Portal";
        destructive := false |};
     {| title := "Login failed"; description := "An unexpected error occurred";
        destructive := true |}] /\
  navigations (effects out) = [] /\
  localStorage out = ls.
Proof.
  intros Ha He Hs Hp. cbv zeta. unfold signIn. rewrite Ha, He, Hs, Hp.
  repeat split.
Qed.

(** [signUp] returns [true] exactly when the service answered without an
    error and with a user. It then stores [isAuthenticated] as "true" and
    [hasCompletedProfile] as "false" and sets the user and the session of
    the answer, a session that may be absent. When it returns [false] it has
    changed neither the storage nor the user or session. Either way the
    loading flag ends cleared. *)
Theorem signUp_true_when_user_created st ls email password :
  let out := signUp supabase st ls email password in
  (resolved out = true <->
   exists answer u,
     auth_signUp supabase email password = Fulfilled answer /\
     sign_up_error answer = None /\ sign_up_user answer = Some u) /\
  (forall answer u,
     auth_signUp supabase email password = Fulfilled answer ->
     sign_up_error answer = None -> sign_up_user answer = Some u ->
     state out = {| user := Some u; session := sign_up_session answer; isLoading := false |} /\
     localStorage out
     = <["hasCompletedProfile" := "false"]> (<["isAuthenticated" := "true"]> ls)) /\
  (resolved out = false -> state out = settled_state st /\ localStorage out = ls) /\
  isLoading (state out) = false.
Proof.
  cbv zeta. unfold signUp.
  destruct (auth_signUp supabase email password) as [answer|].
  2: { split; [|split; [|split]].
       - split; [discriminate|]. intros (a & u & Ha & _). discriminate Ha.
       - intros a u Ha. discriminate Ha.
       - intros _. split; reflexivity.
       - reflexivity. }
  destruct (sign_up_error answer) as [e|] eqn:He.
  { split; [|split; [|split]].
    - split; [discriminate|]. intros (a & u & Ha & Hn & _). injection Ha as <-. congruence.
    - intros a u Ha Hn. injection Ha as <-. congruence.
    - intros _. split; reflexivity.
    - reflexivity. }
  destruct (sign_up_user answer) as [u|] eqn:Hu.
  - split; [|split; [|split]].
    + split; [intros _; eauto|reflexivity].
    + intros a u' Ha _ Hu'. injection Ha as <-. rewrite Hu in Hu'. injection Hu' as <-.
      split; reflexivity.
    + discriminate.
    + reflexivity.
  - split; [|split; [|split]].
    + split; [discriminate|]. intros (a & u & Ha & _ & Hu'). injection Ha as <-. congruence.
    + intros a u Ha _ Hu'. injection Ha as <-. congruence.
    + intros _. split; reflexivity.
    + reflexivity.
Qed.

(** [signOut] does not look at what the service answers: whenever the call
    resolves, even with an error, the user and the session are dropped, the
    two flags are removed from the storage (and nothing else is), and the
    one navigation is to "/login". When the call rejects, the user, the
    session and the storage stay as they were and nothing is navigated.
    Either way the loading flag ends cleared. *)
Theorem signOut_ignores_the_answer st ls :
  let out := signOut supabase st ls in
  (forall answer,
     auth_signOut supabase = Fulfilled answer ->
     user (state out) = None /\ session (state out) = None /\
     localStorage out !! "isAuthenticated" = None /\
     localStorage out !! "hasCompletedProfile" = None /\
     same_elsewhere ls (localStorage out) /\
     navigations (effects out) = ["/login"]) /\
  (auth_signOut supabase = Rejected ->
   state out = settled_state st /\ localStorage out = ls /\ navigations (effects out) = []) /\
  isLoading (state out) = false.
Proof.
  cbv zeta. unfold signOut. destruct (auth_signOut supabase) as [answer|].
  - split; [|split; [discriminate|reflexivity]].
    intros _ _. cbn [state localStorage effects user session].
    split; [reflexivity|]. split; [reflexivity|].
    split; [now rewrite lookup_delete_ne, lookup_delete_eq by discriminate|].
    split; [now rewrite lookup_delete_eq|].
    split; [apply same_elsewhere_cleared|reflexivity].
  - split; [discriminate|]. split; [|reflexivity]. intros _. repeat split.
Qed.

(** Every callback of the provider keeps the two flags well-formed, that is
    [isAuthenticated] "true" when present and [hasCompletedProfile] "true"
    or "false" when present, and touches no other key of the storage. *)
Theorem provider_keeps_flags_well_formed st ls :
  flags_well_formed ls ->
  (forall email password,
     flags_well_formed (localStorage (signIn supabase st ls email password)) /\
     same_elsewhere ls (localStorage (signIn supabase st ls email password))) /\
  (forall email password,
     flags_well_formed (localStorage (signUp supabase st ls email password)) /\
     same_elsewhere ls (localStorage (signUp supabase st ls email password))) /\
  (flags_well_formed (localStorage (signOut supabase st ls)) /\
   same_elsewhere ls (localStorage (signOut supabase st ls))) /\
  (forall origin email,
     localStorage (resetPassword supabase st ls origin email) = ls) /\
  (forall event currentSession,
     flags_well_formed (localStorage (onAuthStateChange supabase st ls event currentSession)) /\
     same_elsewhere ls (localStorage (onAuthStateChange supabase st ls event currentSession))) /\
  (flags_well_formed (localStorage (initializeAuth supabase st ls)) /\
   same_elsewhere ls (localStorage (initializeAuth supabase st ls))).
Proof.
  intros Hwf. split; [|split; [|split; [|split; [|split]]]].
  - intros email password.
    destruct (signIn_storage st ls email password) as [->|[flag ->]].
    + split; [exact Hwf|apply same_elsewhere_refl].
    + split; [now apply flags_well_formed_signed_in|apply same_elsewhere_signed_in].
  - intros email password. unfold signUp.
    destruct (auth_signUp supabase email password) as [answer|];
      [|split; [exact Hwf|apply same_elsewhere_refl]].
    destruct (sign_up_error answer); [split; [exact Hwf|apply same_elsewhere_refl]|].
    destruct (sign_up_user answer); [|split; [exact Hwf|apply same_elsewhere_refl]].
    split; [apply (flags_well_formed_signed_in ls false Hwf)|apply same_elsewhere_signed_in].
  - unfold signOut. destruct (auth_signOut supabase).
    + split; [apply flags_well_formed_cleared|apply same_elsewhere_cleared].
    + split; [exact Hwf|apply same_elsewhere_refl].
  - intros origin email. unfold resetPassword.
    destruct (resetPasswordForEmail supabase email _) as [[e|]|]; reflexivity.
  - intros event currentSession. unfold onAuthStateChange.
    destruct (String.eqb event "SIGNED_IN").
    + destruct currentSession as [s|]; cbn [localStorage].
      * destruct (checkProfileCompletion_storage (<["isAuthenticated" := "true"]> ls)
                    (uid (session_user s))) as [->|[flag ->]].
        -- split; [now apply flags_well_formed_authenticated
                  |apply same_elsewhere_authenticated].
        -- split; [now apply flags_well_formed_checked, flags_well_formed_authenticated
                  |apply same_elsewhere_checked, same_elsewhere_authenticated].
      * split; [now apply flags_well_formed_authenticated
               |apply same_elsewhere_authenticated].
    + destruct (String.eqb event "SIGNED_OUT"); cbn [localStorage].
      * split; [apply flags_well_formed_cleared|apply same_elsewhere_cleared].
      * split; [exact Hwf|apply same_elsewhere_refl].
  - unfold initializeAuth. destruct (getSession supabase) as [[s|]|]; cbn [localStorage].
    + destruct (checkProfileCompletion_storage (<["isAuthenticated" := "true"]> ls)
                  (uid (session_user s))) as [->|[flag ->]].
      * split; [now apply flags_well_formed_authenticated
               |apply same_elsewhere_authenticated].
      * split; [now apply flags_well_formed_checked, flags_well_formed_authenticated
               |apply same_elsewhere_checked, same_elsewhere_authenticated].
    + split; [exact Hwf|apply same_elsewhere_refl].
    + split; [exact Hwf|apply same_elsewhere_refl].
Qed.

(** After the listener has handled an event, and after [initializeAuth] has
    resolved, the user in the state is the user of the session in the state,
    whatever they were before; a SIGNED_OUT event leaves neither flag in the
    storage. The listener never touches the loading flag; [initializeAuth]
    clears it when it resolves, but when [getSession] rejects it rejects too
    and leaves the state, loading flag included, and the storage as they
    were. *)
Theorem session_events_keep_user_coherent st ls :
  (forall event currentSession,
     let out := onAuthStateChange supabase st ls event currentSession in
     coherent (state out) /\ session (state out) = currentSession /\
     isLoading (state out) = isLoading st) /\
  (forall currentSession,
     let out := onAuthStateChange supabase st ls "SIGNED_OUT" currentSession in
     localStorage out !! "isAuthenticated" = None /\
     localStorage out !! "hasCompletedProfile" = None) /\
  (let out := initializeAuth supabase st ls in
   match getSession supabase with
   | Fulfilled initialSession =>
       resolved out = Fulfilled tt /\ coherent (state out) /\
       session (state out) = initialSession /\ isLoading (state out) = false
   | Rejected =>
       resolved out = Rejected /\ state out = st /\ localStorage out = ls
   end).
Proof.
  split; [|split].
  - intros event currentSession. cbv zeta. unfold onAuthStateChange, coherent.
    destruct (String.eqb event "SIGNED_IN"); [destruct currentSession; repeat split|].
    destruct (String.eqb event "SIGNED_OUT"); repeat split.
  - intros currentSession. cbv zeta. unfold onAuthStateChange.
    cbn [String.eqb Ascii.eqb Bool.eqb localStorage]. cbn.
    split; [now rewrite lookup_delete_ne, lookup_delete_eq by discriminate|].
    now rewrite lookup_delete_eq.
  - cbv zeta. unfold initializeAuth, coherent.
    destruct (getSession supabase) as [[s|]|]; repeat split.
Qed.

End Provider.

Lemma signIn_welcomes_before_lookup_witness :
  AuthProvider.navigations
    (AuthProvider.effects
       (AuthProvider.signIn
          {| AuthProvider.signInWithPassword := fun _ _ =>
               Fulfilled {| AuthProvider.sign_in_session :=
                              Some {| AuthProvider.session_user := Scenario.patient |};
                            AuthProvider.sign_in_error := None |};
             AuthProvider.auth_signUp := AuthProvider.auth_signUp AuthProvider.unreachable;
             AuthProvider.auth_signOut := Rejected;
             AuthProvider.resetPasswordForEmail := fun _ _ => Rejected;
             AuthProvider.getSession := Rejected;
             AuthProvider.has_completed_profile := fun _ => Rejected |}
          AuthProvider.initial_state ∅ "a@b.c" "secret")) = [].
Proof.
  refine (proj1 (proj2 (signIn_welcomes_before_lookup _ AuthProvider.initial_state ∅
                          "a@b.c" "secret" _ _ _ _ _ _))); reflexivity.
Defined.

Lemma provider_keeps_flags_well_formed_witness :
  AuthProvider.flags_well_formed
    (AuthProvider.localStorage
       (AuthProvider.onAuthStateChange
          {| AuthProvider.signInWithPassword := fun _ _ => Rejected;
             AuthProvider.auth_signUp := fun _ _ => Rejected;
             AuthProvider.auth_signOut := Rejected;
             AuthProvider.resetPasswordForEmail := fun _ _ => Rejected;
             AuthProvider.getSession := Rejected;
             AuthProvider.has_completed_profile := fun _ =>
               Fulfilled {| data := Some (Some true); error := None |} |}
          AuthProvider.initial_state ∅ "SIGNED_IN"
          (Some {| AuthProvider.session_user := Scenario.patient |}))).
Proof.
  refine (proj1 (proj1 (proj2 (proj2 (proj2 (proj2
            (provider_keeps_flags_well_formed _ AuthProvider.initial_state ∅ _)))))
            "SIGNED_IN" (Some {| AuthProvider.session_user := Scenario.patient |}))).
  split; intros v Hv; rewrite lookup_empty in Hv; discriminate Hv.
Defined.

(** ** The profile setup page *)

Lemma fixed_flag_is_false (ls : gmap string string) :
  ProfileSetup.flag_is_true (ProfileSetup.fixed ls) "hasCompletedProfile" = false.
Proof.
  unfold ProfileSetup.flag_is_true, ProfileSetup.fixed. now rewrite lookup_insert_eq.
Qed.

Ltac page_cases out Hout ctx supabase ls :=
  destruct ctx as [[?u|] [?s|] [|]];
  cbn [AuthProvider.isLoading AuthProvider.user AuthProvider.session
       ProfileSetup.present andb negb] in Hout;
  destruct (ProfileSetup.flag_is_true ls "isAuthenticated") eqn:?Ha;
  destruct (ProfileSetup.flag_is_true ls "hasCompletedProfile") eqn:?Hc;
  cbn [andb negb] in Hout;
  destruct (AuthProvider.getSession supabase) as [[?s|]|] eqn:?Hs;
  rewrite ?fixed_flag_is_false in Hout; subst out.

Ltac page_settled :=
  cbn [AuthProvider.navigations AuthProvider.shown AuthProvider.calls omap
       ProfileSetup.page_effects ProfileSetup.pageLoading ProfileSetup.storage
       app length AuthProvider.destructive_toast option_bind mbind list_omap
       AuthProvider.isLoading AuthProvider.user AuthProvider.session];
  repeat match goal with
         | |- _ /\ _ => split
         | |- _ -> _ => intros ?
         end;
  try discriminate; try congruence; try reflexivity;
  try (left; repeat split; congruence);
  try (right; left; repeat split; congruence);
  try (right; right; repeat split; first [left; reflexivity | right; eauto]).

Lemma First_decides supabase ctx ls loading :
  ProfileSetup.decides supabase ctx ls loading
    (ProfileSetup.First.effect_body supabase ctx ls loading).
Proof.
  remember (ProfileSetup.First.effect_body supabase ctx ls loading) as out eqn:Hout.
  unfold ProfileSetup.First.effect_body, ProfileSetup.First.checkAuth,
    ProfileSetup.to_login in Hout.
  page_cases out Hout ctx supabase ls; unfold ProfileSetup.decides; page_settled.
Qed.

Lemma Second_decides supabase ctx ls loading :
  ProfileSetup.decides supabase ctx ls loading
    (ProfileSetup.Second.effect_body supabase ctx ls loading).
Proof.
  remember (ProfileSetup.Second.effect_body supabase ctx ls loading) as out eqn:Hout.
  unfold ProfileSetup.Second.effect_body, ProfileSetup.Second.checkAuth,
    ProfileSetup.to_login in Hout.
  page_cases out Hout ctx supabase ls; unfold ProfileSetup.decides; page_settled.
Qed.

(** One run of the page's effect, in either revision: while the provider is
    loading it does nothing; otherwise it navigates at most once, to
    "/login" only when the storage does not say "true" under
    [isAuthenticated] and the service has no session (with the one
    destructive toast), to "/dashboard" only when the storage says "true"
    under [hasCompletedProfile]; a run that navigates leaves [pageLoading]
    and the storage as they were; and the storage is written only to set the
    two flags after the service has reported a session. The first revision
    never asks the service when the context has a user, the second never
    when it has a user and a session. *)
Theorem checkAuth_decides (supabase : AuthProvider.client) (ctx : AuthProvider.auth_state)
    (ls : gmap string string) (loading : bool) :
  ProfileSetup.decides supabase ctx ls loading
    (ProfileSetup.First.effect_body supabase ctx ls loading) /\
  ProfileSetup.decides supabase ctx ls loading
    (ProfileSetup.Second.effect_body supabase ctx ls loading) /\
  (AuthProvider.user ctx <> None ->
   AuthProvider.calls
     (ProfileSetup.page_effects (ProfileSetup.First.effect_body supabase ctx ls loading)) = []) /\
  (AuthProvider.user ctx <> None -> AuthProvider.session ctx <> None ->
   AuthProvider.calls
     (ProfileSetup.page_effects (ProfileSetup.Second.effect_body supabase ctx ls loading)) = []).
Proof.
  split; [apply First_decides|]. split; [apply Second_decides|]. split.
  - remember (ProfileSetup.First.effect_body supabase ctx ls loading) as out eqn:Hout.
    unfold ProfileSetup.First.effect_body, ProfileSetup.First.checkAuth,
      ProfileSetup.to_login in Hout.
    page_cases out Hout ctx supabase ls; page_settled.
  - remember (ProfileSetup.Second.effect_body supabase ctx ls loading) as out eqn:Hout.
    unfold ProfileSetup.Second.effect_body, ProfileSetup.Second.checkAuth,
      ProfileSetup.to_login in Hout.
    page_cases out Hout ctx supabase ls; page_settled.
Qed.
